(** * Gestor Financeiro PRO ([app.py]): persistence layer and derived figures

    A shallow embedding of the data layer of [app.py] and of the figures its
    pages derive from the stored collections:

    - [load_data] / [save_data]: whole-file JSON collections behind the
      [st.cache_data] read cache;
    - [criar_backup_diario]: the daily snapshot of the list collections;
    - [processar_recorrentes]: the monthly materialisation of the recurring
      templates;
    - [buscar_cotacoes]: the best-effort price lookup;
    - the consolidated position of [page_investimentos] and the goal
      progress of [page_metas].

    Conventions of the embedding.

    - Python [float] amounts are idealised as exact rationals ([Qc]).
    - Python [str] values are byte strings (UTF-8); [lower], [upper] and
      [strip] act on the ASCII letters and the ASCII white space only.
    - The records of section 3 of the data model are Python dicts with a
      fixed set of keys; each kind is a Rocq record, and a stored list may
      mix kinds ([registro]), so that a key missing from a record raises
      [KeyError] as it does in the source.
    - Effects are explicit: a state ([estado]: the files on disk and the two
      [st.cache_data] caches) threaded through a state-and-exception monad
      in which a raised exception keeps the effects already performed.
    - What the environment decides (the clock, [uuid.uuid4], file-system
      failures, the answer of the quote provider) is an argument of the
      operation it affects. *)

From Stdlib Require Import ZArith QArith Qcanon String Ascii List Lia.
From stdpp Require Import base option list strings gmap.

Open Scope Z_scope.

(** ** Python built-ins used by the source *)

Module Py.

(** Exceptions that the modelled code can meet. *)
Inductive excecao :=
| KeyError | IndexError | ValueError | TypeError | AttributeError
| OSError | OutraExcecao.

(** The result of an expression that may raise. *)
Inductive resultado (A : Type) :=
| Ok (a : A)
| Raise (e : excecao).
Global Arguments Ok {A} a.
Global Arguments Raise {A} e.

Definition bind {A B} (r : resultado A) (k : A → resultado B) : resultado B :=
  match r with Ok a => k a | Raise e => Raise e end.

Global Instance resultado_ret : MRet resultado := λ A a, Ok a.
Global Instance resultado_bind : MBind resultado := λ A B k r, bind r k.
Global Instance resultado_fmap : FMap resultado := λ A B f r,
  match r with Ok a => Ok (f a) | Raise e => Raise e end.

(** *** Strings *)

Definition code (c : ascii) : nat := nat_of_ascii c.

Definition is_upper (c : ascii) : bool := (65 <=? code c)%nat && (code c <=? 90)%nat.
Definition is_lower (c : ascii) : bool := (97 <=? code c)%nat && (code c <=? 122)%nat.
Definition is_digit (c : ascii) : bool := (48 <=? code c)%nat && (code c <=? 57)%nat.

(** [str.isspace] on the ASCII range: TAB, LF, VT, FF, CR, FS, GS, RS, US
    and the space. *)
Definition is_space (c : ascii) : bool :=
  ((9 <=? code c)%nat && (code c <=? 13)%nat)
  || ((28 <=? code c)%nat && (code c <=? 32)%nat).

Definition lower_char (c : ascii) : ascii :=
  if is_upper c then ascii_of_nat (code c + 32) else c.
Definition upper_char (c : ascii) : ascii :=
  if is_lower c then ascii_of_nat (code c - 32) else c.

Fixpoint smap (f : ascii → ascii) (s : string) : string :=
  match s with
  | EmptyString => EmptyString
  | String c r => String (f c) (smap f r)
  end.

(** [s.lower()] and [s.upper()]. *)
Definition lower (s : string) : string := smap lower_char s.
Definition upper (s : string) : string := smap upper_char s.

Fixpoint lstrip (s : string) : string :=
  match s with
  | EmptyString => EmptyString
  | String c r => if is_space c then lstrip r else s
  end.

Fixpoint rstrip (s : string) : string :=
  match s with
  | EmptyString => EmptyString
  | String c r =>
      match rstrip r with
      | EmptyString => if is_space c then EmptyString else String c EmptyString
      | r' => String c r'
      end
  end.

(** [s.strip()]. *)
Definition strip (s : string) : string := rstrip (lstrip s).

(** [sub in s] on strings: [sub] occurs in [s] as a contiguous block. *)
Fixpoint contem (sub s : string) : bool :=
  String.prefix sub s
  || match s with
     | EmptyString => false
     | String _ r => contem sub r
     end.

(** [s.replace(old, new)] for a non-empty [old]: the occurrences are
    replaced from the left and do not overlap. [skip] counts the
    characters of an occurrence that are still to be dropped. *)
Fixpoint replace_aux (old new : string) (skip : nat) (s : string) : string :=
  match s with
  | EmptyString => EmptyString
  | String c r =>
      match skip with
      | S k => replace_aux old new k r
      | O =>
          if String.prefix old s
          then new +:+ replace_aux old new (String.length old - 1) r
          else String c (replace_aux old new O r)
      end
  end.

Definition replace (old new s : string) : string := replace_aux old new O s.

(** [s.split(sep)] for a one-character separator: never an empty list. *)
Fixpoint split (sep : ascii) (s : string) : list string :=
  match s with
  | EmptyString => [EmptyString]
  | String c r =>
      if Ascii.eqb c sep then EmptyString :: split sep r
      else match split sep r with
           | h :: t => String c h :: t
           | [] => [String c EmptyString]
           end
  end.

(** [l[i]] on a list, for [i >= 0]. *)
Definition index {A} (l : list A) (i : nat) : resultado A :=
  match l !! i with Some x => Ok x | None => Raise IndexError end.

Definition digit_val (c : ascii) : Z := Z.of_nat (code c - 48).

(** The digits of an integer literal: decimal digits, with single
    underscores allowed between two digits. [prev] tells whether the
    previous character was a digit. *)
Fixpoint digitos (s : string) (acc : Z) (prev : bool) : option Z :=
  match s with
  | EmptyString => if prev then Some acc else None
  | String c r =>
      if is_digit c then digitos r (10 * acc + digit_val c) true
      else if Ascii.eqb c "_" then (if prev then digitos r acc false else None)
      else None
  end.

(** [int(s)] for a string: surrounding white space, an optional sign,
    then the digits; anything else is a [ValueError]. *)
Definition int (s : string) : resultado Z :=
  let of_digits (neg : bool) (d : string) :=
    match d with
    | String c _ =>
        if is_digit c then
          match digitos d 0 false with
          | Some n => Ok (if neg then - n else n)
          | None => Raise ValueError
          end
        else Raise ValueError
    | EmptyString => Raise ValueError
    end in
  match strip s with
  | String "-" d => of_digits true d
  | String "+" d => of_digits false d
  | d => of_digits false d
  end.

(** *** Dates *)

(** The calendar part of a [datetime]. *)
Record datetime := { year : Z; month : Z; day : Z }.

Definition is_leap (y : Z) : bool :=
  ((y mod 4 =? 0) && negb (y mod 100 =? 0)) || (y mod 400 =? 0).

(** [pd.Timestamp(...).days_in_month] for a year and a month. *)
Definition days_in_month (y m : Z) : Z :=
  if m =? 2 then (if is_leap y then 29 else 28)
  else if (m =? 4) || (m =? 6) || (m =? 9) || (m =? 11) then 30
  else 31.

Definition valid (d : datetime) : Prop :=
  1 ≤ year d ≤ 9999 ∧ 1 ≤ month d ≤ 12
  ∧ 1 ≤ day d ≤ days_in_month (year d) (month d).

(** [d.replace(day=n)]: a [ValueError] when the day does not exist in the
    month. *)
Definition replace_day (d : datetime) (n : Z) : resultado datetime :=
  if (1 <=? n) && (n <=? days_in_month (year d) (month d))
  then Ok {| year := year d; month := month d; day := n |}
  else Raise ValueError.

Definition digit_char (n : Z) : ascii := ascii_of_nat (48 + Z.to_nat (n mod 10)).

Definition pad2 (n : Z) : string :=
  String (digit_char (n / 10)) (String (digit_char n) EmptyString).
Definition pad4 (n : Z) : string :=
  String (digit_char (n / 1000)) (String (digit_char (n / 100)) (pad2 n)).

(** [d.strftime('%Y-%m')] and [d.strftime('%Y-%m-%d')], for the four-digit
    years of [datetime]. *)
Definition strftime_Ym (d : datetime) : string :=
  pad4 (year d) +:+ "-" +:+ pad2 (month d).
Definition strftime_Ymd (d : datetime) : string :=
  strftime_Ym d +:+ "-" +:+ pad2 (day d).

(** *** Paths *)

(** [os.path.join(a, b)] for a relative [b], on POSIX. *)
Definition path_join (a b : string) : string := a +:+ "/" +:+ b.

(** [os.path.basename(p)]: what follows the last slash. *)
Definition basename (p : string) : string :=
  match reverse (split "/" p) with
  | last :: _ => last
  | [] => p
  end.

End Py.

Import Py.

(** ** Data model *)

(** The four kinds of stored records, with the keys of the source's dicts. *)
Record lancamento := {
  l_id : string; l_data : string; l_tipo : string; l_categoria : string;
  l_valor : Qc; l_descricao : string }.

Record recorrente := {
  r_id : string; r_tipo : string; r_categoria : string; r_valor : Qc;
  r_data_base : string }.

Record investimento := {
  i_id : string; i_ticker : string; i_classe : string; i_quantidade : Qc;
  i_preco_medio : Qc }.

Record meta := { m_id : string; m_nome : string; m_valor_alvo : Qc }.

(** An element of a stored list. *)
Inductive registro :=
| Lanc (l : lancamento)
| Rec (r : recorrente)
| Inv (i : investimento)
| Meta (m : meta).

(** A value of the configuration dict: a string ([ultimo_backup],
    [ultimo_mes_recorrente]) or the allocation targets ([metas_alocacao]). *)
Inductive campo :=
| Texto (s : string)
| Alocacao (a : gmap string Qc).

Global Instance campo_eq_dec : EqDecision campo.
Proof. solve_decision. Defined.

(** What [json.load] returns: a list of records or the configuration dict. *)
Inductive dados :=
| Lista (l : list registro)
| Dicionario (d : gmap string campo).

(** The content of a file: serialised [dados], or text that does not parse
    as JSON (for instance a truncated write). *)
Inductive arquivo :=
| Json (d : dados)
| Corrompido.

(** [item['tipo']], [item['categoria']], ... : a [KeyError] on a record
    that does not have the key. *)
Definition getitem_tipo (x : registro) : resultado string :=
  match x with
  | Lanc l => Ok (l_tipo l) | Rec r => Ok (r_tipo r) | _ => Raise KeyError
  end.
Definition getitem_categoria (x : registro) : resultado string :=
  match x with
  | Lanc l => Ok (l_categoria l) | Rec r => Ok (r_categoria r) | _ => Raise KeyError
  end.
Definition getitem_valor (x : registro) : resultado Qc :=
  match x with
  | Lanc l => Ok (l_valor l) | Rec r => Ok (r_valor r) | _ => Raise KeyError
  end.
Definition getitem_data_base (x : registro) : resultado string :=
  match x with Rec r => Ok (r_data_base r) | _ => Raise KeyError end.
Definition getitem_ticker (x : registro) : resultado string :=
  match x with Inv i => Ok (i_ticker i) | _ => Raise KeyError end.
Definition getitem_quantidade (x : registro) : resultado Qc :=
  match x with Inv i => Ok (i_quantidade i) | _ => Raise KeyError end.
Definition getitem_preco_medio (x : registro) : resultado Qc :=
  match x with Inv i => Ok (i_preco_medio i) | _ => Raise KeyError end.
Definition getitem_nome (x : registro) : resultado string :=
  match x with Meta m => Ok (m_nome m) | _ => Raise KeyError end.
Definition getitem_valor_alvo (x : registro) : resultado Qc :=
  match x with Meta m => Ok (m_valor_alvo m) | _ => Raise KeyError end.

(** [item.get('classe')] and [item.get('categoria', '')]. *)
Definition get_classe (x : registro) : option string :=
  match x with Inv i => Some (i_classe i) | _ => None end.
Definition get_categoria (x : registro) : string :=
  match x with
  | Lanc l => l_categoria l | Rec r => r_categoria r | _ => ""
  end.

(** ** Files *)

Definition DATA_DIR : string := "data".
Definition LANCAMENTOS_FILE : string := path_join DATA_DIR "lancamentos.json".
Definition INVESTIMENTOS_FILE : string := path_join DATA_DIR "investimentos.json".
Definition METAS_FILE : string := path_join DATA_DIR "metas.json".
Definition RECORRENTES_FILE : string := path_join DATA_DIR "recorrentes.json".
Definition CONFIG_FILE : string := path_join DATA_DIR "config.json".

(** ** State and effects *)

(** The files (a path that is not a key does not exist; directories and
    the [.lock] files of [FileLock] are left out), the cache of [load_data],
    keyed by its arguments, and the cache of [buscar_cotacoes], keyed by the
    list of tickers; a cache entry carries the time at which it was
    stored. *)
Record estado := {
  disco : gmap string arquivo;
  cache_load : gmap (string * bool) (Z * dados);
  cache_cotacoes : gmap (list string) (Z * gmap string Qc) }.

(** A computation on the state that may raise; the state it returns with an
    exception holds the effects performed before the exception. *)
Definition M (A : Type) : Type := estado → resultado A * estado.

Global Instance M_ret : MRet M := λ A a s, (Ok a, s).
Global Instance M_bind : MBind M := λ A B k m s,
  match m s with
  | (Ok a, s') => k a s'
  | (Raise e, s') => (Raise e, s')
  end.

Definition raise {A} (e : excecao) : M A := λ s, (Raise e, s).
Definition lift {A} (r : resultado A) : M A := λ s, (r, s).

(** How a write to a file can fail: the lock cannot be taken, the file
    cannot be opened for writing, or [json.dump] raises after the file was
    opened (a serialisation error, a full disk). *)
Inductive falha := SemFalha | FalhaLock | FalhaOpen | FalhaDump.

(** *** [load_data] *)

Definition TTL_LOAD : Z := 60.

(** The body of [load_data]: a missing file ([FileNotFoundError]) and an
    unparsable one ([JSONDecodeError]) give the empty dict or list. *)
Definition ler_arquivo (d : gmap string arquivo) (file_path : string)
    (is_dict : bool) : dados :=
  match d !! file_path with
  | Some (Json v) => v
  | Some Corrompido | None => if is_dict then Dicionario ∅ else Lista []
  end.

(** [load_data] under [st.cache_data(ttl=60)], called at time [agora]: an
    entry younger than the TTL is returned as it is; otherwise the body runs
    and its result is stored. [st.cache_data] hands out a copy of the stored
    value, so what a caller does to the list it received ([extend],
    [append], [remove]) does not reach the cache. *)
Definition load_data (agora : Z) (file_path : string) (is_dict : bool) : M dados :=
  λ s,
    let miss :=
      let v := ler_arquivo (disco s) file_path is_dict in
      (Ok v, {| disco := disco s;
                cache_load := <[(file_path, is_dict) := (agora, v)]> (cache_load s);
                cache_cotacoes := cache_cotacoes s |}) in
    match cache_load s !! (file_path, is_dict) with
    | Some (t, v) => if agora <? t + TTL_LOAD then (Ok v, s) else miss
    | None => miss
    end.

(** *** [save_data] *)

(** [open(file_path, 'w')] truncates the file before [json.dump] writes to
    it; [st.cache_data.clear()] runs after the [with] block, so only when
    the write went through. *)
Definition save_data (f : falha) (data : dados) (file_path : string) : M () :=
  λ s,
    match f with
    | FalhaLock | FalhaOpen => (Raise OSError, s)
    | FalhaDump =>
        (Raise OSError,
         {| disco := <[file_path := Corrompido]> (disco s);
            cache_load := cache_load s;
            cache_cotacoes := cache_cotacoes s |})
    | SemFalha =>
        (Ok (),
         {| disco := <[file_path := Json data]> (disco s);
            cache_load := ∅;
            cache_cotacoes := ∅ |})
    end.

(** *** [setup_data_files] *)

(** The files the application creates and maintains. *)
Definition data_files : list string :=
  [LANCAMENTOS_FILE; INVESTIMENTOS_FILE; METAS_FILE; RECORRENTES_FILE; CONFIG_FILE].

(** [setup_data_files]: each file that does not exist is created with the
    empty dict (the configuration) or the empty list. *)
Definition setup_data_files : M () :=
  λ s,
    let criar (d : gmap string arquivo) (file_path : string) :=
      match d !! file_path with
      | Some _ => d
      | None =>
          <[file_path :=
              Json (if String.eqb file_path CONFIG_FILE then Dicionario ∅ else Lista [])]> d
      end in
    (Ok (), {| disco := foldl criar (disco s) data_files;
               cache_load := cache_load s;
               cache_cotacoes := cache_cotacoes s |}).

(** *** Dict operations on loaded data *)

(** [config.get(key)]: a list has no [get]. *)
Definition dict_get (config : dados) (key : string) : resultado (option campo) :=
  match config with
  | Dicionario d => Ok (d !! key)
  | Lista _ => Raise AttributeError
  end.

(** [config[key] = v]: a list takes no string index. *)
Definition dict_setitem (config : dados) (key : string) (v : campo) : resultado dados :=
  match config with
  | Dicionario d => Ok (Dicionario (<[key := v]> d))
  | Lista _ => Raise TypeError
  end.

(** [v == s] for what [config.get] returned and a string [s]. *)
Definition eq_str (v : option campo) (s : string) : bool :=
  match v with
  | Some (Texto t) => String.eqb t s
  | Some (Alocacao _) | None => false
  end.

(** The truth value of loaded data: empty lists and dicts are false. *)
Definition truthy (d : dados) : bool :=
  match d with
  | Lista l => match l with [] => false | _ :: _ => true end
  | Dicionario m => negb (bool_decide (m = ∅))
  end.

(** [lancamentos.extend(novos)]: a dict has no [extend]. *)
Definition extend (lancamentos : dados) (novos : list lancamento) : resultado dados :=
  match lancamentos with
  | Lista l => Ok (Lista (l ++ (Lanc <$> novos)))
  | Dicionario _ => Raise AttributeError
  end.

(** ** Daily backup *)

Definition files_to_backup : list string :=
  [LANCAMENTOS_FILE; INVESTIMENTOS_FILE; RECORRENTES_FILE; METAS_FILE].

Definition backup_dir : string := path_join DATA_DIR "backup".

(** [os.path.join(backup_dir, f"{base_name}_{hoje_str}.json")]. *)
Definition backup_path (file_path hoje_str : string) : string :=
  path_join backup_dir (basename file_path +:+ "_" +:+ hoje_str +:+ ".json").

(** The copy loop: a file that exists is copied to its snapshot path;
    [fcopia] tells how [shutil.copy] fails on a source, if it does (a
    failure after the destination was opened leaves it truncated). *)
Fixpoint copiar (fcopia : string → falha) (hoje_str : string)
    (files : list string) : M () :=
  match files with
  | [] => mret ()
  | file_path :: rest =>
      λ s,
        match disco s !! file_path with
        | Some a =>
            let escrever (c : arquivo) :=
              {| disco := <[backup_path file_path hoje_str := c]> (disco s);
                 cache_load := cache_load s;
                 cache_cotacoes := cache_cotacoes s |} in
            match fcopia file_path with
            | SemFalha => copiar fcopia hoje_str rest (escrever a)
            | FalhaDump => (Raise OSError, escrever Corrompido)
            | FalhaLock | FalhaOpen => (Raise OSError, s)
            end
        | None => copiar fcopia hoje_str rest s
        end
  end.

(** The body of [criar_backup_diario] once the configuration is loaded. *)
Definition copiar_e_marcar (hoje : datetime) (fcopia : string → falha)
    (fsave : falha) (config : dados) : M () :=
  let hoje_str := strftime_Ymd hoje in
  ultimo ← lift (dict_get config "ultimo_backup");
  if negb (eq_str ultimo hoje_str) then
    copiar fcopia hoje_str files_to_backup;;
    config' ← lift (dict_setitem config "ultimo_backup" (Texto hoje_str));
    save_data fsave config' CONFIG_FILE
  else mret ().

(** [criar_backup_diario], run at cache time [agora] on the day [hoje];
    [fcopia] and [fsave] are the fates of its copies and of its write. *)
Definition criar_backup_diario (agora : Z) (hoje : datetime)
    (fcopia : string → falha) (fsave : falha) : M () :=
  config ← load_data agora CONFIG_FILE true;
  copiar_e_marcar hoje fcopia fsave config.

(** ** Recurring transactions *)

(** [int(recorrente['data_base'].split('-')[2])]. *)
Definition dia_criacao (recorrente : registro) : resultado Z :=
  data_base ← getitem_data_base recorrente;
  parte ← index (split "-" data_base) 2;
  int parte.

(** The body of the loop of [processar_recorrentes] for one template; [id]
    is what [uuid.uuid4()] returns for it. *)
Definition novo_lancamento (hoje : datetime) (id : string) (recorrente : registro)
    : resultado lancamento :=
  dia ← dia_criacao recorrente;
  let dia_lancamento := Z.min dia (days_in_month (year hoje) (month hoje)) in
  data ← replace_day hoje dia_lancamento;
  let data_lancamento_mes_atual := strftime_Ymd data in
  tipo ← getitem_tipo recorrente;
  categoria ← getitem_categoria recorrente;
  valor ← getitem_valor recorrente;
  Ok {| l_id := id;
        l_data := data_lancamento_mes_atual;
        l_tipo := tipo;
        l_categoria := categoria;
        l_valor := valor;
        l_descricao := "(Recorrente) " +:+ categoria |}.

(** The loop over the templates; the [i]-th call of [uuid.uuid4()] returns
    [uuid i]. *)
Fixpoint novos_lancamentos (hoje : datetime) (uuid : nat → string) (i : nat)
    (recorrentes : list registro) : resultado (list lancamento) :=
  match recorrentes with
  | [] => Ok []
  | recorrente :: rest =>
      novo ← novo_lancamento hoje (uuid i) recorrente;
      novos ← novos_lancamentos hoje uuid (S i) rest;
      Ok (novo :: novos)
  end.

(** [for recorrente in recorrentes] on loaded data: iterating a dict yields
    its keys, and indexing a key (a string) with ['data_base'] raises. *)
Definition gerar (hoje : datetime) (uuid : nat → string) (recorrentes : dados)
    : resultado (list lancamento) :=
  match recorrentes with
  | Lista l => novos_lancamentos hoje uuid 0 l
  | Dicionario _ => Raise TypeError
  end.

(** How [processar_recorrentes] ends when it does not raise: it returns, or
    [st.rerun()] restarts the script. *)
Inductive fim := Retorna | Rerun.

(** The body of [processar_recorrentes] once the three collections are
    loaded; [f1] and [f2] are the fates of its two writes. *)
Definition materializar (hoje : datetime) (uuid : nat → string) (f1 f2 : falha)
    (recorrentes lancamentos config : dados) : M fim :=
  let mes_atual_str := strftime_Ym hoje in
  ultimo ← lift (dict_get config "ultimo_mes_recorrente");
  let ultimo_mes_processado := default (Texto "") ultimo in
  if negb (eq_str (Some ultimo_mes_processado) mes_atual_str) && truthy recorrentes then
    novos ← lift (gerar hoje uuid recorrentes);
    match novos with
    | [] => mret Retorna
    | _ :: _ =>
        lancamentos' ← lift (extend lancamentos novos);
        save_data f1 lancamentos' LANCAMENTOS_FILE;;
        config' ← lift (dict_setitem config "ultimo_mes_recorrente" (Texto mes_atual_str));
        save_data f2 config' CONFIG_FILE;;
        mret Rerun
    end
  else mret Retorna.

(** [processar_recorrentes], run at cache time [agora] on the day [hoje]. *)
Definition processar_recorrentes (agora : Z) (hoje : datetime)
    (uuid : nat → string) (f1 f2 : falha) : M fim :=
  recorrentes ← load_data agora RECORRENTES_FILE false;
  lancamentos ← load_data agora LANCAMENTOS_FILE false;
  config ← load_data agora CONFIG_FILE true;
  materializar hoje uuid f1 f2 recorrentes lancamentos config.

(** ** Price lookup *)

(** A cell of a price column: [pd.notna] is false on [NaN]. *)
Inductive celula := NaN | Preco (p : Qc).

(** What [data['Close']] is: a column of closes, oldest first (flat column
    index), or one such column per qualified symbol (two-level index). *)
Inductive close :=
| CloseSerie (l : list celula)
| CloseQuadro (cols : gmap string (list celula)).

(** What the code reads of the frame returned by [yf.download]:
    [data.empty] and [data['Close']] ([None]: no such column). *)
Record DataFrame := { df_empty : bool; df_close : option close }.

(** [serie.iloc[-1]]. *)
Definition iloc_ultimo (l : list celula) : resultado celula :=
  match last l with Some c => Ok c | None => Raise IndexError end.

(** [f"{ticker.strip().upper()}.SA"]. *)
Definition qualificar (ticker : string) : string := upper (strip ticker) +:+ ".SA".

(** The branch for one ticker. The truth value of [pd.notna] of a row of a
    two-level frame is a [ValueError]. *)
Definition cotar_unico (data : DataFrame) (ticker : string) : resultado (gmap string Qc) :=
  if negb (df_empty data) then
    match df_close data with
    | Some (CloseSerie l) =>
        last_price ← iloc_ultimo l;
        match last_price with
        | Preco p => Ok {[ ticker := p ]}
        | NaN => Ok ∅
        end
    | Some (CloseQuadro _) => Raise ValueError
    | None => Ok ∅
    end
  else Ok ∅.

(** The branch for several tickers: the loop over [tickers_sa], filling
    [prices]. *)
Fixpoint cotar_varios (data : DataFrame) (tickers_sa : list string)
    (prices : gmap string Qc) : resultado (gmap string Qc) :=
  match tickers_sa with
  | [] => Ok prices
  | ticker_sa :: rest =>
      let ticker_original := replace ".SA" "" ticker_sa in
      match df_close data with
      | None => Raise KeyError
      | Some (CloseSerie _) => Raise AttributeError
      | Some (CloseQuadro cols) =>
          match cols !! ticker_sa with
          | Some l =>
              ultimo ← iloc_ultimo l;
              match ultimo with
              | Preco p => cotar_varios data rest (<[ticker_original := p]> prices)
              | NaN => cotar_varios data rest prices
              end
          | None => cotar_varios data rest prices
          end
      end
  end.

(** The [try] block of [buscar_cotacoes]; [yf_download] is the provider,
    which may raise. *)
Definition cotar (yf_download : list string → resultado DataFrame)
    (tickers : list string) : resultado (gmap string Qc) :=
  let tickers_sa := qualificar <$> tickers in
  data ← yf_download tickers_sa;
  if df_empty data then Ok ∅
  else
    match tickers with
    | [ticker] => cotar_unico data ticker
    | _ => cotar_varios data tickers_sa ∅
    end.

(** The body of [buscar_cotacoes]: [except Exception] turns whatever the
    [try] block raises into the empty dict. *)
Definition buscar_cotacoes_corpo (yf_download : list string → resultado DataFrame)
    (tickers : list string) : resultado (gmap string Qc) :=
  match tickers with
  | [] => Ok ∅
  | _ :: _ =>
      match cotar yf_download tickers with
      | Ok prices => Ok prices
      | Raise _ => Ok ∅
      end
  end.

Definition TTL_COTACOES : Z := 1800.

(** [buscar_cotacoes] under [st.cache_data(ttl=1800)], keyed by the list of
    tickers. *)
Definition buscar_cotacoes (agora : Z)
    (yf_download : list string → resultado DataFrame) (tickers : list string)
    : M (gmap string Qc) :=
  λ s,
    let miss :=
      match buscar_cotacoes_corpo yf_download tickers with
      | Ok v =>
          (Ok v, {| disco := disco s;
                    cache_load := cache_load s;
                    cache_cotacoes := <[tickers := (agora, v)]> (cache_cotacoes s) |})
      | Raise e => (Raise e, s)
      end in
    match cache_cotacoes s !! tickers with
    | Some (t, v) => if agora <? t + TTL_COTACOES then (Ok v, s) else miss
    | None => miss
    end.

(** ** Consolidated position ([page_investimentos]) *)

(** [item.get('classe') in ['Ações', 'FIIs']]. *)
Definition classe_cotada (classe : option string) : bool :=
  match classe with
  | Some c => String.eqb c "Ações" || String.eqb c "FIIs"
  | None => false
  end.

(** [[item['ticker'] for item in investimentos if item.get('classe') in
    ['Ações', 'FIIs']]]. *)
Fixpoint tickers_cotados (investimentos : list registro) : resultado (list string) :=
  match investimentos with
  | [] => Ok []
  | item :: rest =>
      if classe_cotada (get_classe item) then
        ticker ← getitem_ticker item;
        tickers ← tickers_cotados rest;
        Ok (ticker :: tickers)
      else tickers_cotados rest
  end.

(** [sum(item['quantidade'] * item['preco_medio'] for item in
    investimentos)], with the accumulator [acc]. *)
Fixpoint soma_custo (investimentos : list registro) (acc : Qc) : resultado Qc :=
  match investimentos with
  | [] => Ok acc
  | item :: rest =>
      quantidade ← getitem_quantidade item;
      preco_medio ← getitem_preco_medio item;
      soma_custo rest (acc + quantidade * preco_medio)%Qc
  end.

(** The loop that accumulates [valor_mercado_total]. *)
Fixpoint soma_mercado (cotacoes : gmap string Qc) (investimentos : list registro)
    (valor_mercado_total : Qc) : resultado Qc :=
  match investimentos with
  | [] => Ok valor_mercado_total
  | item :: rest =>
      ticker ← getitem_ticker item;
      preco_medio ← getitem_preco_medio item;
      let preco_atual := default preco_medio (cotacoes !! ticker) in
      quantidade ← getitem_quantidade item;
      soma_mercado cotacoes rest (valor_mercado_total + quantidade * preco_atual)%Qc
  end.

Record posicao := {
  total_custo : Qc; valor_mercado_total : Qc;
  lucro_prejuizo : Qc; lucro_prejuizo_perc : Qc }.

(** Lines 345 to 354 of [page_investimentos], given the quotes. *)
Definition posicao_consolidada (cotacoes : gmap string Qc)
    (investimentos : list registro) : resultado posicao :=
  total_custo ← soma_custo investimentos 0%Qc;
  valor_mercado_total ← soma_mercado cotacoes investimentos 0%Qc;
  let lucro_prejuizo := (valor_mercado_total - total_custo)%Qc in
  let lucro_prejuizo_perc :=
    if bool_decide (0 < total_custo)%Qc
    then (lucro_prejuizo / total_custo * Q2Qc 100)%Qc else 0%Qc in
  Ok {| total_custo := total_custo;
        valor_mercado_total := valor_mercado_total;
        lucro_prejuizo := lucro_prejuizo;
        lucro_prejuizo_perc := lucro_prejuizo_perc |}.

(** The position shown by [page_investimentos]: nothing for an empty
    portfolio; iterating a dict yields strings, which have no [get]. *)
Definition page_investimentos (agora : Z)
    (yf_download : list string → resultado DataFrame) : M (option posicao) :=
  investimentos ← load_data agora INVESTIMENTOS_FILE false;
  if truthy investimentos then
    match investimentos with
    | Lista itens =>
        tickers ← lift (tickers_cotados itens);
        cotacoes ← buscar_cotacoes agora yf_download tickers;
        p ← lift (posicao_consolidada cotacoes itens);
        mret (Some p)
    | Dicionario _ => raise AttributeError
    end
  else mret None.

(** ** Goal progress ([page_metas]) *)

(** [meta['nome'].lower() in item.get('categoria', '').lower() and
    item['tipo'] == 'Despesa']; [and] evaluates its right operand only when
    the left one is true. *)
Definition aporta (meta item : registro) : resultado bool :=
  nome ← getitem_nome meta;
  if contem (lower nome) (lower (get_categoria item)) then
    tipo ← getitem_tipo item;
    Ok (String.eqb tipo "Despesa")
  else Ok false.

(** [sum(item['valor'] for item in lancamentos if ...)], with the
    accumulator [acc]. *)
Fixpoint aportes_meta (meta : registro) (lancamentos : list registro) (acc : Qc)
    : resultado Qc :=
  match lancamentos with
  | [] => Ok acc
  | item :: rest =>
      sim ← aporta meta item;
      if sim : bool then
        valor ← getitem_valor item;
        aportes_meta meta rest (acc + valor)%Qc
      else aportes_meta meta rest acc
  end.

(** The two figures of a goal: what was put aside and the fraction of the
    target. *)
Definition progresso_meta (lancamentos : list registro) (meta : registro)
    : resultado (Qc * Qc) :=
  aportes ← aportes_meta meta lancamentos 0%Qc;
  valor_alvo ← getitem_valor_alvo meta;
  let progresso :=
    if bool_decide (0 < valor_alvo)%Qc then (aportes / valor_alvo)%Qc else 0%Qc in
  Ok (aportes, progresso).

(** ** Specification-level notions *)

(** [sub] occurs in [s] as a contiguous block. *)
Definition subcadeia (sub s : string) : Prop :=
  ∃ pre pos, s = pre +:+ sub +:+ pos.

(** The sum of a list of amounts. *)
Definition soma (l : list Qc) : Qc := foldr Qcplus 0%Qc l.

(** A transaction counts towards a goal: it is an expense and its category
    contains the name of the goal, letter case apart. *)
Definition conta_para (m : meta) (l : lancamento) : Prop :=
  l_tipo l = "Despesa"
  ∧ contem (lower (m_nome m)) (lower (l_categoria l)) = true.

Global Instance conta_para_dec m l : Decision (conta_para m l).
Proof. unfold conta_para. apply _. Defined.

(** Cost basis and market value of one holding, given the quotes. *)
Definition custo (h : investimento) : Qc := (i_quantidade h * i_preco_medio h)%Qc.
Definition valor_mercado (cotacoes : gmap string Qc) (h : investimento) : Qc :=
  match cotacoes !! i_ticker h with
  | Some preco => (i_quantidade h * preco)%Qc
  | None => (i_quantidade h * i_preco_medio h)%Qc
  end.

(** The holdings whose tickers are sent to the price lookup. *)
Definition cotado (h : investimento) : Prop :=
  i_classe h = "Ações" ∨ i_classe h = "FIIs".

Global Instance cotado_dec h : Decision (cotado h).
Proof. unfold cotado. apply _. Defined.

(** The invariants of a holding in the data model: a non-negative quantity
    and a positive average cost. *)
Definition investimento_ok (h : investimento) : Prop :=
  (0 ≤ i_quantidade h)%Qc ∧ (0 < i_preco_medio h)%Qc.

(** What [load_data] returns in the state [s] at time [agora]: the cached
    value while it is fresh, what the file holds otherwise. *)
Definition visao (s : estado) (agora : Z) (file_path : string) (is_dict : bool)
    : dados :=
  match cache_load s !! (file_path, is_dict) with
  | Some (t, v) =>
      if agora <? t + TTL_LOAD then v else ler_arquivo (disco s) file_path is_dict
  | None => ler_arquivo (disco s) file_path is_dict
  end.

(** Every cached value is what its file holds. *)
Definition coerente (s : estado) : Prop :=
  ∀ file_path is_dict t v,
    cache_load s !! (file_path, is_dict) = Some (t, v) →
    v = ler_arquivo (disco s) file_path is_dict.

(** The key of the configuration that marks the month as processed, and
    whether the configuration [c] marks the month of [hoje]. *)
Definition marcado (c : gmap string campo) (hoje : datetime) : Prop :=
  c !! "ultimo_mes_recorrente" = Some (Texto (strftime_Ym hoje)).

Global Instance marcado_dec c hoje : Decision (marcado c hoje).
Proof. unfold marcado. apply _. Defined.

(** The state after a materialisation whose two writes went through: the
    transaction file holds the old entries followed by the new ones, the
    configuration marks the month, and both caches are empty. *)
Definition apos_materializar (s : estado) (hoje : datetime)
    (ls : list registro) (novos : list lancamento) (c : gmap string campo) : estado :=
  {| disco :=
       <[CONFIG_FILE :=
           Json (Dicionario (<["ultimo_mes_recorrente" := Texto (strftime_Ym hoje)]> c))]>
         (<[LANCAMENTOS_FILE := Json (Lista (ls ++ (Lanc <$> novos)))]> (disco s));
     cache_load := ∅;
     cache_cotacoes := ∅ |}.

(** A read or a write that goes through, and the state after a sequence of
    them. *)
Inductive operacao :=
| Ler (agora : Z) (file_path : string) (is_dict : bool)
| Gravar (data : dados) (file_path : string).

Definition executar (s : estado) (o : operacao) : estado :=
  match o with
  | Ler agora file_path is_dict => (load_data agora file_path is_dict s).2
  | Gravar data file_path => (save_data SemFalha data file_path s).2
  end.

(** The files after the writes of a sequence of operations. *)
Definition gravar_em (d : gmap string arquivo) (o : operacao) : gmap string arquivo :=
  match o with
  | Ler _ _ _ => d
  | Gravar data file_path => <[file_path := Json data]> d
  end.

(** The quote the frame holds for a qualified symbol in a two-level frame,
    or in the only column of a flat one: the last close, when there is one
    and it is not [NaN]. *)
Definition ultimo_preco (l : list celula) : option Qc :=
  match last l with Some (Preco p) => Some p | Some NaN | None => None end.

Definition preco_no_quadro (data : DataFrame) (ticker_sa : string) : option Qc :=
  match df_close data with
  | Some (CloseQuadro cols) => cols !! ticker_sa ≫= ultimo_preco
  | Some (CloseSerie _) | None => None
  end.

Definition preco_na_serie (data : DataFrame) : option Qc :=
  match df_close data with
  | Some (CloseSerie l) => ultimo_preco l
  | Some (CloseQuadro _) | None => None
  end.

(** The quote available for a requested ticker, and the key under which
    [buscar_cotacoes] files it: a request for one ticker reads the flat
    column and keeps the ticker as given; a request for several reads the
    column of the qualified symbol and strips the qualifier. *)
Definition preco_de (data : DataFrame) (tickers : list string) (ticker : string)
    : option Qc :=
  match tickers with
  | [_] => preco_na_serie data
  | _ => preco_no_quadro data (qualificar ticker)
  end.

Definition chave (tickers : list string) (ticker : string) : string :=
  match tickers with
  | [_] => ticker
  | _ => replace ".SA" "" (qualificar ticker)
  end.

(** No entry of the quote cache for [tickers] is still fresh at [agora]. *)
Definition sem_cotacao_em_cache (s : estado) (agora : Z) (tickers : list string) : Prop :=
  ∀ t v, cache_cotacoes s !! tickers = Some (t, v) → t + TTL_COTACOES ≤ agora.

(** The files after the copy loop ran over [files] without failure: each
    file of [d0] that exists has its content under its snapshot path. *)
Definition com_snapshot (d0 : gmap string arquivo) (hoje_str : string)
    (acc : gmap string arquivo) (file_path : string) : gmap string arquivo :=
  match d0 !! file_path with
  | Some a => <[backup_path file_path hoje_str := a]> acc
  | None => acc
  end.

(** No failure in any copy. *)
Definition sem_falha_copia (file_path : string) : falha := SemFalha.

(** ** Worked scenarios *)

Definition despesa (categoria : string) (valor : Qc) : lancamento :=
  {| l_id := ""; l_data := "2024-03-05"; l_tipo := "Despesa";
     l_categoria := categoria; l_valor := valor; l_descricao := "" |}.
Definition receita (categoria : string) (valor : Qc) : lancamento :=
  {| l_id := ""; l_data := "2024-03-05"; l_tipo := "Receita";
     l_categoria := categoria; l_valor := valor; l_descricao := "" |}.

(** The goal "Travel" of 500 and three transactions. *)
Definition meta_travel : meta :=
  {| m_id := "m1"; m_nome := "Travel"; m_valor_alvo := Q2Qc 500 |}.
Definition lancamentos_travel : list lancamento :=
  [despesa "Travel - Flights" (Q2Qc 200); despesa "Travel" (Q2Qc 100);
   receita "Travel refund" (Q2Qc 50)].

(** A template created on 31 January 2024, and three days on which the
    materialisation may run. *)
Definition recorrente_31 : recorrente :=
  {| r_id := "r1"; r_tipo := "Despesa"; r_categoria := "Aluguel";
     r_valor := Q2Qc 1500; r_data_base := "2024-01-31" |}.
Definition abril_2024 : datetime := {| year := 2024; month := 4; day := 10 |}.
Definition fevereiro_2024 : datetime := {| year := 2024; month := 2; day := 10 |}.
Definition fevereiro_2023 : datetime := {| year := 2023; month := 2; day := 10 |}.

(** Three holdings, two equities and one declared as crypto under the
    ticker of the first equity, and a provider that quotes the two
    qualified symbols at 30 and 50. *)
Definition petr4_acoes : investimento :=
  {| i_id := "i1"; i_ticker := "PETR4"; i_classe := "Ações";
     i_quantidade := Q2Qc 1; i_preco_medio := Q2Qc 10 |}.
Definition vale3_acoes : investimento :=
  {| i_id := "i2"; i_ticker := "VALE3"; i_classe := "Ações";
     i_quantidade := Q2Qc 1; i_preco_medio := Q2Qc 10 |}.
Definition petr4_cripto : investimento :=
  {| i_id := "i3"; i_ticker := "PETR4"; i_classe := "Cripto";
     i_quantidade := Q2Qc 1; i_preco_medio := Q2Qc 10 |}.
Definition carteira_petr4 : list investimento :=
  [petr4_acoes; vale3_acoes; petr4_cripto].
Definition yf_petr4 (tickers_sa : list string) : resultado DataFrame :=
  Ok {| df_empty := false;
        df_close := Some (CloseQuadro {[ "PETR4.SA" := [Preco (Q2Qc 30)];
                                         "VALE3.SA" := [Preco (Q2Qc 50)] ]}) |}.
Definition cotacoes_petr4 : gmap string Qc :=
  {[ "PETR4" := Q2Qc 30; "VALE3" := Q2Qc 50 ]}.

(** A provider that fails (no network), and the state of a fresh
    installation: no file, nothing cached. *)
Definition yf_sem_rede (tickers_sa : list string) : resultado DataFrame :=
  Raise OutraExcecao.
Definition estado_vazio : estado :=
  {| disco := ∅; cache_load := ∅; cache_cotacoes := ∅ |}.

(** A transaction file with one entry, nothing cached. *)
Definition estado_um_lancamento : estado :=
  {| disco := {[ LANCAMENTOS_FILE := Json (Lista [Lanc (despesa "Mercado" (Q2Qc 80))]) ]};
     cache_load := ∅; cache_cotacoes := ∅ |}.

(** An installation with one recurring template, no transaction and an
    empty configuration; identifiers as [uuid.uuid4] might draw them. *)
Definition estado_com_recorrente : estado :=
  {| disco := {[ CONFIG_FILE := Json (Dicionario ∅);
                 RECORRENTES_FILE := Json (Lista [Rec recorrente_31]);
                 LANCAMENTOS_FILE := Json (Lista []) ]};
     cache_load := ∅; cache_cotacoes := ∅ |}.
Definition uuid_exemplo (i : nat) : string := "uuid-" +:+ pad2 (Z.of_nat i).
Definition aluguel_abril : lancamento :=
  {| l_id := "uuid-00"; l_data := "2024-04-30"; l_tipo := "Despesa";
     l_categoria := "Aluguel"; l_valor := Q2Qc 1500;
     l_descricao := "(Recorrente) Aluguel" |}.

(** The same installation before any template was created. *)
Definition estado_sem_recorrente : estado :=
  {| disco := {[ CONFIG_FILE := Json (Dicionario ∅);
                 RECORRENTES_FILE := Json (Lista []);
                 LANCAMENTOS_FILE := Json (Lista []) ]};
     cache_load := ∅; cache_cotacoes := ∅ |}.

(** An installation with two list files to snapshot and an empty
    configuration, on 10 April 2024. *)
Definition estado_para_backup : estado :=
  {| disco := {[ CONFIG_FILE := Json (Dicionario ∅);
                 LANCAMENTOS_FILE := Json (Lista [Lanc aluguel_abril]);
                 RECORRENTES_FILE := Json (Lista [Rec recorrente_31]) ]};
     cache_load := ∅; cache_cotacoes := ∅ |}.

(** The portfolio [carteira_petr4] on disk, nothing cached. *)
Definition estado_carteira_petr4 : estado :=
  {| disco := {[ INVESTIMENTOS_FILE := Json (Lista (Inv <$> carteira_petr4)) ]};
     cache_load := ∅; cache_cotacoes := ∅ |}.

(** ** Forms and buttons of the pages *)

(** The handlers below are the bodies of the [if submitted:] and
    [if ...button(...):] blocks of the pages. Each works on the list the page
    loaded, given here as records of the collection's own kind; the values
    of the widgets are arguments. A handler that ends in [st.rerun()]
    returns [Rerun]; one that shows [st.error] and goes on returns
    [Retorna]. Resetting [st.session_state.editing_..._id] is left out. *)

Global Instance lancamento_eq_dec : EqDecision lancamento.
Proof. solve_decision. Defined.
Global Instance recorrente_eq_dec : EqDecision recorrente.
Proof. solve_decision. Defined.
Global Instance investimento_eq_dec : EqDecision investimento.
Proof. solve_decision. Defined.
Global Instance meta_eq_dec : EqDecision meta.
Proof. solve_decision. Defined.

(** [next((item for item in itens if item['id'] == editing_id), None)
    if editing_id else None], as the position of the item found: the item
    is the list's own object, so updating it updates the list. *)
Definition item_para_editar {A} (id_de : A → string) (itens : list A)
    (editing_id : option string) : option nat :=
  match editing_id with
  | Some id =>
      if String.eqb id "" then None
      else fst <$> list_find (λ item, id_de item = id) itens
  | None => None
  end.

(** [itens.remove(item)]: the first element equal to [item] goes; a
    [ValueError] when there is none. *)
Fixpoint list_remove `{EqDecision A} (item : A) (itens : list A) : resultado (list A) :=
  match itens with
  | [] => Raise ValueError
  | x :: rest =>
      if decide (x = item) then Ok rest
      else rest' ← list_remove item rest; Ok (x :: rest')
  end.

(** *** [page_lancamentos], transactions *)

(** The submit block of the transaction form; [id] is what [uuid.uuid4()]
    returns if it is called. *)
Definition page_lancamentos_salvar (f : falha) (id : string)
    (lancamentos : list lancamento) (editing_lancamento_id : option string)
    (tipo : string) (data_lancamento : datetime) (categoria : string) (valor : Qc)
    : M fim :=
  if String.eqb categoria "" || bool_decide (valor ≤ 0)%Qc then mret Retorna
  else
    let lancamentos' :=
      match item_para_editar l_id lancamentos editing_lancamento_id with
      | Some i =>
          alter (λ item, {| l_id := l_id item;
                            l_data := strftime_Ymd data_lancamento;
                            l_tipo := tipo;
                            l_categoria := strip categoria;
                            l_valor := valor;
                            l_descricao := l_descricao item |}) i lancamentos
      | None =>
          lancamentos ++ [ {| l_id := id;
                              l_data := strftime_Ymd data_lancamento;
                              l_tipo := tipo;
                              l_categoria := strip categoria;
                              l_valor := valor;
                              l_descricao := "" |} ]
      end in
    save_data f (Lista (Lanc <$> lancamentos')) LANCAMENTOS_FILE;;
    mret Rerun.

(** The delete button of the transaction [item]. *)
Definition page_lancamentos_excluir (f : falha) (lancamentos : list lancamento)
    (item : lancamento) : M fim :=
  lancamentos' ← lift (list_remove item lancamentos);
  save_data f (Lista (Lanc <$> lancamentos')) LANCAMENTOS_FILE;;
  mret Rerun.

(** *** [page_lancamentos], recurring templates *)

(** The submit block of the template form, on the day [hoje]. *)
Definition page_lancamentos_salvar_recorrente (f : falha) (id : string)
    (hoje : datetime) (recorrentes : list recorrente)
    (editing_recorrente_id : option string)
    (tipo_rec categoria_rec : string) (valor_rec : Qc) : M fim :=
  if String.eqb categoria_rec "" || bool_decide (valor_rec ≤ 0)%Qc then mret Retorna
  else
    let recorrentes' :=
      match item_para_editar r_id recorrentes editing_recorrente_id with
      | Some i =>
          alter (λ item, {| r_id := r_id item;
                            r_tipo := tipo_rec;
                            r_categoria := strip categoria_rec;
                            r_valor := valor_rec;
                            r_data_base := r_data_base item |}) i recorrentes
      | None =>
          recorrentes ++ [ {| r_id := id;
                              r_tipo := tipo_rec;
                              r_categoria := strip categoria_rec;
                              r_valor := valor_rec;
                              r_data_base := strftime_Ymd hoje |} ]
      end in
    save_data f (Lista (Rec <$> recorrentes')) RECORRENTES_FILE;;
    mret Rerun.

(** The delete button of the template [item]. *)
Definition page_lancamentos_excluir_recorrente (f : falha)
    (recorrentes : list recorrente) (item : recorrente) : M fim :=
  recorrentes' ← lift (list_remove item recorrentes);
  save_data f (Lista (Rec <$> recorrentes')) RECORRENTES_FILE;;
  mret Rerun.

(** *** [page_investimentos] *)

(** The submit block of the holding form. *)
Definition page_investimentos_salvar (f : falha) (id : string)
    (investimentos : list investimento) (editing_investimento_id : option string)
    (ticker classe : string) (quantidade preco_medio : Qc) : M fim :=
  if String.eqb ticker "" || bool_decide (quantidade ≤ 0)%Qc
     || bool_decide (preco_medio ≤ 0)%Qc
  then mret Retorna
  else
    let investimentos' :=
      match item_para_editar i_id investimentos editing_investimento_id with
      | Some i =>
          alter (λ item, {| i_id := i_id item;
                            i_ticker := strip (upper ticker);
                            i_classe := classe;
                            i_quantidade := quantidade;
                            i_preco_medio := preco_medio |}) i investimentos
      | None =>
          investimentos ++ [ {| i_id := id;
                                i_ticker := strip (upper ticker);
                                i_classe := classe;
                                i_quantidade := quantidade;
                                i_preco_medio := preco_medio |} ]
      end in
    save_data f (Lista (Inv <$> investimentos')) INVESTIMENTOS_FILE;;
    mret Rerun.

(** The delete button of the holding [item]. *)
Definition page_investimentos_excluir (f : falha)
    (investimentos : list investimento) (item : investimento) : M fim :=
  investimentos' ← lift (list_remove item investimentos);
  save_data f (Lista (Inv <$> investimentos')) INVESTIMENTOS_FILE;;
  mret Rerun.

(** *** [page_metas] *)

(** The submit block of the goal form. *)
Definition page_metas_salvar (f : falha) (id : string) (metas : list meta)
    (editing_meta_id : option string) (nome : string) (valor_alvo : Qc) : M fim :=
  if String.eqb nome "" || bool_decide (valor_alvo ≤ 0)%Qc then mret Retorna
  else
    let metas' :=
      match item_para_editar m_id metas editing_meta_id with
      | Some i =>
          alter (λ item, {| m_id := m_id item;
                            m_nome := strip nome;
                            m_valor_alvo := valor_alvo |}) i metas
      | None =>
          metas ++ [ {| m_id := id; m_nome := strip nome;
                        m_valor_alvo := valor_alvo |} ]
      end in
    save_data f (Lista (Meta <$> metas')) METAS_FILE;;
    mret Rerun.

(** The delete button of the goal [meta]. *)
Definition page_metas_excluir (f : falha) (metas : list meta) (meta : meta)
    : M fim :=
  metas' ← lift (list_remove meta metas);
  save_data f (Lista (Meta <$> metas')) METAS_FILE;;
  mret Rerun.

(** *** [page_configuracoes] *)

Definition classes : list string :=
  ["Ações"; "FIIs"; "Internacional"; "Renda Fixa"; "Cripto"; "Outros"].

(** [config.get('metas_alocacao', {})], as the loop uses it: a string has no
    [get], which the first [metas_alocacao.get(classe, 0.0)] finds out. *)
Definition metas_alocacao_de (config : dados) : resultado (gmap string Qc) :=
  o ← dict_get config "metas_alocacao";
  match o with
  | None => Ok ∅
  | Some (Alocacao a) => Ok a
  | Some (Texto _) => Raise AttributeError
  end.

(** The loop over the classes: each class gets what its number input
    returns; [entrada classe valor_atual] is that value for the input of
    [classe] initialised with [valor_atual]. *)
Definition preencher_alocacao (entrada : string → Qc → Qc)
    (metas_alocacao : gmap string Qc) : gmap string Qc :=
  foldl (λ m classe, <[classe := entrada classe (default 0%Qc (m !! classe))]> m)
        metas_alocacao classes.

(** [sum(float(v) for v in metas_alocacao.values())]. *)
Definition total_meta (metas_alocacao : gmap string Qc) : Qc :=
  map_fold (λ _ v acc, (acc + v)%Qc) 0%Qc metas_alocacao.

(** [abs(x)]. *)
Definition abs (x : Qc) : Qc := if bool_decide (0 ≤ x)%Qc then x else (- x)%Qc.

(** [abs(total_meta - 100.0) > 0.1]: the form shows a warning. *)
Definition aviso_soma (metas_alocacao : gmap string Qc) : bool :=
  bool_decide (Q2Qc (1 # 10) < abs (total_meta metas_alocacao - Q2Qc 100))%Qc.

(** The submit block of the allocation form, on the loaded configuration. *)
Definition page_configuracoes_salvar (f : falha) (entrada : string → Qc → Qc)
    (config : dados) : M fim :=
  metas_alocacao ← lift (metas_alocacao_de config);
  let metas_alocacao' := preencher_alocacao entrada metas_alocacao in
  config' ← lift (dict_setitem config "metas_alocacao" (Alocacao metas_alocacao'));
  save_data f config' CONFIG_FILE;;
  mret Rerun.

(** *** Start of a script run *)

(** Lines 63, 133 and 134: the files are set up, then the backup and the
    materialisation run. *)
Definition inicializar (agora : Z) (hoje : datetime) (uuid : nat → string)
    (fcopia : string → falha) (fsave f1 f2 : falha) : M fim :=
  setup_data_files;;
  criar_backup_diario agora hoje fcopia fsave;;
  processar_recorrentes agora hoje uuid f1 f2.

(** *** Display order *)

(** [sorted(itens, key=..., reverse=...)]: a stable sort on a string key;
    with [reverse] the greatest key comes first and equal keys still keep
    their order. [inserir] puts [x] behind the elements that must stay
    before it. *)
Fixpoint inserir {A} (key : A → string) (reverse : bool) (x : A) (l : list A)
    : list A :=
  match l with
  | [] => [x]
  | y :: r =>
      if (if reverse then String.ltb (key y) (key x)
          else String.ltb (key x) (key y))
      then x :: y :: r
      else y :: inserir key reverse x r
  end.

Definition sorted {A} (key : A → string) (reverse : bool) (itens : list A)
    : list A :=
  foldl (λ acc x, inserir key reverse x acc) [] itens.

(** [sorted(lancamentos, key=lambda x: x['data'], reverse=True)] and
    [sorted(investimentos, key=lambda x: x['ticker'])]. *)
Definition lancamentos_ordenados (lancamentos : list lancamento) : list lancamento :=
  sorted l_data true lancamentos.
Definition investimentos_ordenados (investimentos : list investimento)
    : list investimento :=
  sorted i_ticker false investimentos.

(** ** More specification-level notions *)

(** No entry of the read cache for a file is still fresh at [agora]. *)
Definition sem_leitura_em_cache (s : estado) (agora : Z) (file_path : string)
    (is_dict : bool) : Prop :=
  ∀ t v, cache_load s !! (file_path, is_dict) = Some (t, v) → t + TTL_LOAD ≤ agora.

(** The same caches over other files: what the state is after the files
    were changed from outside [save_data] (another process, an editor). *)
Definition com_disco (s : estado) (d : gmap string arquivo) : estado :=
  {| disco := d; cache_load := cache_load s; cache_cotacoes := cache_cotacoes s |}.

(** The flag with which the code reads a data file. *)
Definition e_config (file_path : string) : bool := String.eqb file_path CONFIG_FILE.

(** The copy of the transaction file fails after its snapshot was opened;
    the other copies go through. *)
Definition falha_copia_lancamentos (file_path : string) : falha :=
  if String.eqb file_path LANCAMENTOS_FILE then FalhaDump else SemFalha.

(** A template whose stored date has day 0, and a configuration and
    templates for which the materialisation of April 2024 is due. *)
Definition recorrente_dia_0 : recorrente :=
  {| r_id := "r0"; r_tipo := "Despesa"; r_categoria := "Internet";
     r_valor := Q2Qc 100; r_data_base := "2024-01-00" |}.
Definition estado_com_recorrente_dia_0 : estado :=
  {| disco := {[ CONFIG_FILE := Json (Dicionario ∅);
                 RECORRENTES_FILE := Json (Lista [Rec recorrente_31; Rec recorrente_dia_0]);
                 LANCAMENTOS_FILE := Json (Lista []) ]};
     cache_load := ∅; cache_cotacoes := ∅ |}.

(** The transaction the form appends, and the transaction an edit makes of
    [item]. *)
Definition lancamento_novo (id tipo : string) (data_lancamento : datetime)
    (categoria : string) (valor : Qc) : lancamento :=
  {| l_id := id; l_data := strftime_Ymd data_lancamento; l_tipo := tipo;
     l_categoria := strip categoria; l_valor := valor; l_descricao := "" |}.
Definition lancamento_editado (item : lancamento) (tipo : string)
    (data_lancamento : datetime) (categoria : string) (valor : Qc) : lancamento :=
  {| l_id := l_id item; l_data := strftime_Ymd data_lancamento; l_tipo := tipo;
     l_categoria := strip categoria; l_valor := valor;
     l_descricao := l_descricao item |}.

(** A form filled with a category of three spaces, on 5 March 2024. *)
Definition marco_2024 : datetime := {| year := 2024; month := 3; day := 5 |}.

(** The template the form appends on the day [hoje]. *)
Definition recorrente_novo (id : string) (hoje : datetime) (tipo categoria : string)
    (valor : Qc) : recorrente :=
  {| r_id := id; r_tipo := tipo; r_categoria := strip categoria; r_valor := valor;
     r_data_base := strftime_Ymd hoje |}.

(** 31 January 2024. *)
Definition janeiro_31 : datetime := {| year := 2024; month := 1; day := 31 |}.

(** A ticker as the holding form stores it that does not hold the
    qualifier: stripping and upper-casing leave it as it is. *)
Definition normalizado (ticker : string) : Prop :=
  strip (upper ticker) = ticker ∧ contem ".SA" ticker = false.

(** The holding the form appends. *)
Definition investimento_novo (id ticker classe : string) (quantidade preco_medio : Qc)
    : investimento :=
  {| i_id := id; i_ticker := strip (upper ticker); i_classe := classe;
     i_quantidade := quantidade; i_preco_medio := preco_medio |}.

(** A configuration with the backup marker and two targets, one of them
    under a name that is no class of the form; and a form in which the
    target of 'Ações' is set to 60 and the other inputs are left alone. *)
Definition config_com_alocacao : gmap string campo :=
  {[ "ultimo_backup" := Texto "2024-04-10";
     "metas_alocacao" := Alocacao {[ "Ações" := Q2Qc 40; "Ouro" := Q2Qc 10 ]} ]}.
Definition entrada_acoes_60 (classe : string) (valor_atual : Qc) : Qc :=
  if String.eqb classe "Ações" then Q2Qc 60 else valor_atual.

(** An installation with one transaction, one template and an empty
    configuration. *)
Definition estado_com_lancamento_e_recorrente : estado :=
  {| disco := {[ CONFIG_FILE := Json (Dicionario ∅);
                 RECORRENTES_FILE := Json (Lista [Rec recorrente_31]);
                 LANCAMENTOS_FILE := Json (Lista [Lanc (despesa "Mercado" (Q2Qc 80))]) ]};
     cache_load := ∅; cache_cotacoes := ∅ |}.

(** [x] has to come before [y] in [sorted(..., key=key, reverse=reverse)]:
    its key is smaller, or greater with [reverse]. *)
Definition antes {A} (key : A → string) (reverse : bool) (x y : A) : bool :=
  if reverse then String.ltb (key y) (key x) else String.ltb (key x) (key y).

(** A list in order: no element has to come before an earlier one. *)
Fixpoint ordenada {A} (key : A → string) (reverse : bool) (l : list A) : Prop :=
  match l with
  | [] => True
  | a :: r => Forall (λ b, antes key reverse b a = false) r ∧ ordenada key reverse r
  end.

(** * Properties *)

(** ** Python built-ins on examples *)

Example lower_ex : lower "Travel - Flights" = "travel - flights".
Proof. reflexivity. Qed.
Example strip_upper_ex : upper (strip "  petr4 ") = "PETR4".
Proof. reflexivity. Qed.
Example replace_ex : replace ".SA" "" "PETR4.SA" = "PETR4".
Proof. reflexivity. Qed.
Example split_ex : split "-" "2024-01-31" = ["2024"; "01"; "31"].
Proof. reflexivity. Qed.
Example int_ex : int "31" = Ok 31 ∧ int " -5 " = Ok (-5) ∧ int "" = Raise ValueError
  ∧ int "1_0" = Ok 10 ∧ int "3x" = Raise ValueError.
Proof. repeat split; reflexivity. Qed.
Example strftime_ex :
  strftime_Ymd {| year := 2024; month := 2; day := 9 |} = "2024-02-09".
Proof. reflexivity. Qed.
Example basename_ex : basename "data/lancamentos.json" = "lancamentos.json".
Proof. reflexivity. Qed.
Example contem_ex : contem "vel" "Travel" = true ∧ contem "x" "Travel" = false
  ∧ contem "" "" = true.
Proof. repeat split; reflexivity. Qed.

(** ** Strings *)

Lemma append_cons (c : ascii) (s t : string) :
  String c s +:+ t = String c (s +:+ t).
Proof. reflexivity. Qed.

Lemma prefix_app (sub s : string) :
  String.prefix sub s = true ↔ ∃ pos, s = sub +:+ pos.
Proof.
  revert s. induction sub as [|c sub IH]; intros [|c' s]; simpl.
  - split; [intros _; by exists "" | done].
  - split; [intros _; by exists (String c' s) | done].
  - split; [done | intros [pos H]; discriminate H].
  - destruct (ascii_dec c c') as [->|Hne].
    + rewrite IH. split; intros [pos H]; exists pos.
      * by rewrite append_cons, H.
      * rewrite append_cons in H. by injection H.
    + split; [done | intros [pos H]]. rewrite append_cons in H. congruence.
Qed.

(** [contem] decides the occurrence of a block. *)
Lemma contem_subcadeia (sub s : string) :
  contem sub s = true ↔ subcadeia sub s.
Proof.
  induction s as [|c s IH].
  - cbn [contem]. rewrite orb_false_r, prefix_app. split.
    + intros [pos H]. by exists "", pos.
    + intros ([|? ?] & pos & H); [by exists pos | discriminate H].
  - cbn [contem]. rewrite orb_true_iff, prefix_app, IH. split.
    + intros [[pos H] | (pre & pos & H)].
      * by exists "", pos.
      * exists (String c pre), pos. by rewrite append_cons, H.
    + intros ([|c' pre] & pos & H).
      * left. by exists pos.
      * right. exists pre, pos. rewrite append_cons in H. congruence.
Qed.

(** ** Goal progress *)

Section Metas.

Variable m : meta.

Lemma aporta_lancamento (l : lancamento) :
  aporta (Meta m) (Lanc l) = Ok (bool_decide (conta_para m l)).
Proof.
  unfold aporta. cbn [getitem_nome get_categoria getitem_tipo mbind resultado_bind bind].
  destruct (decide (conta_para m l)) as [[Ht Hc]|Hn].
  - rewrite bool_decide_eq_true_2 by done. rewrite Hc, Ht. reflexivity.
  - rewrite bool_decide_eq_false_2 by done.
    destruct (contem _ _) eqn:Hc; [|done].
    destruct (String.eqb_spec (l_tipo l) "Despesa") as [He|He]; [|done].
    destruct Hn. by split.
Qed.

Lemma aportes_meta_acc (ls : list lancamento) (acc : Qc) :
  aportes_meta (Meta m) (Lanc <$> ls) acc
  = Ok (acc + soma (l_valor <$> filter (conta_para m) ls))%Qc.
Proof.
  revert acc. induction ls as [|l ls IH]; intros acc.
  - simpl. f_equal. unfold soma. simpl. ring.
  - cbn [fmap list_fmap aportes_meta]. rewrite aporta_lancamento.
    cbn [mbind resultado_bind bind]. rewrite filter_cons.
    destruct (decide (conta_para m l)) as [Hc|Hc].
    + rewrite bool_decide_eq_true_2 by done.
      cbn [getitem_valor mbind resultado_bind bind]. rewrite IH. f_equal.
      cbn [fmap list_fmap]. unfold soma. cbn [foldr]. ring.
    + rewrite bool_decide_eq_false_2 by done. apply IH.
Qed.

End Metas.



(** ** Dates *)

Lemma digit_char_cases (n : Z) :
  ∃ k : nat, (k < 10)%nat ∧ digit_char n = ascii_of_nat (48 + k).
Proof.
  exists (Z.to_nat (n mod 10)). split; [|done].
  pose proof (Z.mod_pos_bound n 10). lia.
Qed.

Lemma digit_char_not_dash (n : Z) : Ascii.eqb (digit_char n) "-" = false.
Proof.
  destruct (digit_char_cases n) as (k & Hk & ->).
  do 10 (destruct k as [|k]; [reflexivity|]). lia.
Qed.

Lemma split_cons_other (sep c : ascii) (s : string) :
  Ascii.eqb c sep = false →
  split sep (String c s)
  = match split sep s with
    | h :: t => String c h :: t
    | [] => [String c EmptyString]
    end.
Proof. intros H. cbn [split]. by rewrite H. Qed.

Lemma split_cons_sep (sep : ascii) (s : string) :
  split sep (String sep s) = EmptyString :: split sep s.
Proof. cbn [split]. by rewrite Ascii.eqb_refl. Qed.

Lemma int_pad2 (n : Z) : 0 ≤ n < 100 → int (pad2 n) = Ok n.
Proof.
  intros Hn. rewrite <- (Z2Nat.id n) by lia.
  assert (Z.to_nat n < 100)%nat as Hk by lia.
  generalize dependent (Z.to_nat n). intros k Hk.
  do 100 (destruct k as [|k]; [reflexivity|]). lia.
Qed.

(** A template keeps the creation date as [data_base] (the form writes
    [datetime.now().strftime('%Y-%m-%d')]); [dia_criacao] reads the day of
    that date back. *)
Lemma dia_criacao_strftime (d : datetime) (id tipo categoria : string) (valor : Qc) :
  valid d →
  dia_criacao (Rec {| r_id := id; r_tipo := tipo; r_categoria := categoria;
                      r_valor := valor; r_data_base := strftime_Ymd d |})
  = Ok (day d).
Proof.
  intros (_ & _ & Hd).
  assert (0 ≤ day d < 100) as Hday.
  { unfold days_in_month in Hd. repeat case_match; lia. }
  unfold dia_criacao. cbn [getitem_data_base r_data_base mbind resultado_bind bind].
  unfold strftime_Ymd, strftime_Ym, pad4. unfold pad2 at 1 2.
  rewrite !append_cons. change ("" +:+ ?x) with x.
  rewrite !append_cons. change ("" +:+ ?x) with x.
  rewrite !append_cons. change ("" +:+ ?x) with x.
  repeat first [ rewrite split_cons_sep
               | rewrite split_cons_other by apply digit_char_not_dash ].
  assert (split "-" (pad2 (day d)) = [pad2 (day d)]) as ->.
  { unfold pad2.
    rewrite !split_cons_other by apply digit_char_not_dash. reflexivity. }
  cbn [index lookup list_lookup]. by apply int_pad2.
Qed.

(** ** Materialisation of one template *)

Lemma replace_day_min (hoje : datetime) (dia : Z) :
  1 ≤ dia →
  replace_day hoje (Z.min dia (days_in_month (year hoje) (month hoje)))
  = Ok {| year := year hoje; month := month hoje;
          day := Z.min dia (days_in_month (year hoje) (month hoje)) |}.
Proof.
  intros Hd. unfold replace_day.
  assert (28 ≤ days_in_month (year hoje) (month hoje)) as Hm.
  { unfold days_in_month. repeat case_match; lia. }
  destruct (Z.leb_spec 1 (Z.min dia (days_in_month (year hoje) (month hoje)))); [|lia].
  destruct (Z.leb_spec (Z.min dia (days_in_month (year hoje) (month hoje)))
              (days_in_month (year hoje) (month hoje))); [done|lia].
Qed.

Lemma novo_lancamento_ok (hoje : datetime) (id : string) (r : recorrente) (dia : Z) :
  dia_criacao (Rec r) = Ok dia → 1 ≤ dia →
  novo_lancamento hoje id (Rec r)
  = Ok {| l_id := id;
          l_data := strftime_Ymd
            {| year := year hoje; month := month hoje;
               day := Z.min dia (days_in_month (year hoje) (month hoje)) |};
          l_tipo := r_tipo r; l_categoria := r_categoria r; l_valor := r_valor r;
          l_descricao := "(Recorrente) " +:+ r_categoria r |}.
Proof.
  intros Hdia Hpos. unfold novo_lancamento. rewrite Hdia.
  cbn [mbind resultado_bind bind]. rewrite replace_day_min by done.
  reflexivity.
Qed.



Example dia_31_em_abril :
  l_data <$> novo_lancamento abril_2024 "id" (Rec recorrente_31) = Ok "2024-04-30".
Proof. reflexivity. Qed.

Example dia_31_em_fevereiro_2023 :
  l_data <$> novo_lancamento fevereiro_2023 "id" (Rec recorrente_31) = Ok "2023-02-28".
Proof. reflexivity. Qed.

(** ** Consolidated position *)

Section Posicao.

Variable cotacoes : gmap string Qc.

Lemma soma_custo_acc (hs : list investimento) (acc : Qc) :
  soma_custo (Inv <$> hs) acc = Ok (acc + soma (custo <$> hs))%Qc.
Proof.
  revert acc. induction hs as [|h hs IH]; intros acc.
  - simpl. f_equal. unfold soma. simpl. ring.
  - cbn [fmap list_fmap soma_custo getitem_quantidade getitem_preco_medio
         mbind resultado_bind bind].
    rewrite IH. f_equal. unfold soma, custo. cbn [foldr]. ring.
Qed.

Lemma soma_mercado_acc (hs : list investimento) (acc : Qc) :
  soma_mercado cotacoes (Inv <$> hs) acc
  = Ok (acc + soma (valor_mercado cotacoes <$> hs))%Qc.
Proof.
  revert acc. induction hs as [|h hs IH]; intros acc.
  - simpl. f_equal. unfold soma. simpl. ring.
  - cbn [fmap list_fmap soma_mercado getitem_quantidade getitem_preco_medio
         getitem_ticker mbind resultado_bind bind].
    rewrite IH. f_equal. unfold soma, valor_mercado. cbn [foldr].
    destruct (cotacoes !! i_ticker h); unfold default; cbn [from_option id]; ring.
Qed.

Lemma soma_diferenca (hs : list investimento) :
  (soma (valor_mercado cotacoes <$> hs) - soma (custo <$> hs))%Qc
  = soma ((λ h, valor_mercado cotacoes h - custo h)%Qc <$> hs).
Proof.
  induction hs as [|h hs IH]; unfold soma in *; cbn [fmap list_fmap foldr].
  - ring.
  - rewrite <- IH. ring.
Qed.

End Posicao.

Lemma classe_cotada_decide (h : investimento) :
  classe_cotada (Some (i_classe h)) = bool_decide (cotado h).
Proof.
  unfold classe_cotada, cotado.
  destruct (String.eqb_spec (i_classe h) "Ações") as [He|He];
    destruct (String.eqb_spec (i_classe h) "FIIs") as [Hf|Hf]; cbn [orb];
    symmetry; first [ apply bool_decide_eq_true; tauto
                    | apply bool_decide_eq_false; tauto ].
Qed.

Lemma tickers_cotados_filter (hs : list investimento) :
  tickers_cotados (Inv <$> hs) = Ok (i_ticker <$> filter cotado hs).
Proof.
  induction hs as [|h hs IH]; [done|].
  cbn [fmap list_fmap tickers_cotados get_classe]. rewrite classe_cotada_decide.
  rewrite filter_cons. destruct (decide (cotado h)) as [Hc|Hc].
  - rewrite bool_decide_eq_true_2 by done.
    cbn [getitem_ticker mbind resultado_bind bind]. by rewrite IH.
  - rewrite bool_decide_eq_false_2 by done. apply IH.
Qed.

Lemma soma_custo_nonneg (hs : list investimento) :
  Forall investimento_ok hs → (0 ≤ soma (custo <$> hs))%Qc.
Proof.
  induction 1 as [|h hs [Hq Hp] _ IH]; unfold soma in *; cbn [fmap list_fmap foldr].
  - apply Qcle_refl.
  - replace 0%Qc with (0 + 0)%Qc by ring. apply Qcplus_le_compat; [|done].
    unfold custo. apply Qcmult_nonneg_nonneg; [done|]. by apply Qclt_le_weak.
Qed.




(** ** Price lookup *)

Lemma iloc_ultimo_preco (l : list celula) (c : celula) :
  iloc_ultimo l = Ok c →
  ultimo_preco l = match c with Preco p => Some p | NaN => None end.
Proof.
  unfold iloc_ultimo, ultimo_preco. destruct (last l) as [c'|]; [|done].
  intros [= ->]. by destruct c.
Qed.

(** Every price the loop adds is the valid quote of one of the symbols. *)
Lemma cotar_varios_origem (data : DataFrame) (tickers_sa : list string)
    (prices prices' : gmap string Qc) :
  cotar_varios data tickers_sa prices = Ok prices' →
  ∀ k p, prices' !! k = Some p →
    prices !! k = Some p
    ∨ ∃ ticker_sa, ticker_sa ∈ tickers_sa
        ∧ k = replace ".SA" "" ticker_sa
        ∧ preco_no_quadro data ticker_sa = Some p.
Proof.
  revert prices. induction tickers_sa as [|t rest IH]; intros prices Hrun k p Hk.
  - injection Hrun as <-. by left.
  - cbn [cotar_varios] in Hrun. unfold preco_no_quadro.
    destruct (df_close data) as [[l|cols]|] eqn:Hclose; [done| |done].
    assert (∀ q, cotar_varios data rest q = Ok prices' →
                 q !! k = Some p
                 ∨ ∃ ticker_sa, ticker_sa ∈ t :: rest
                     ∧ k = replace ".SA" "" ticker_sa
                     ∧ cols !! ticker_sa ≫= ultimo_preco = Some p) as Hrest.
    { intros q Hq. destruct (IH q Hq k p Hk) as [Hin|(t' & Hin & Hkey & Hp)].
      - by left.
      - right. exists t'. split; [set_solver|]. split; [done|].
        unfold preco_no_quadro in Hp. by rewrite Hclose in Hp. }
    destruct (cols !! t) as [l|] eqn:Hcol.
    + destruct (iloc_ultimo l) as [c|e] eqn:Hlast; [|done].
      cbn [mbind resultado_bind bind] in Hrun.
      apply iloc_ultimo_preco in Hlast. destruct c as [|q].
      * by apply Hrest.
      * destruct (Hrest _ Hrun) as [Hin|Hex]; [|by right].
        destruct (decide (replace ".SA" "" t = k)) as [<-|Hne].
        -- rewrite lookup_insert_eq in Hin. injection Hin as ->.
           right. exists t. split; [set_solver|]. split; [done|].
           rewrite Hcol. exact Hlast.
        -- rewrite lookup_insert_ne in Hin by done. by left.
    + by apply Hrest.
Qed.

Lemma cotar_unico_origem (data : DataFrame) (ticker : string)
    (prices : gmap string Qc) :
  cotar_unico data ticker = Ok prices →
  ∀ k p, prices !! k = Some p → k = ticker ∧ preco_na_serie data = Some p.
Proof.
  unfold cotar_unico, preco_na_serie. intros Hrun k p Hk.
  destruct (df_empty data); cbn [negb] in Hrun.
  { injection Hrun as <-. by rewrite lookup_empty in Hk. }
  destruct (df_close data) as [[l|cols]|]; [|done|].
  - destruct (iloc_ultimo l) as [c|e] eqn:Hlast; [|done].
    cbn [mbind resultado_bind bind] in Hrun.
    apply iloc_ultimo_preco in Hlast. destruct c as [|q]; injection Hrun as <-.
    + by rewrite lookup_empty in Hk.
    + apply lookup_singleton_Some in Hk as [<- <-]. done.
  - injection Hrun as <-. by rewrite lookup_empty in Hk.
Qed.

(** The body of [buscar_cotacoes] always returns a dict; each of its
    entries is the valid quote of a requested ticker, under its key. *)
Lemma buscar_cotacoes_corpo_total (yf_download : list string → resultado DataFrame)
    (tickers : list string) :
  ∃ prices, buscar_cotacoes_corpo yf_download tickers = Ok prices
    ∧ (tickers = [] → prices = ∅)
    ∧ (∀ e, yf_download (qualificar <$> tickers) = Raise e → prices = ∅)
    ∧ (∀ data, yf_download (qualificar <$> tickers) = Ok data →
         df_empty data = true → prices = ∅)
    ∧ (∀ k p, prices !! k = Some p →
         ∃ data ticker, yf_download (qualificar <$> tickers) = Ok data
           ∧ ticker ∈ tickers ∧ chave tickers ticker = k
           ∧ preco_de data tickers ticker = Some p).
Proof.
  unfold buscar_cotacoes_corpo. destruct tickers as [|t ts].
  { exists ∅. repeat split; done. }
  destruct (cotar yf_download (t :: ts)) as [prices|e] eqn:Hrun.
  - exists prices. split; [done|]. split; [done|]. unfold cotar in Hrun.
    destruct (yf_download (qualificar <$> t :: ts)) as [data|e] eqn:Hyf; [|done].
    cbn [mbind resultado_bind bind] in Hrun. split; [done|]. split.
    + intros data' [= <-] Hempty. rewrite Hempty in Hrun. by injection Hrun.
    + intros k p Hk. exists data.
      destruct (df_empty data).
      { injection Hrun as <-. by rewrite lookup_empty in Hk. }
      destruct ts as [|t' ts].
      * destruct (cotar_unico_origem _ _ _ Hrun k p Hk) as [-> Hp].
        exists t. split; [done|]. split; [set_solver|]. done.
      * destruct (cotar_varios_origem _ _ _ _ Hrun k p Hk) as [Hin|(t_sa & Hin & -> & Hp)].
        { by rewrite lookup_empty in Hin. }
        apply list_elem_of_fmap in Hin as (ticker & -> & Hin).
        exists ticker. split; [done|]. split; [done|]. done.
  - exists ∅. split; [done|]. split; [done|]. split; [done|]. split; [done|].
    intros k p Hk. by rewrite lookup_empty in Hk.
Qed.

(** C7. [buscar_cotacoes] never raises, whatever the tickers, the provider
    and the state: it returns a dict and leaves the files alone. When it
    runs its body (no fresh cache entry), the dict is empty if the provider
    raises or returns an empty frame, and otherwise each of its entries is
    the last close, present and not NaN, of a requested ticker: a key whose
    tickers all have an absent or NaN quote is omitted. *)
Theorem buscar_cotacoes_nunca_levanta (agora : Z)
    (yf_download : list string → resultado DataFrame) (tickers : list string)
    (s : estado) :
  ∃ prices s', buscar_cotacoes agora yf_download tickers s = (Ok prices, s')
    ∧ disco s' = disco s ∧ cache_load s' = cache_load s
    ∧ (sem_cotacao_em_cache s agora tickers →
       buscar_cotacoes_corpo yf_download tickers = Ok prices
       ∧ (tickers = [] → prices = ∅)
       ∧ (∀ e, yf_download (qualificar <$> tickers) = Raise e → prices = ∅)
       ∧ (∀ data, yf_download (qualificar <$> tickers) = Ok data →
            df_empty data = true → prices = ∅)
       ∧ (∀ k p, prices !! k = Some p →
            ∃ data ticker, yf_download (qualificar <$> tickers) = Ok data
              ∧ ticker ∈ tickers ∧ chave tickers ticker = k
              ∧ preco_de data tickers ticker = Some p)
       ∧ (∀ data k, yf_download (qualificar <$> tickers) = Ok data →
            (∀ ticker, ticker ∈ tickers → chave tickers ticker = k →
               preco_de data tickers ticker = None) →
            prices !! k = None)).
Proof.
  destruct (buscar_cotacoes_corpo_total yf_download tickers)
    as (corpo & Hcorpo & Hnil & Hraise & Hempty & Horigem).
  assert (∀ data k, yf_download (qualificar <$> tickers) = Ok data →
            (∀ ticker, ticker ∈ tickers → chave tickers ticker = k →
               preco_de data tickers ticker = None) →
            corpo !! k = None) as Homite.
  { intros data k Hyf Hnone. destruct (corpo !! k) as [p|] eqn:Hk; [|done].
    destruct (Horigem k p Hk) as (data' & ticker & Hyf' & Hin & Hkey & Hp).
    rewrite Hyf in Hyf'. injection Hyf' as <-.
    by rewrite (Hnone ticker Hin Hkey) in Hp. }
  unfold buscar_cotacoes. rewrite Hcorpo.
  destruct (cache_cotacoes s !! tickers) as [[t v]|] eqn:Hcache.
  - destruct (Z.ltb_spec agora (t + TTL_COTACOES)) as [Hfresh|Hold].
    + exists v, s. split; [done|]. split; [done|]. split; [done|].
      intros Hmiss. specialize (Hmiss t v Hcache). lia.
    + exists corpo. eexists. split; [reflexivity|]. by repeat split.
  - exists corpo. eexists. split; [reflexivity|]. by repeat split.
Qed.

(** Without network and with nothing cached, the lookup of two tickers
    returns the empty dict. *)
Lemma buscar_cotacoes_sem_rede :
  ∃ s', buscar_cotacoes 0 yf_sem_rede ["PETR4"; "VALE3"] estado_vazio = (Ok ∅, s').
Proof.
  destruct (buscar_cotacoes_nunca_levanta 0 yf_sem_rede ["PETR4"; "VALE3"] estado_vazio)
    as (prices & s' & Hrun & _ & _ & Hmiss).
  destruct Hmiss as (_ & _ & Hraise & _).
  { intros t v Hc. cbn [estado_vazio cache_cotacoes] in Hc.
    by rewrite lookup_empty in Hc. }
  exists s'. by rewrite <- (Hraise OutraExcecao eq_refl).
Defined.

(** ** The collection store *)

Lemma bind_run {A B} (m : M A) (k : A → M B) (s : estado) :
  (m ≫= k) s
  = match m s with
    | (Ok a, s') => k a s'
    | (Raise e, s') => (Raise e, s')
    end.
Proof. reflexivity. Qed.

Lemma coerente_visao (s : estado) (agora : Z) (file_path : string) (is_dict : bool) :
  coerente s → visao s agora file_path is_dict = ler_arquivo (disco s) file_path is_dict.
Proof.
  intros Hco. unfold visao.
  destruct (cache_load s !! (file_path, is_dict)) as [[t v]|] eqn:Hc; [|done].
  rewrite (Hco _ _ _ _ Hc). by destruct (agora <? t + TTL_LOAD).
Qed.

Lemma visao_sem_cache (s : estado) (agora : Z) (file_path : string) (is_dict : bool) :
  cache_load s = ∅ → visao s agora file_path is_dict = ler_arquivo (disco s) file_path is_dict.
Proof. intros Hc. unfold visao. by rewrite Hc, lookup_empty. Qed.

(** A read returns the view, leaves the files and the quote cache alone,
    keeps every view of the same instant and keeps the cache coherent. *)
Lemma load_data_visao (agora : Z) (file_path : string) (is_dict : bool) (s : estado) :
  ∃ s', load_data agora file_path is_dict s = (Ok (visao s agora file_path is_dict), s')
    ∧ disco s' = disco s
    ∧ cache_cotacoes s' = cache_cotacoes s
    ∧ (∀ p b, visao s' agora p b = visao s agora p b)
    ∧ (coerente s → coerente s').
Proof.
  unfold load_data.
  assert (∀ v, v = ler_arquivo (disco s) file_path is_dict →
    let s' := {| disco := disco s;
                 cache_load := <[(file_path, is_dict) := (agora, v)]> (cache_load s);
                 cache_cotacoes := cache_cotacoes s |} in
    (∀ p b, visao s' agora p b
            = if decide ((file_path, is_dict) = (p, b)) then v else visao s agora p b)
    ∧ (coerente s → coerente s')) as Hmiss.
  { intros v -> s'. split.
    - intros p b. unfold visao. cbn [cache_load disco s'].
      rewrite lookup_insert. destruct (decide ((file_path, is_dict) = (p, b))); [|done].
      destruct (Z.ltb_spec agora (agora + TTL_LOAD)); [done|].
      unfold TTL_LOAD in *. lia.
    - intros Hco p b t v. cbn [cache_load disco s']. rewrite lookup_insert.
      destruct (decide ((file_path, is_dict) = (p, b))) as [[= <- <-]|Hne].
      + by intros [= _ <-].
      + apply Hco. }
  assert (visao s agora file_path is_dict
          = match cache_load s !! (file_path, is_dict) with
            | Some (t, v) =>
                if agora <? t + TTL_LOAD then v
                else ler_arquivo (disco s) file_path is_dict
            | None => ler_arquivo (disco s) file_path is_dict
            end) as Hview by reflexivity.
  destruct (cache_load s !! (file_path, is_dict)) as [[t v]|] eqn:Hc.
  - destruct (Z.ltb_spec agora (t + TTL_LOAD)) as [Hfresh|Hold].
    + exists s. rewrite Hview. by repeat split.
    + destruct (Hmiss _ eq_refl) as [Hv Hco]. rewrite Hview.
      eexists. split; [reflexivity|].
      split; [done|]. split; [done|]. split; [|done].
      intros p b. rewrite Hv. destruct (decide _) as [[= <- <-]|]; [|done].
      by rewrite Hview.
  - destruct (Hmiss _ eq_refl) as [Hv Hco]. rewrite Hview.
    eexists. split; [reflexivity|].
    split; [done|]. split; [done|]. split; [|done].
    intros p b. rewrite Hv. destruct (decide _) as [[= <- <-]|]; [|done].
    by rewrite Hview.
Qed.

(** A write that goes through replaces the file and empties both caches. *)
Lemma save_data_ok (data : dados) (file_path : string) (s : estado) :
  save_data SemFalha data file_path s
  = (Ok (), {| disco := <[file_path := Json data]> (disco s);
               cache_load := ∅; cache_cotacoes := ∅ |}).
Proof. reflexivity. Qed.

Lemma ler_arquivo_insert (d : gmap string arquivo) (data : dados)
    (file_path p : string) (b : bool) :
  ler_arquivo (<[file_path := Json data]> d) p b
  = if decide (file_path = p) then data else ler_arquivo d p b.
Proof.
  unfold ler_arquivo. rewrite lookup_insert. by destruct (decide (file_path = p)).
Qed.

Lemma executar_disco (s : estado) (o : operacao) :
  disco (executar s o) = gravar_em (disco s) o.
Proof.
  destruct o as [agora p b|data p]; cbn [executar gravar_em]; [|done].
  destruct (load_data_visao agora p b s) as (s' & Hrun & Hd & _). by rewrite Hrun.
Qed.

Lemma executar_coerente (s : estado) (o : operacao) :
  coerente s → coerente (executar s o).
Proof.
  intros Hco. destruct o as [agora p b|data p]; cbn [executar].
  - destruct (load_data_visao agora p b s) as (s' & Hrun & _ & _ & _ & Hco').
    rewrite Hrun. by apply Hco'.
  - intros p' b' t v. cbn [save_data snd cache_load]. by rewrite lookup_empty.
Qed.

Lemma executar_todas_coerente (ops : list operacao) (s : estado) :
  coerente s → coerente (foldl executar s ops).
Proof.
  revert s. induction ops as [|o ops IH]; intros s Hco; [done|].
  cbn [foldl]. apply IH. by apply executar_coerente.
Qed.

Lemma executar_todas_disco (ops : list operacao) (s : estado) :
  disco (foldl executar s ops) = foldl gravar_em (disco s) ops.
Proof.
  revert s. induction ops as [|o ops IH]; intros s; [done|].
  cbn [foldl]. by rewrite IH, executar_disco.
Qed.

(** C2. A write that completes leaves both caches empty, whatever they
    held; from then on, through any sequence of reads and completed
    writes, a read of any file returns what the file holds at that point
    (the data of the last write to it, or what it held before the writes),
    never a value cached before a write: right after the write, a read of
    the written file returns the written data and a read of another file
    returns what that file holds. *)
Theorem leitura_reflete_gravacoes (s : estado) (data : dados) (file_path : string)
    (ops : list operacao) (agora : Z) (p : string) (b : bool) :
  (∃ s1, save_data SemFalha data file_path s = (Ok (), s1)
     ∧ cache_load s1 = ∅ ∧ cache_cotacoes s1 = ∅
     ∧ disco s1 = <[file_path := Json data]> (disco s)
     ∧ (load_data agora p b s1).1
       = Ok (if decide (file_path = p) then data else ler_arquivo (disco s) p b))
  ∧ (load_data agora p b (foldl executar s (Gravar data file_path :: ops))).1
    = Ok (ler_arquivo (foldl gravar_em (disco s) (Gravar data file_path :: ops)) p b).
Proof.
  split.
  - eexists. split; [apply save_data_ok|]. cbn [cache_load cache_cotacoes disco].
    repeat split. destruct (load_data_visao agora p b
      {| disco := <[file_path := Json data]> (disco s);
         cache_load := ∅; cache_cotacoes := ∅ |}) as (s' & -> & _).
    cbn [fst]. rewrite visao_sem_cache by done. cbn [disco].
    by rewrite ler_arquivo_insert.
  - destruct (load_data_visao agora p b
      (foldl executar s (Gravar data file_path :: ops))) as (s' & -> & _).
    cbn [fst]. f_equal. rewrite coerente_visao.
    + by rewrite executar_todas_disco.
    + cbn [foldl]. apply executar_todas_coerente.
      intros p' b' t v. cbn [executar save_data snd cache_load].
      by rewrite lookup_empty.
Qed.




(** ** Recurring transactions *)

Lemma strftime_Ym_nao_vazio (hoje : datetime) : strftime_Ym hoje ≠ "".
Proof. unfold strftime_Ym, pad4. rewrite append_cons. discriminate. Qed.

Lemma eq_str_marcado (c : gmap string campo) (hoje : datetime) :
  eq_str (Some (default (Texto "") (c !! "ultimo_mes_recorrente"))) (strftime_Ym hoje)
  = bool_decide (marcado c hoje).
Proof.
  pose proof (strftime_Ym_nao_vazio hoje) as Hne.
  destruct (decide (marcado c hoje)) as [Hm|Hm].
  - rewrite bool_decide_eq_true_2 by done. unfold marcado in Hm. rewrite Hm.
    cbn [default from_option id eq_str]. apply String.eqb_refl.
  - rewrite bool_decide_eq_false_2 by done. unfold marcado in Hm.
    destruct (c !! "ultimo_mes_recorrente") as [[t|a]|];
      cbn [default from_option id eq_str]; [| done |].
    + destruct (String.eqb_spec t (strftime_Ym hoje)) as [->|Hd]; [by destruct Hm|done].
    + by destruct (String.eqb_spec "" (strftime_Ym hoje)).
Qed.

(** The three reads of [processar_recorrentes] return the views and leave
    the files alone. *)
Lemma processar_recorrentes_visao (agora : Z) (hoje : datetime)
    (uuid : nat → string) (f1 f2 : falha) (s : estado) :
  ∃ s3, processar_recorrentes agora hoje uuid f1 f2 s
        = materializar hoje uuid f1 f2
            (visao s agora RECORRENTES_FILE false)
            (visao s agora LANCAMENTOS_FILE false)
            (visao s agora CONFIG_FILE true) s3
    ∧ disco s3 = disco s
    ∧ cache_cotacoes s3 = cache_cotacoes s
    ∧ (∀ p b, visao s3 agora p b = visao s agora p b)
    ∧ (coerente s → coerente s3).
Proof.
  unfold processar_recorrentes.
  destruct (load_data_visao agora RECORRENTES_FILE false s)
    as (s1 & E1 & D1 & Q1 & V1 & C1).
  destruct (load_data_visao agora LANCAMENTOS_FILE false s1)
    as (s2 & E2 & D2 & Q2 & V2 & C2).
  destruct (load_data_visao agora CONFIG_FILE true s2)
    as (s3 & E3 & D3 & Q3 & V3 & C3).
  exists s3. rewrite bind_run, E1, bind_run, E2, bind_run, E3.
  rewrite V2, !V1. split; [done|]. split; [congruence|]. split; [congruence|].
  split; [|tauto]. intros p b. by rewrite V3, V2, V1.
Qed.

Section Materializar.

Variables (hoje : datetime) (uuid : nat → string).
Variables (recorrentes lancamentos : dados) (c : gmap string campo).

(** The month is marked: nothing happens. *)
Lemma materializar_marcado (f1 f2 : falha) (s : estado) :
  marcado c hoje →
  materializar hoje uuid f1 f2 recorrentes lancamentos (Dicionario c) s = (Ok Retorna, s).
Proof.
  intros Hm. unfold materializar. cbn [dict_get]. rewrite bind_run. cbn [lift].
  rewrite eq_str_marcado, bool_decide_eq_true_2 by done. reflexivity.
Qed.

(** No template: nothing happens. *)
Lemma materializar_sem_recorrentes (f1 f2 : falha) (s : estado) :
  truthy recorrentes = false →
  materializar hoje uuid f1 f2 recorrentes lancamentos (Dicionario c) s = (Ok Retorna, s).
Proof.
  intros Hr. unfold materializar. cbn [dict_get]. rewrite bind_run. cbn [lift].
  rewrite Hr, andb_false_r. reflexivity.
Qed.

End Materializar.

Lemma novos_lancamentos_vazio (hoje : datetime) (uuid : nat → string) (i : nat)
    (rs : list registro) :
  novos_lancamentos hoje uuid i rs = Ok [] → rs = [].
Proof.
  destruct rs as [|r rs]; [done|]. cbn [novos_lancamentos].
  destruct (novo_lancamento hoje (uuid i) r); [|done].
  cbn [mbind resultado_bind bind].
  by destruct (novos_lancamentos hoje uuid (S i) rs).
Qed.

Section MaterializarPendente.

Variables (hoje : datetime) (uuid : nat → string).
Variables (rs ls : list registro) (c : gmap string campo) (novos : list lancamento).
Hypothesis Hnovos : novos_lancamentos hoje uuid 0 rs = Ok novos.
Hypothesis Hum : novos ≠ [].
Hypothesis Hpendente : ¬ marcado c hoje.

Lemma materializar_gera (f1 f2 : falha) (s : estado) :
  materializar hoje uuid f1 f2 (Lista rs) (Lista ls) (Dicionario c) s
  = (save_data f1 (Lista (ls ++ (Lanc <$> novos))) LANCAMENTOS_FILE;;
     save_data f2
       (Dicionario (<["ultimo_mes_recorrente" := Texto (strftime_Ym hoje)]> c))
       CONFIG_FILE;;
     mret Rerun) s.
Proof.
  unfold materializar. cbn [dict_get]. rewrite bind_run. cbn [lift].
  rewrite eq_str_marcado, bool_decide_eq_false_2 by done.
  assert (truthy (Lista rs) = true) as ->.
  { destruct rs; [|done]. cbn in Hnovos. injection Hnovos as <-. by destruct Hum. }
  cbn [negb andb gerar]. rewrite bind_run. cbn [lift]. rewrite Hnovos.
  destruct novos as [|n ns]; [by destruct Hum|]. reflexivity.
Qed.

(** Both writes go through: the new transactions are appended in one
    write, then the month is marked. *)
Lemma materializar_sucesso (s : estado) :
  materializar hoje uuid SemFalha SemFalha (Lista rs) (Lista ls) (Dicionario c) s
  = (Ok Rerun, apos_materializar s hoje ls novos c).
Proof. rewrite materializar_gera. reflexivity. Qed.

(** A write fails: the failure is raised. The caches and the files are as
    described by the write that failed. *)
Lemma materializar_falha (f1 f2 : falha) (s : estado) :
  f1 ≠ SemFalha ∨ f2 ≠ SemFalha →
  ∃ e s', materializar hoje uuid f1 f2 (Lista rs) (Lista ls) (Dicionario c) s
          = (Raise e, s')
    ∧ (f1 ≠ SemFalha ∧ f1 ≠ FalhaDump → s' = s)
    ∧ (disco s' !! CONFIG_FILE = disco s !! CONFIG_FILE
       ∨ disco s' !! CONFIG_FILE = Some Corrompido).
Proof.
  intros Hf. rewrite materializar_gera.
  destruct f1; [destruct f2; [by destruct Hf| | |]| | |];
    eexists _, _; (split; [reflexivity|]); cbn [disco].
  all: split; [try done; by intros [? ?]|].
  - left. by rewrite lookup_insert_ne.
  - left. by rewrite lookup_insert_ne.
  - right. by rewrite lookup_insert_eq.
  - by left.
  - by left.
  - left. by rewrite lookup_insert_ne.
Qed.

End MaterializarPendente.

(** A materialisation ends in [Rerun] only when it generated transactions
    and wrote them and the mark. *)
Lemma materializar_rerun (hoje : datetime) (uuid : nat → string) (f1 f2 : falha)
    (recorrentes lancamentos config : dados) (s s1 : estado) :
  materializar hoje uuid f1 f2 recorrentes lancamentos config s = (Ok Rerun, s1) →
  ∃ rs ls c novos,
    recorrentes = Lista rs ∧ lancamentos = Lista ls ∧ config = Dicionario c
    ∧ novos_lancamentos hoje uuid 0 rs = Ok novos ∧ novos ≠ []
    ∧ s1 = apos_materializar s hoje ls novos c.
Proof.
  unfold materializar. rewrite bind_run.
  destruct config as [cl|c]; cbn [dict_get lift]; [done|].
  destruct (negb _ && truthy recorrentes); [|done].
  rewrite bind_run. destruct recorrentes as [rs|rd]; cbn [gerar lift]; [|done].
  destruct (novos_lancamentos hoje uuid 0 rs) as [novos|e] eqn:Hnovos; [|done].
  destruct novos as [|n ns]; [done|]. rewrite bind_run.
  destruct lancamentos as [ls|ld]; cbn [extend lift]; [|done].
  rewrite bind_run. destruct f1; cbn [save_data]; [|done..].
  rewrite bind_run. cbn [dict_setitem lift]. rewrite bind_run.
  destruct f2; cbn [save_data]; [|done..].
  intros [= <-]. by exists rs, ls, c, (n :: ns).
Qed.

Lemma arquivos_distintos :
  RECORRENTES_FILE ≠ LANCAMENTOS_FILE ∧ RECORRENTES_FILE ≠ CONFIG_FILE
  ∧ LANCAMENTOS_FILE ≠ CONFIG_FILE.
Proof. repeat split; intros H; vm_compute in H; discriminate H. Qed.

Lemma marcado_mesmo_mes (c : gmap string campo) (hoje hoje' : datetime) :
  strftime_Ym hoje' = strftime_Ym hoje → marcado c hoje' ↔ marcado c hoje.
Proof. intros H. unfold marcado. by rewrite H. Qed.

(** The state left by a materialisation marks the month, on disk and in
    every view. *)
Lemma apos_materializar_marcado (s : estado) (hoje : datetime)
    (ls : list registro) (novos : list lancamento) (c : gmap string campo) (agora : Z) :
  ∃ c', visao (apos_materializar s hoje ls novos c) agora CONFIG_FILE true = Dicionario c'
    ∧ marcado c' hoje.
Proof.
  eexists. split.
  - rewrite visao_sem_cache by done. unfold ler_arquivo.
    cbn [apos_materializar disco]. by rewrite lookup_insert_eq.
  - unfold marcado. by rewrite lookup_insert_eq.
Qed.

(** C1. In a state whose configuration, as [load_data] returns it, marks
    the current month, [processar_recorrentes] returns without writing: no
    file changes, whatever the templates. A call that did produce
    transactions (it ended in [st.rerun()]) appended them to the
    transaction file and left such a state: every later call in the same
    month returns without writing. *)
Theorem processar_recorrentes_idempotente :
  (∀ agora hoje uuid f1 f2 s c,
     visao s agora CONFIG_FILE true = Dicionario c → marcado c hoje →
     ∃ s', processar_recorrentes agora hoje uuid f1 f2 s = (Ok Retorna, s')
       ∧ disco s' = disco s)
  ∧ (∀ agora hoje uuid f1 f2 s s1,
     processar_recorrentes agora hoje uuid f1 f2 s = (Ok Rerun, s1) →
     (∃ ls novos, novos ≠ []
        ∧ visao s agora LANCAMENTOS_FILE false = Lista ls
        ∧ disco s1 !! LANCAMENTOS_FILE = Some (Json (Lista (ls ++ (Lanc <$> novos)))))
     ∧ ∀ agora' hoje' uuid' f1' f2',
         strftime_Ym hoje' = strftime_Ym hoje →
         ∃ s2, processar_recorrentes agora' hoje' uuid' f1' f2' s1 = (Ok Retorna, s2)
           ∧ disco s2 = disco s1).
Proof.
  assert (∀ agora hoje uuid f1 f2 s c,
     visao s agora CONFIG_FILE true = Dicionario c → marcado c hoje →
     ∃ s', processar_recorrentes agora hoje uuid f1 f2 s = (Ok Retorna, s')
       ∧ disco s' = disco s) as Hmarcado.
  { intros agora hoje uuid f1 f2 s c Hc Hm.
    destruct (processar_recorrentes_visao agora hoje uuid f1 f2 s)
      as (s3 & -> & Hd & _). rewrite Hc, materializar_marcado by done. by exists s3. }
  split; [exact Hmarcado|].
  intros agora hoje uuid f1 f2 s s1 Hrun.
  destruct (processar_recorrentes_visao agora hoje uuid f1 f2 s)
    as (s3 & Hvis & Hd & _). rewrite Hvis in Hrun.
  apply materializar_rerun in Hrun
    as (rs & ls & c & novos & HR & HL & HC & Hnovos & Hne & ->).
  destruct arquivos_distintos as (_ & _ & Hlc). split.
  - exists ls, novos. split; [done|]. split; [done|].
    cbn [apos_materializar disco]. rewrite lookup_insert_ne by done.
    by rewrite lookup_insert_eq.
  - intros agora' hoje' uuid' f1' f2' Hmes.
    destruct (apos_materializar_marcado s3 hoje ls novos c agora') as (c' & Hc' & Hm).
    apply (Hmarcado agora' hoje' uuid' f1' f2' _ c' Hc').
    by apply (marcado_mesmo_mes c' hoje hoje').
Qed.

(** The template of day 31, materialised in April 2024 and run again later
    in the month: the second call writes nothing. *)
Lemma processar_recorrentes_duas_vezes :
  ∃ s1 s2,
    processar_recorrentes 0 abril_2024 uuid_exemplo SemFalha SemFalha
      estado_com_recorrente = (Ok Rerun, s1)
    ∧ disco s1 !! LANCAMENTOS_FILE = Some (Json (Lista [Lanc aluguel_abril]))
    ∧ processar_recorrentes 86400 {| year := 2024; month := 4; day := 11 |}
        uuid_exemplo SemFalha SemFalha s1 = (Ok Retorna, s2)
    ∧ disco s2 = disco s1.
Proof.
  destruct (processar_recorrentes 0 abril_2024 uuid_exemplo SemFalha SemFalha
              estado_com_recorrente) as [r s1] eqn:Hrun.
  assert (r = Ok Rerun) as ->.
  { change r with (r, s1).1. rewrite <- Hrun. vm_compute. reflexivity. }
  assert (disco s1 !! LANCAMENTOS_FILE = Some (Json (Lista [Lanc aluguel_abril]))) as Hl.
  { change s1 with (Ok Rerun, s1).2. rewrite <- Hrun. vm_compute. reflexivity. }
  destruct (proj2 processar_recorrentes_idempotente _ _ _ _ _ _ _ Hrun) as [_ Hseg].
  destruct (Hseg 86400 {| year := 2024; month := 4; day := 11 |}
              uuid_exemplo SemFalha SemFalha eq_refl) as (s2 & Hrun2 & Hd).
  by exists s1, s2.
Defined.

Lemma novo_lancamento_mes (hoje hoje' : datetime) (id : string) (r : registro) :
  year hoje' = year hoje → month hoje' = month hoje →
  novo_lancamento hoje' id r = novo_lancamento hoje id r.
Proof.
  intros Hy Hm. unfold novo_lancamento, replace_day. by rewrite Hy, Hm.
Qed.

Lemma novos_lancamentos_mes (hoje hoje' : datetime) (uuid : nat → string) (i : nat)
    (rs : list registro) :
  year hoje' = year hoje → month hoje' = month hoje →
  novos_lancamentos hoje' uuid i rs = novos_lancamentos hoje uuid i rs.
Proof.
  intros Hy Hm. revert i. induction rs as [|r rs IH]; intros i; [done|].
  cbn [novos_lancamentos]. by rewrite IH, (novo_lancamento_mes hoje hoje').
Qed.

Lemma strftime_Ym_mes (hoje hoje' : datetime) :
  year hoje' = year hoje → month hoje' = month hoje →
  strftime_Ym hoje' = strftime_Ym hoje.
Proof. intros Hy Hm. unfold strftime_Ym. by rewrite Hy, Hm. Qed.

(** C10. With no recurring template (and a configuration that is a dict),
    [processar_recorrentes] returns without writing: the transaction file
    and the configuration file are unchanged, and the month is not marked.
    When the month was not marked, a template saved afterwards is
    materialised by the next call in the same month. *)
Theorem sem_recorrentes_nao_marca (agora : Z) (hoje : datetime)
    (uuid : nat → string) (f1 f2 : falha) (s : estado) (c : gmap string campo) :
  visao s agora RECORRENTES_FILE false = Lista [] →
  visao s agora CONFIG_FILE true = Dicionario c →
  ∃ s', processar_recorrentes agora hoje uuid f1 f2 s = (Ok Retorna, s')
    ∧ disco s' = disco s
    ∧ visao s' agora CONFIG_FILE true = Dicionario c
    ∧ (coerente s → ¬ marcado c hoje →
       ∀ ls r dia agora' hoje' uuid',
         ler_arquivo (disco s) LANCAMENTOS_FILE false = Lista ls →
         dia_criacao (Rec r) = Ok dia → 1 ≤ dia →
         strftime_Ym hoje' = strftime_Ym hoje →
         ∃ novo s'',
           (save_data SemFalha (Lista [Rec r]) RECORRENTES_FILE;;
            processar_recorrentes agora' hoje' uuid' SemFalha SemFalha) s'
           = (Ok Rerun, s'')
           ∧ novo_lancamento hoje' (uuid' 0%nat) (Rec r) = Ok novo
           ∧ disco s'' !! LANCAMENTOS_FILE = Some (Json (Lista (ls ++ [Lanc novo])))).
Proof.
  intros HR HC.
  destruct (processar_recorrentes_visao agora hoje uuid f1 f2 s)
    as (s3 & -> & Hd & _ & Hv & Hco).
  rewrite HR, HC, materializar_sem_recorrentes by done.
  exists s3. split; [done|]. split; [done|]. split; [by rewrite Hv|].
  intros Hcoe Hpend ls r dia agora' hoje' uuid' HL Hdia Hpos Hmes.
  destruct arquivos_distintos as (Hrl & Hrc & Hlc).
  rewrite bind_run, save_data_ok.
  destruct (processar_recorrentes_visao agora' hoje' uuid' SemFalha SemFalha
    {| disco := <[RECORRENTES_FILE := Json (Lista [Rec r])]> (disco s3);
       cache_load := ∅; cache_cotacoes := ∅ |}) as (s4 & -> & Hd4 & _).
  rewrite !visao_sem_cache by done. cbn [disco]. rewrite !ler_arquivo_insert.
  rewrite decide_True by done. rewrite !decide_False by done.
  rewrite Hd, HL. rewrite <- (coerente_visao s agora) by done. rewrite HC.
  pose proof (novo_lancamento_ok hoje' (uuid' 0%nat) r dia Hdia Hpos) as Hnovo.
  eexists _, _. split; [|split; [exact Hnovo|]].
  - apply materializar_sucesso.
    + cbn [novos_lancamentos]. rewrite Hnovo. reflexivity.
    + done.
    + by rewrite (marcado_mesmo_mes c hoje hoje').
  - cbn [apos_materializar disco fmap list_fmap].
    rewrite lookup_insert_ne by done. by rewrite lookup_insert_eq.
Qed.

(** Before any template exists nothing is written; the template of day 31,
    saved afterwards, is materialised by the next call of the month. *)
Lemma sem_recorrentes_depois_com :
  ∃ s' s'',
    processar_recorrentes 0 abril_2024 uuid_exemplo SemFalha SemFalha
      estado_sem_recorrente = (Ok Retorna, s')
    ∧ disco s' = disco estado_sem_recorrente
    ∧ (save_data SemFalha (Lista [Rec recorrente_31]) RECORRENTES_FILE;;
       processar_recorrentes 3600 abril_2024 uuid_exemplo SemFalha SemFalha) s'
      = (Ok Rerun, s'')
    ∧ disco s'' !! LANCAMENTOS_FILE = Some (Json (Lista [Lanc aluguel_abril])).
Proof.
  destruct (sem_recorrentes_nao_marca 0 abril_2024 uuid_exemplo SemFalha SemFalha
              estado_sem_recorrente ∅) as (s' & Hrun & Hd & _ & Hdepois);
    [reflexivity | reflexivity |].
  destruct (Hdepois) with (ls := @nil registro) (r := recorrente_31) (dia := 31)
    (agora' := 3600) (hoje' := abril_2024) (uuid' := uuid_exemplo)
    as (novo & s'' & Hrun2 & Hnovo & Hl).
  - intros p b t v Hc. cbn [estado_sem_recorrente cache_load] in Hc.
    by rewrite lookup_empty in Hc.
  - unfold marcado. by rewrite lookup_empty.
  - reflexivity.
  - reflexivity.
  - lia.
  - reflexivity.
  - exists s', s''. split; [done|]. split; [done|]. split; [done|].
    rewrite Hl. injection Hnovo as <-. reflexivity.
Defined.

(** C9 (as amended). With templates to materialise and the month not
    marked: when both writes go through, the transaction file holds the old
    entries followed by the new ones and the configuration marks the month;
    when either write fails, the failure is raised to the caller and the
    configuration on disk does not mark the month, so the next call
    materialises again; when the failure came before the transaction file
    was opened for writing (the lock or the [open] of the first write
    failed), no file has changed and that next call leaves the files as a
    single successful run would have. *)
Theorem materializacao_falha_e_repeticao (agora : Z) (hoje : datetime)
    (uuid : nat → string) (s : estado) (rs ls : list registro)
    (c : gmap string campo) (novos : list lancamento) :
  coerente s →
  ler_arquivo (disco s) RECORRENTES_FILE false = Lista rs →
  ler_arquivo (disco s) LANCAMENTOS_FILE false = Lista ls →
  ler_arquivo (disco s) CONFIG_FILE true = Dicionario c →
  novos_lancamentos hoje uuid 0 rs = Ok novos → novos ≠ [] →
  ¬ marcado c hoje →
  (∃ s_ok, processar_recorrentes agora hoje uuid SemFalha SemFalha s = (Ok Rerun, s_ok)
     ∧ disco s_ok = disco (apos_materializar s hoje ls novos c))
  ∧ ∀ f1 f2, f1 ≠ SemFalha ∨ f2 ≠ SemFalha →
      ∃ e s', processar_recorrentes agora hoje uuid f1 f2 s = (Raise e, s')
        ∧ (∀ c', ler_arquivo (disco s') CONFIG_FILE true = Dicionario c' →
             ¬ marcado c' hoje)
        ∧ (f1 = FalhaLock ∨ f1 = FalhaOpen →
           disco s' = disco s
           ∧ ∀ agora' hoje', year hoje' = year hoje → month hoje' = month hoje →
               ∃ s'', processar_recorrentes agora' hoje' uuid SemFalha SemFalha s'
                      = (Ok Rerun, s'')
                 ∧ disco s'' = disco (apos_materializar s hoje ls novos c)).
Proof.
  intros Hco HR HL HC Hnovos Hne Hpend.
  assert (∀ agora1 hoje1 s1, coerente s1 → disco s1 = disco s →
            year hoje1 = year hoje → month hoje1 = month hoje →
            ∃ s_ok, processar_recorrentes agora1 hoje1 uuid SemFalha SemFalha s1
                    = (Ok Rerun, s_ok)
              ∧ disco s_ok = disco (apos_materializar s hoje ls novos c)) as Hok.
  { intros agora1 hoje1 s1 Hco1 Hd1 Hy Hm.
    destruct (processar_recorrentes_visao agora1 hoje1 uuid SemFalha SemFalha s1)
      as (s3 & -> & Hd3 & _).
    rewrite !coerente_visao by done. rewrite Hd1, HR, HL, HC.
    rewrite (materializar_sucesso hoje1 uuid rs ls c novos).
    - eexists. split; [reflexivity|]. cbn [apos_materializar disco].
      by rewrite Hd3, Hd1, (strftime_Ym_mes hoje hoje1).
    - by rewrite (novos_lancamentos_mes hoje hoje1).
    - done.
    - by rewrite (marcado_mesmo_mes c hoje hoje1) by by apply strftime_Ym_mes. }
  split; [by apply Hok|].
  intros f1 f2 Hf.
  destruct (processar_recorrentes_visao agora hoje uuid f1 f2 s)
    as (s3 & -> & Hd3 & _ & _ & Hco3).
  rewrite !coerente_visao by done. rewrite HR, HL, HC.
  destruct (materializar_falha hoje uuid rs ls c novos Hnovos Hne Hpend f1 f2 s3 Hf)
    as (e & s' & -> & Hcedo & Hcfg).
  exists e, s'. split; [done|]. split.
  - intros c' Hc'. unfold ler_arquivo in Hc', HC.
    destruct Hcfg as [Hcfg|Hcfg]; rewrite Hcfg in Hc'.
    + rewrite Hd3 in Hc'. rewrite Hc' in HC. by injection HC as ->.
    + injection Hc' as <-. unfold marcado. by rewrite lookup_empty.
  - intros Hf1. assert (s' = s3) as ->.
    { apply Hcedo. destruct Hf1 as [-> | ->]; by split. }
    split; [done|]. intros agora' hoje' Hy Hm. apply Hok; tauto.
Qed.

(** The write of the transactions cannot take its lock: the call raises,
    the files are as before, and the next call materialises the template
    once. *)
Lemma materializacao_repetida_apos_lock :
  ∃ e s' s'',
    processar_recorrentes 0 abril_2024 uuid_exemplo FalhaLock SemFalha
      estado_com_recorrente = (Raise e, s')
    ∧ disco s' = disco estado_com_recorrente
    ∧ processar_recorrentes 60 abril_2024 uuid_exemplo SemFalha SemFalha s'
      = (Ok Rerun, s'')
    ∧ disco s'' !! LANCAMENTOS_FILE = Some (Json (Lista [Lanc aluguel_abril])).
Proof.
  destruct (materializacao_falha_e_repeticao 0 abril_2024 uuid_exemplo
              estado_com_recorrente [Rec recorrente_31] [] ∅ [aluguel_abril])
    as [_ Hfalha].
  - intros p b t v Hc. cbn [estado_com_recorrente cache_load] in Hc.
    by rewrite lookup_empty in Hc.
  - reflexivity.
  - reflexivity.
  - reflexivity.
  - reflexivity.
  - discriminate.
  - unfold marcado. by rewrite lookup_empty.
  - destruct (Hfalha FalhaLock SemFalha) as (e & s' & Hrun & _ & Hcedo);
      [by left|].
    destruct Hcedo as [Hd Hrep]; [by left|].
    destruct (Hrep 60 abril_2024 eq_refl eq_refl) as (s'' & Hrun2 & Hd2).
    exists e, s', s''. split; [done|]. split; [done|]. split; [done|].
    rewrite Hd2. reflexivity.
Defined.

(** C9, the claim as stated fails: the transactions are written and the
    write of the configuration then fails at [open]. The call raises and
    the month is not marked; the next call materialises the template a
    second time, and the transaction file ends with two entries where a
    single successful run leaves one. *)
Lemma materializacao_repetida_duplica :
  ∃ e s' s'' s_ok,
    processar_recorrentes 0 abril_2024 uuid_exemplo SemFalha FalhaOpen
      estado_com_recorrente = (Raise e, s')
    ∧ ler_arquivo (disco s') CONFIG_FILE true = Dicionario ∅
    ∧ processar_recorrentes 60 abril_2024 uuid_exemplo SemFalha SemFalha s'
      = (Ok Rerun, s'')
    ∧ disco s'' !! LANCAMENTOS_FILE
      = Some (Json (Lista [Lanc aluguel_abril; Lanc aluguel_abril]))
    ∧ processar_recorrentes 0 abril_2024 uuid_exemplo SemFalha SemFalha
        estado_com_recorrente = (Ok Rerun, s_ok)
    ∧ disco s_ok !! LANCAMENTOS_FILE = Some (Json (Lista [Lanc aluguel_abril]))
    ∧ disco s'' ≠ disco s_ok.
Proof.
  eexists _, _, _, _.
  split; [vm_compute; reflexivity|].
  split; [vm_compute; reflexivity|].
  split; [vm_compute; reflexivity|].
  split; [vm_compute; reflexivity|].
  split; [vm_compute; reflexivity|].
  split; [vm_compute; reflexivity|].
  intros H. apply (f_equal (λ d, d !! LANCAMENTOS_FILE)) in H.
  vm_compute in H. discriminate H.
Qed.

(** ** Daily backup *)

Lemma em_files_to_backup (f : string) :
  f ∈ files_to_backup →
  f = LANCAMENTOS_FILE ∨ f = INVESTIMENTOS_FILE ∨ f = RECORRENTES_FILE
  ∨ f = METAS_FILE.
Proof. unfold files_to_backup. rewrite !elem_of_cons, elem_of_nil. tauto. Qed.

(** The sixth character of a snapshot path is the [b] of [backup], the
    thirteenth is the first letter of the name of the file copied. *)
Lemma backup_path_get (f hoje_str : string) :
  f ∈ files_to_backup →
  String.get 5 (backup_path f hoje_str) = Some "b"%char
  ∧ String.get 12 (backup_path f hoje_str) = String.get 5 f.
Proof.
  intros Hf. apply em_files_to_backup in Hf as [->|[->|[->| ->]]];
    split; reflexivity.
Qed.

Lemma backup_path_nao_e_dado (f g hoje_str : string) :
  f ∈ files_to_backup → g ∈ CONFIG_FILE :: files_to_backup →
  backup_path f hoje_str ≠ g.
Proof.
  intros Hf Hg Heq. apply (backup_path_get f hoje_str) in Hf as [Hb _].
  rewrite Heq in Hb. apply elem_of_cons in Hg as [->|Hg]; [discriminate Hb|].
  apply em_files_to_backup in Hg as [->|[->|[->| ->]]]; discriminate Hb.
Qed.

(** One snapshot path per file. *)
Lemma backup_path_inj (f g hoje_str : string) :
  f ∈ files_to_backup → g ∈ files_to_backup →
  backup_path f hoje_str = backup_path g hoje_str → f = g.
Proof.
  intros Hf Hg Heq.
  pose proof (backup_path_get f hoje_str Hf) as [_ Hcf].
  pose proof (backup_path_get g hoje_str Hg) as [_ Hcg].
  rewrite Heq, Hcg in Hcf. clear Heq Hcg.
  apply em_files_to_backup in Hf as [->|[->|[->| ->]]];
    apply em_files_to_backup in Hg as [->|[->|[->| ->]]];
    first [ reflexivity | discriminate Hcf ].
Qed.

Section Copiar.

Variables (hoje_str : string) (d0 : gmap string arquivo).

(** The copy loop without failure, on files whose snapshot paths are not
    among them. *)
Lemma copiar_sem_falha (files : list string) (s : estado) :
  (∀ g, g ∈ files → disco s !! g = d0 !! g) →
  (∀ f g, f ∈ files → g ∈ files → backup_path f hoje_str ≠ g) →
  ∃ s', copiar sem_falha_copia hoje_str files s = (Ok (), s')
    ∧ cache_load s' = cache_load s
    ∧ cache_cotacoes s' = cache_cotacoes s
    ∧ disco s' = foldl (com_snapshot d0 hoje_str) (disco s) files.
Proof.
  revert s. induction files as [|f files IH]; intros s Hd0 Hne.
  - by exists s.
  - cbn [copiar foldl]. unfold com_snapshot at 2.
    rewrite (Hd0 f) by set_solver.
    destruct (d0 !! f) as [a|] eqn:Hf; cbn [sem_falha_copia].
    + destruct (IH {| disco := <[backup_path f hoje_str := a]> (disco s);
                      cache_load := cache_load s;
                      cache_cotacoes := cache_cotacoes s |})
        as (s' & Hrun & Hc & Hq & Hd).
      * intros g Hg. cbn [disco]. rewrite lookup_insert_ne; [apply Hd0; set_solver|].
        apply Hne; set_solver.
      * intros f' g Hf' Hg. apply Hne; set_solver.
      * exists s'. by rewrite Hrun.
    + destruct (IH s) as (s' & Hrun & Hc & Hq & Hd).
      * intros g Hg. apply Hd0. set_solver.
      * intros f' g Hf' Hg. apply Hne; set_solver.
      * exists s'. by rewrite Hrun.
Qed.

(** A path that is no snapshot path is not touched. *)
Lemma com_snapshot_outros (files : list string) (acc : gmap string arquivo)
    (p : string) :
  (∀ f, f ∈ files → p ≠ backup_path f hoje_str) →
  foldl (com_snapshot d0 hoje_str) acc files !! p = acc !! p.
Proof.
  revert acc. induction files as [|f files IH]; intros acc Hp; [done|].
  cbn [foldl]. rewrite IH by (intros; apply Hp; set_solver).
  unfold com_snapshot. destruct (d0 !! f); [|done].
  rewrite lookup_insert_ne; [done|]. intros Heq. by apply (Hp f); [set_solver|].
Qed.

(** A file that exists has its content under its snapshot path. *)
Lemma com_snapshot_copia (files : list string) (acc : gmap string arquivo)
    (f : string) (a : arquivo) :
  (∀ g, g ∈ files → backup_path g hoje_str = backup_path f hoje_str → g = f) →
  d0 !! f = Some a →
  f ∈ files ∨ acc !! backup_path f hoje_str = Some a →
  foldl (com_snapshot d0 hoje_str) acc files !! backup_path f hoje_str = Some a.
Proof.
  intros Hinj Hf. revert acc Hinj.
  induction files as [|g files IH]; intros acc Hinj Hin.
  - destruct Hin as [Hin|Hin]; [by apply elem_of_nil in Hin|done].
  - cbn [foldl].
    apply IH; [intros g' Hg' Heq; apply Hinj; [apply elem_of_cons; by right|done]|].
    unfold com_snapshot. destruct (decide (g = f)) as [->|Hgf].
    + right. rewrite Hf. apply lookup_insert_eq.
    + destruct Hin as [Hin|Hin].
      * left. apply elem_of_cons in Hin as [Heq|Hin]; [by destruct Hgf|done].
      * right. destruct (d0 !! g); [|done]. rewrite lookup_insert_ne; [done|].
        intros Heq. apply Hgf, Hinj; [apply elem_of_cons; by left|done].
Qed.

End Copiar.

Lemma eq_str_decide (o : option campo) (t : string) :
  eq_str o t = bool_decide (o = Some (Texto t)).
Proof.
  destruct (decide (o = Some (Texto t))) as [->|Hne].
  - rewrite bool_decide_eq_true_2 by done. apply String.eqb_refl.
  - rewrite bool_decide_eq_false_2 by done. destruct o as [[t'|a]|]; [|done..].
    cbn [eq_str]. destruct (String.eqb_spec t' t) as [->|]; [by destruct Hne|done].
Qed.

(** The backup of the day is made: nothing happens. *)
Lemma copiar_e_marcar_feito (hoje : datetime) (fcopia : string → falha)
    (fsave : falha) (c : gmap string campo) (s : estado) :
  c !! "ultimo_backup" = Some (Texto (strftime_Ymd hoje)) →
  copiar_e_marcar hoje fcopia fsave (Dicionario c) s = (Ok (), s).
Proof.
  intros Hc. unfold copiar_e_marcar. cbn [dict_get]. rewrite bind_run. cbn [lift].
  rewrite eq_str_decide, bool_decide_eq_true_2 by done. reflexivity.
Qed.

(** The backup of the day is to be made and nothing fails: the files are
    copied, then the day is marked. *)
Lemma copiar_e_marcar_pendente (hoje : datetime) (c : gmap string campo) (s : estado) :
  c !! "ultimo_backup" ≠ Some (Texto (strftime_Ymd hoje)) →
  copiar_e_marcar hoje sem_falha_copia SemFalha (Dicionario c) s
  = (Ok (),
     {| disco :=
          <[CONFIG_FILE :=
              Json (Dicionario (<["ultimo_backup" := Texto (strftime_Ymd hoje)]> c))]>
            (foldl (com_snapshot (disco s) (strftime_Ymd hoje)) (disco s)
               files_to_backup);
        cache_load := ∅; cache_cotacoes := ∅ |}).
Proof.
  intros Hc. unfold copiar_e_marcar. cbn [dict_get]. rewrite bind_run. cbn [lift].
  rewrite eq_str_decide, bool_decide_eq_false_2 by done. cbn [negb].
  destruct (copiar_sem_falha (strftime_Ymd hoje) (disco s) files_to_backup s)
    as (s1 & Hrun & _ & _ & Hd); [done| |].
  { intros f g Hf Hg. apply backup_path_nao_e_dado; [done|].
    apply elem_of_cons. by right. }
  rewrite bind_run, Hrun, bind_run. cbn [dict_setitem lift].
  rewrite save_data_ok. by rewrite Hd.
Qed.

(** C8. When the configuration, as [load_data] returns it, does not hold
    today as [ultimo_backup] (and nothing fails), [criar_backup_diario]
    copies the content of every file of [files_to_backup] that exists to
    [data/backup/<file name>_<YYYY-MM-DD>.json], then writes the
    configuration with today as [ultimo_backup]; no other file changes, and
    a second call on the same date changes no file. When the configuration
    holds today, the call changes no file. The snapshot paths of two
    different files differ: one snapshot per file and date. *)
Theorem backup_uma_vez_por_dia (agora : Z) (hoje : datetime) (s : estado)
    (c : gmap string campo) :
  visao s agora CONFIG_FILE true = Dicionario c →
  (c !! "ultimo_backup" ≠ Some (Texto (strftime_Ymd hoje)) →
   ∃ s1, criar_backup_diario agora hoje sem_falha_copia SemFalha s = (Ok (), s1)
     ∧ (∀ f a, f ∈ files_to_backup → disco s !! f = Some a →
          disco s1 !! backup_path f (strftime_Ymd hoje) = Some a)
     ∧ disco s1 !! CONFIG_FILE
       = Some (Json (Dicionario (<["ultimo_backup" := Texto (strftime_Ymd hoje)]> c)))
     ∧ (∀ p, p ≠ CONFIG_FILE →
          (∀ f, f ∈ files_to_backup → p ≠ backup_path f (strftime_Ymd hoje)) →
          disco s1 !! p = disco s !! p)
     ∧ (∀ agora' hoje' fcopia fsave,
          strftime_Ymd hoje' = strftime_Ymd hoje →
          ∃ s2, criar_backup_diario agora' hoje' fcopia fsave s1 = (Ok (), s2)
            ∧ disco s2 = disco s1))
  ∧ (c !! "ultimo_backup" = Some (Texto (strftime_Ymd hoje)) →
     ∀ fcopia fsave,
       ∃ s1, criar_backup_diario agora hoje fcopia fsave s = (Ok (), s1)
         ∧ disco s1 = disco s)
  ∧ (∀ f g, f ∈ files_to_backup → g ∈ files_to_backup →
       backup_path f (strftime_Ymd hoje) = backup_path g (strftime_Ymd hoje) →
       f = g).
Proof.
  intros HC.
  assert (∀ agora1 hoje1 fcopia fsave s1 c1,
            visao s1 agora1 CONFIG_FILE true = Dicionario c1 →
            c1 !! "ultimo_backup" = Some (Texto (strftime_Ymd hoje1)) →
            ∃ s2, criar_backup_diario agora1 hoje1 fcopia fsave s1 = (Ok (), s2)
              ∧ disco s2 = disco s1) as Hfeito.
  { intros agora1 hoje1 fcopia fsave s1 c1 Hc1 Hub. unfold criar_backup_diario.
    destruct (load_data_visao agora1 CONFIG_FILE true s1) as (s2 & Hrun & Hd & _).
    rewrite bind_run, Hrun, Hc1, copiar_e_marcar_feito by done. by exists s2. }
  split; [|split].
  - intros Hpend. unfold criar_backup_diario.
    destruct (load_data_visao agora CONFIG_FILE true s) as (s0 & Hrun & Hd & _).
    rewrite bind_run, Hrun, HC, copiar_e_marcar_pendente by done.
    eexists. split; [reflexivity|]. cbn [disco]. rewrite Hd. split; [|split; [|split]].
    + intros f a Hf Ha. rewrite lookup_insert_ne.
      * apply com_snapshot_copia; [|done|by left].
        intros g Hg Heq. by apply (backup_path_inj g f (strftime_Ymd hoje)).
      * intros Heq. symmetry in Heq. revert Heq.
        apply backup_path_nao_e_dado; [done|]. apply elem_of_cons. by left.
    + apply lookup_insert_eq.
    + intros p Hp Hsnap. rewrite lookup_insert_ne by done.
      by apply com_snapshot_outros.
    + intros agora' hoje' fcopia fsave Hdia.
      eapply Hfeito.
      * rewrite visao_sem_cache by done. unfold ler_arquivo. cbn [disco].
        by rewrite lookup_insert_eq.
      * rewrite Hdia. apply lookup_insert_eq.
  - intros Hub fcopia fsave. by apply (Hfeito agora hoje fcopia fsave s c).
  - intros f g. apply backup_path_inj.
Qed.

(** The backup of 10 April 2024 of an installation with transactions and
    templates: both files are copied under dated names, and a second call
    on the same day finds the backup made. *)
Lemma backup_de_abril :
  ∃ s1 s2,
    criar_backup_diario 0 abril_2024 sem_falha_copia SemFalha estado_para_backup
    = (Ok (), s1)
    ∧ disco s1 !! "data/backup/lancamentos.json_2024-04-10.json"
      = Some (Json (Lista [Lanc aluguel_abril]))
    ∧ disco s1 !! "data/backup/recorrentes.json_2024-04-10.json"
      = Some (Json (Lista [Rec recorrente_31]))
    ∧ criar_backup_diario 3600 abril_2024 sem_falha_copia SemFalha s1 = (Ok (), s2)
    ∧ disco s2 = disco s1.
Proof.
  destruct (backup_uma_vez_por_dia 0 abril_2024 estado_para_backup ∅) as [Hfaz _];
    [reflexivity|].
  destruct Hfaz as (s1 & Hrun & Hcopia & _ & _ & Hsegunda).
  { by rewrite lookup_empty. }
  destruct (Hsegunda 3600 abril_2024 sem_falha_copia SemFalha eq_refl)
    as (s2 & Hrun2 & Hd2).
  exists s1, s2. split; [done|]. split; [|split; [|done]].
  - apply (Hcopia LANCAMENTOS_FILE); [|reflexivity].
    unfold files_to_backup. rewrite !elem_of_cons. tauto.
  - apply (Hcopia RECORRENTES_FILE); [|reflexivity].
    unfold files_to_backup. rewrite !elem_of_cons. tauto.
Defined.

(** C8, the claim as stated fails: the configuration file is one of the
    files the application maintains and it exists, yet the backup of
    10 April 2024 makes no snapshot of it; the files after the backup are
    the three files of before and the snapshots of the two list
    collections. *)
Lemma backup_nao_copia_config :
  ∃ s1,
    criar_backup_diario 0 abril_2024 sem_falha_copia SemFalha estado_para_backup
    = (Ok (), s1)
    ∧ CONFIG_FILE ∈ data_files
    ∧ disco estado_para_backup !! CONFIG_FILE = Some (Json (Dicionario ∅))
    ∧ disco s1 !! backup_path CONFIG_FILE "2024-04-10" = None
    ∧ dom (disco s1)
      = list_to_set
          [CONFIG_FILE; LANCAMENTOS_FILE; RECORRENTES_FILE;
           "data/backup/lancamentos.json_2024-04-10.json";
           "data/backup/recorrentes.json_2024-04-10.json"].
Proof.
  eexists. split; [vm_compute; reflexivity|].
  split; [unfold data_files; rewrite !elem_of_cons; tauto|].
  split; [vm_compute; reflexivity|].
  split; [vm_compute; reflexivity|].
  vm_compute. reflexivity.
Qed.

(** * Further properties *)

(** ** Reads and the files *)



(** The loop of [setup_data_files] over any list of files. *)
Lemma setup_lookup (files : list string) (d : gmap string arquivo) (p : string) :
  foldl (λ d file_path,
           match d !! file_path with
           | Some _ => d
           | None =>
               <[file_path :=
                   Json (if String.eqb file_path CONFIG_FILE
                         then Dicionario ∅ else Lista [])]> d
           end) d files !! p
  = match d !! p with
    | Some a => Some a
    | None =>
        if bool_decide (p ∈ files)
        then Some (Json (if String.eqb p CONFIG_FILE then Dicionario ∅ else Lista []))
        else None
    end.
Proof.
  revert d. induction files as [|f files IH]; intros d.
  - cbn [foldl]. rewrite bool_decide_eq_false_2 by apply not_elem_of_nil.
    by destruct (d !! p).
  - cbn [foldl]. rewrite IH. destruct (decide (f = p)) as [->|Hne].
    + rewrite (bool_decide_eq_true_2 (p ∈ p :: files)) by (apply elem_of_cons; by left).
      destruct (d !! p) as [a|] eqn:Hp; [by rewrite Hp|].
      by rewrite lookup_insert_eq.
    + assert (bool_decide (p ∈ f :: files) = bool_decide (p ∈ files)) as ->.
      { apply bool_decide_ext. rewrite elem_of_cons.
        split; [intros [Heq|Hin]; [by destruct Hne|done] | by right]. }
      destruct (d !! f); [done|]. by rewrite lookup_insert_ne.
Qed.

(** X2. [setup_data_files] makes each of the five data files exist, leaves
    every file that exists and every other path as it is, and does not
    change what a read of a data file returns, at any time and whatever is
    cached: a file that was missing read as the empty value it is created
    with. Running it again changes nothing. *)
Theorem setup_data_files_invisivel (s : estado) :
  ∃ s', setup_data_files s = (Ok (), s')
    ∧ cache_load s' = cache_load s ∧ cache_cotacoes s' = cache_cotacoes s
    ∧ (∀ p, p ∈ data_files → is_Some (disco s' !! p))
    ∧ (∀ p a, disco s !! p = Some a → disco s' !! p = Some a)
    ∧ (∀ p, p ∉ data_files → disco s' !! p = disco s !! p)
    ∧ (∀ agora p, p ∈ data_files →
         visao s' agora p (e_config p) = visao s agora p (e_config p))
    ∧ setup_data_files s' = (Ok (), s').
Proof.
  eexists. split; [reflexivity|]. cbn [cache_load cache_cotacoes disco].
  split; [done|]. split; [done|].
  split; [|split; [|split; [|split]]].
  - intros p Hp. rewrite setup_lookup, bool_decide_eq_true_2 by done.
    by destruct (disco s !! p).
  - intros p a Hp. by rewrite setup_lookup, Hp.
  - intros p Hp. rewrite setup_lookup, bool_decide_eq_false_2 by done.
    by destruct (disco s !! p).
  - intros agora p Hp. unfold visao, ler_arquivo. cbn [cache_load disco].
    rewrite setup_lookup, bool_decide_eq_true_2 by done. unfold e_config.
    destruct (disco s !! p) as [a|]; [done|].
    by destruct (String.eqb p CONFIG_FILE).
  - unfold setup_data_files. cbn [cache_load cache_cotacoes disco].
    do 2 f_equal. apply map_eq. intros p. rewrite !setup_lookup.
    destruct (disco s !! p); [done|]. by destruct (bool_decide (p ∈ data_files)).
Qed.

(** ** Daily backup: failures *)

(** Whatever fails, the copy loop touches snapshot paths only. *)
Lemma copiar_outros (fcopia : string → falha) (hoje_str : string)
    (files : list string) (s : estado) :
  cache_load (copiar fcopia hoje_str files s).2 = cache_load s
  ∧ cache_cotacoes (copiar fcopia hoje_str files s).2 = cache_cotacoes s
  ∧ ∀ p, (∀ f, f ∈ files → p ≠ backup_path f hoje_str) →
      disco (copiar fcopia hoje_str files s).2 !! p = disco s !! p.
Proof.
  revert s. induction files as [|f files IH]; intros s; [done|].
  cbn [copiar].
  assert (∀ p, (∀ g, g ∈ f :: files → p ≠ backup_path g hoje_str) →
               (∀ g, g ∈ files → p ≠ backup_path g hoje_str)
               ∧ p ≠ backup_path f hoje_str) as Hsplit.
  { intros p Hp. split; [intros g Hg|]; apply Hp, elem_of_cons; auto. }
  destruct (disco s !! f) as [a|].
  - destruct (fcopia f); cbn [snd cache_load cache_cotacoes disco].
    + destruct (IH {| disco := <[backup_path f hoje_str := a]> (disco s);
                      cache_load := cache_load s;
                      cache_cotacoes := cache_cotacoes s |}) as (Hc & Hq & Hd).
      split; [done|]. split; [done|]. intros p Hp.
      destruct (Hsplit p Hp) as [Hrest Hf]. rewrite Hd by done.
      cbn [disco]. by rewrite lookup_insert_ne.
    + done.
    + done.
    + split; [done|]. split; [done|]. intros p Hp.
      destruct (Hsplit p Hp) as [_ Hf]. by rewrite lookup_insert_ne.
  - destruct (IH s) as (Hc & Hq & Hd). split; [done|]. split; [done|].
    intros p Hp. apply Hd. by apply Hsplit.
Qed.

(** A copy that fails stops the loop with the exception. *)
Lemma copiar_falha (fcopia : string → falha) (hoje_str : string)
    (files : list string) (s : estado) (f : string) :
  f ∈ files → is_Some (disco s !! f) → fcopia f ≠ SemFalha →
  (∀ g h, g ∈ files → h ∈ files → backup_path g hoje_str ≠ h) →
  ∃ e, (copiar fcopia hoje_str files s).1 = Raise e.
Proof.
  revert s. induction files as [|g files IH]; intros s Hf Hex Hfail Hne.
  { by apply elem_of_nil in Hf. }
  cbn [copiar]. destruct (decide (g = f)) as [->|Hgf].
  - destruct Hex as [a ->]. destruct (fcopia f); [done|by exists OSError..].
  - apply elem_of_cons in Hf as [->|Hf]; [done|].
    assert (∀ g' h, g' ∈ files → h ∈ files → backup_path g' hoje_str ≠ h) as Hne'.
    { intros g' h Hg' Hh. apply Hne; apply elem_of_cons; by right. }
    destruct (disco s !! g) as [a|]; [|by apply IH].
    destruct (fcopia g); [|by exists OSError..].
    apply IH; [done| |done|done]. cbn [disco]. rewrite lookup_insert_ne; [done|].
    apply Hne; apply elem_of_cons; [by left|by right].
Qed.

(** X3. Whatever fails and however it ends, [criar_backup_diario] leaves the
    four files it copies as they were. *)
Theorem backup_preserva_dados (agora : Z) (hoje : datetime)
    (fcopia : string → falha) (fsave : falha) (s : estado) (p : string) :
  p ∈ files_to_backup →
  disco (criar_backup_diario agora hoje fcopia fsave s).2 !! p = disco s !! p.
Proof.
  intros Hp. unfold criar_backup_diario.
  destruct (load_data_visao agora CONFIG_FILE true s) as (s0 & Hrun & Hd & _).
  rewrite bind_run, Hrun, <- Hd. clear Hrun Hd.
  assert (p ≠ CONFIG_FILE) as Hpc.
  { apply em_files_to_backup in Hp as [->|[->|[->| ->]]];
      intros H; vm_compute in H; discriminate H. }
  assert (∀ f, f ∈ files_to_backup → p ≠ backup_path f (strftime_Ymd hoje)) as Hsnap.
  { intros f Hf Heq. symmetry in Heq. revert Heq.
    apply backup_path_nao_e_dado; [done|]. apply elem_of_cons. by right. }
  unfold copiar_e_marcar. rewrite bind_run.
  destruct (visao s agora CONFIG_FILE true) as [l|c]; cbn [dict_get lift]; [done|].
  destruct (negb _); [|done]. rewrite bind_run.
  pose proof (copiar_outros fcopia (strftime_Ymd hoje) files_to_backup s0)
    as (_ & _ & Hd).
  specialize (Hd p Hsnap).
  destruct (copiar fcopia (strftime_Ymd hoje) files_to_backup s0) as [[[]|e] s1];
    cbn [snd] in *; [|done].
  rewrite bind_run. cbn [dict_setitem lift].
  destruct fsave; cbn [save_data snd disco]; try done;
    by rewrite lookup_insert_ne.
Qed.

(** The backup of [estado_para_backup] with a failing copy leaves the
    transaction file as it was. *)
Lemma backup_preserva_lancamentos :
  disco (criar_backup_diario 0 abril_2024 falha_copia_lancamentos SemFalha
           estado_para_backup).2 !! LANCAMENTOS_FILE
  = Some (Json (Lista [Lanc aluguel_abril])).
Proof.
  rewrite (backup_preserva_dados 0 abril_2024 falha_copia_lancamentos SemFalha
             estado_para_backup LANCAMENTOS_FILE).
  - reflexivity.
  - unfold files_to_backup. apply elem_of_cons. by left.
Defined.

(** X4. When the backup of the day is to be made and the copy of a file
    that exists fails, [criar_backup_diario] raises without writing the
    configuration: the day is not marked, and the next call on that day, if
    nothing fails, copies every file and marks the day. *)
Theorem backup_falha_de_copia (agora agora' : Z) (hoje : datetime)
    (fcopia : string → falha) (fsave : falha) (s : estado)
    (c : gmap string campo) (f : string) :
  coerente s →
  visao s agora CONFIG_FILE true = Dicionario c →
  c !! "ultimo_backup" ≠ Some (Texto (strftime_Ymd hoje)) →
  f ∈ files_to_backup → is_Some (disco s !! f) → fcopia f ≠ SemFalha →
  ∃ e s', criar_backup_diario agora hoje fcopia fsave s = (Raise e, s')
    ∧ disco s' !! CONFIG_FILE = disco s !! CONFIG_FILE
    ∧ ∃ s'', criar_backup_diario agora' hoje sem_falha_copia SemFalha s' = (Ok (), s'')
        ∧ (∀ g a, g ∈ files_to_backup → disco s !! g = Some a →
             disco s'' !! backup_path g (strftime_Ymd hoje) = Some a)
        ∧ disco s'' !! CONFIG_FILE
          = Some (Json (Dicionario
                          (<["ultimo_backup" := Texto (strftime_Ymd hoje)]> c))).
Proof.
  intros Hco HC Hpend Hf Hex Hfail.
  assert (∀ g h, g ∈ files_to_backup → h ∈ files_to_backup →
                 backup_path g (strftime_Ymd hoje) ≠ h) as Hne.
  { intros g h Hg Hh. apply backup_path_nao_e_dado; [done|].
    apply elem_of_cons. by right. }
  assert (∀ g, g ∈ files_to_backup →
               CONFIG_FILE ≠ backup_path g (strftime_Ymd hoje)) as Hcfg.
  { intros g Hg Heq. symmetry in Heq. revert Heq.
    apply backup_path_nao_e_dado; [done|]. apply elem_of_cons. by left. }
  unfold criar_backup_diario at 1.
  destruct (load_data_visao agora CONFIG_FILE true s)
    as (s0 & Hrun & Hd0 & _ & _ & Hco0).
  specialize (Hco0 Hco).
  rewrite bind_run, Hrun, HC. unfold copiar_e_marcar. rewrite bind_run.
  cbn [dict_get lift]. rewrite eq_str_decide, bool_decide_eq_false_2 by done.
  cbn [negb]. rewrite bind_run.
  destruct (copiar_falha fcopia (strftime_Ymd hoje) files_to_backup s0 f)
    as [e He]; [done|by rewrite Hd0|done|done|].
  pose proof (copiar_outros fcopia (strftime_Ymd hoje) files_to_backup s0)
    as (Hc1 & _ & Hd1).
  destruct (copiar fcopia (strftime_Ymd hoje) files_to_backup s0) as [r s1].
  cbn [fst snd] in *. subst r. exists e, s1. split; [done|].
  split; [by rewrite Hd1, Hd0|].
  (* the next call *)
  assert (visao s1 agora' CONFIG_FILE true = Dicionario c) as HC1.
  { rewrite <- HC, (coerente_visao s agora) by done.
    assert (ler_arquivo (disco s1) CONFIG_FILE true
            = ler_arquivo (disco s) CONFIG_FILE true) as Hler.
    { unfold ler_arquivo. by rewrite Hd1, Hd0. }
    unfold visao. rewrite Hc1, Hler.
    destruct (cache_load s0 !! (CONFIG_FILE, true)) as [[t v]|] eqn:Hcache; [|done].
    rewrite (Hco0 _ _ _ _ Hcache), Hd0. by destruct (agora' <? t + TTL_LOAD). }
  unfold criar_backup_diario.
  destruct (load_data_visao agora' CONFIG_FILE true s1) as (s2 & Hrun2 & Hd2 & _).
  rewrite bind_run, Hrun2, HC1, copiar_e_marcar_pendente by done.
  eexists. split; [reflexivity|]. cbn [disco]. split.
  - intros g a Hg Ha. rewrite lookup_insert_ne by (by apply Hcfg).
    apply com_snapshot_copia; [|rewrite Hd2, Hd1, Hd0; [done|]|by left].
    + intros h Hh Heq. by apply (backup_path_inj h g (strftime_Ymd hoje)).
    + intros h Hh Heq. symmetry in Heq. by apply (Hne h g) in Heq.
  - apply lookup_insert_eq.
Qed.

(** The copy of the transaction file fails on 10 April 2024: the call
    raises, and the next one makes the backup. *)
Lemma backup_falha_de_copia_abril :
  ∃ e s' s'',
    criar_backup_diario 0 abril_2024 falha_copia_lancamentos SemFalha
      estado_para_backup = (Raise e, s')
    ∧ criar_backup_diario 60 abril_2024 sem_falha_copia SemFalha s' = (Ok (), s'')
    ∧ disco s'' !! backup_path LANCAMENTOS_FILE "2024-04-10"
      = Some (Json (Lista [Lanc aluguel_abril])).
Proof.
  destruct (backup_falha_de_copia 0 60 abril_2024 falha_copia_lancamentos SemFalha
              estado_para_backup ∅ LANCAMENTOS_FILE)
    as (e & s' & Hrun & _ & s'' & Hrun2 & Hcopia & _).
  - intros p b t v Hc. cbn [estado_para_backup cache_load] in Hc.
    by rewrite lookup_empty in Hc.
  - reflexivity.
  - by rewrite lookup_empty.
  - unfold files_to_backup. apply elem_of_cons. by left.
  - by eexists.
  - discriminate.
  - exists e, s', s''. split; [done|]. split; [done|].
    apply (Hcopia LANCAMENTOS_FILE); [|reflexivity].
    unfold files_to_backup. apply elem_of_cons. by left.
Defined.

(** ** Recurring transactions: what is generated *)

Lemma novo_lancamento_inv (hoje : datetime) (id : string) (r : recorrente)
    (l : lancamento) :
  novo_lancamento hoje id (Rec r) = Ok l →
  ∃ dia, dia_criacao (Rec r) = Ok dia ∧ 1 ≤ dia
    ∧ l = {| l_id := id;
             l_data := strftime_Ym hoje +:+ "-"
                       +:+ pad2 (Z.min dia (days_in_month (year hoje) (month hoje)));
             l_tipo := r_tipo r; l_categoria := r_categoria r;
             l_valor := r_valor r;
             l_descricao := "(Recorrente) " +:+ r_categoria r |}.
Proof.
  unfold novo_lancamento. destruct (dia_criacao (Rec r)) as [dia|e]; [|done].
  cbn [mbind resultado_bind bind]. unfold replace_day.
  destruct (Z.leb_spec 1 (Z.min dia (days_in_month (year hoje) (month hoje))));
    [|done].
  destruct (_ <=? _); [|done]. cbn [andb mbind resultado_bind bind getitem_tipo
    getitem_categoria getitem_valor]. intros [= <-]. exists dia.
  split; [done|]. split; [lia|]. reflexivity.
Qed.

(** X5. When the loop over the templates ends without exception it made
    one transaction per template, in the order of the templates: the [i]-th
    has the [i]-th identifier drawn, the kind, category and amount of the
    [i]-th template, the description "(Recorrente) <category>", and a date
    of the current month, on the anchor day of the template (which is at
    least 1) or on the last day of the month if that comes first. *)
Theorem novos_lancamentos_um_por_recorrente (hoje : datetime) (uuid : nat → string)
    (k : nat) (rs : list recorrente) (novos : list lancamento) :
  novos_lancamentos hoje uuid k (Rec <$> rs) = Ok novos →
  length novos = length rs
  ∧ ∀ i r, rs !! i = Some r →
      ∃ dia, dia_criacao (Rec r) = Ok dia ∧ 1 ≤ dia
        ∧ novos !! i
          = Some {| l_id := uuid (k + i)%nat;
                    l_data := strftime_Ym hoje +:+ "-"
                              +:+ pad2 (Z.min dia (days_in_month (year hoje)
                                                                 (month hoje)));
                    l_tipo := r_tipo r; l_categoria := r_categoria r;
                    l_valor := r_valor r;
                    l_descricao := "(Recorrente) " +:+ r_categoria r |}.
Proof.
  revert k novos. induction rs as [|r rs IH]; intros k novos Hrun.
  - injection Hrun as <-. split; [done|]. intros i r Hi. by destruct i.
  - cbn [fmap list_fmap novos_lancamentos] in Hrun.
    destruct (novo_lancamento hoje (uuid k) (Rec r)) as [l|e] eqn:Hl; [|done].
    cbn [mbind resultado_bind bind] in Hrun.
    destruct (novos_lancamentos hoje uuid (S k) (Rec <$> rs)) as [ls|e] eqn:Hls;
      [|done].
    injection Hrun as <-. destruct (IH _ _ Hls) as [Hlen Hrest].
    split; [cbn [length]; by rewrite Hlen|].
    intros [|i] r' Hi.
    + injection Hi as <-. apply novo_lancamento_inv in Hl as (dia & Hd & Hpos & ->).
      exists dia. by rewrite Nat.add_0_r.
    + destruct (Hrest i r' Hi) as (dia & Hd & Hpos & Hnovo).
      exists dia. split; [done|]. split; [done|].
      replace (k + S i)%nat with (S k + i)%nat by lia. exact Hnovo.
Qed.

(** The template of day 31 in April 2024. *)
Lemma novos_lancamentos_abril :
  length [aluguel_abril] = length [recorrente_31]
  ∧ ∃ dia, dia_criacao (Rec recorrente_31) = Ok dia ∧ 1 ≤ dia
      ∧ l_data aluguel_abril
        = strftime_Ym abril_2024 +:+ "-" +:+ pad2 (Z.min dia (days_in_month 2024 4)).
Proof.
  destruct (novos_lancamentos_um_por_recorrente abril_2024 uuid_exemplo 0
              [recorrente_31] [aluguel_abril] eq_refl) as [Hlen Hitem].
  split; [exact Hlen|].
  destruct (Hitem 0%nat recorrente_31 eq_refl) as (dia & Hd & Hpos & Hnovo).
  exists dia. split; [done|]. split; [done|].
  injection Hd as <-. reflexivity.
Defined.

(** ** Recurring transactions: a template that cannot be materialised *)

Lemma novos_lancamentos_falha (hoje : datetime) (uuid : nat → string) (k i : nat)
    (rs : list registro) (x : registro) (e : excecao) :
  rs !! i = Some x → novo_lancamento hoje (uuid (k + i)%nat) x = Raise e →
  ∃ e', novos_lancamentos hoje uuid k rs = Raise e'.
Proof.
  revert k i. induction rs as [|r rs IH]; intros k i Hi Hx; [by destruct i|].
  cbn [novos_lancamentos]. destruct i as [|i].
  - injection Hi as ->. rewrite Nat.add_0_r in Hx. rewrite Hx. by exists e.
  - destruct (novo_lancamento hoje (uuid k) r) as [l|e0]; [|by exists e0].
    cbn [mbind resultado_bind bind].
    destruct (IH (S k) i Hi) as [e' ->];
      [by replace (S k + i)%nat with (k + S i)%nat by lia|].
    by exists e'.
Qed.

(** A stored day below 1 is no day of the month: [replace] raises. *)
Lemma novo_lancamento_dia_invalido (hoje : datetime) (id : string) (x : registro)
    (dia : Z) :
  dia_criacao x = Ok dia → dia < 1 → novo_lancamento hoje id x = Raise ValueError.
Proof.
  intros Hd Hlt. unfold novo_lancamento. rewrite Hd.
  cbn [mbind resultado_bind bind]. unfold replace_day.
  destruct (Z.leb_spec 1 (Z.min dia (days_in_month (year hoje) (month hoje))));
    [lia|done].
Qed.

(** X6. When the month is not marked and one template of the list cannot
    be materialised (its record has no [data_base], the third part of the
    date is missing or no integer, or the day is below 1),
    [processar_recorrentes] raises before it writes: no file changes, so
    the transactions of the other templates are not written either and the
    month stays unmarked. *)
Theorem processar_recorrentes_aborta (agora : Z) (hoje : datetime)
    (uuid : nat → string) (f1 f2 : falha) (s : estado) (rs : list registro)
    (c : gmap string campo) (i : nat) (x : registro) (e : excecao) :
  visao s agora RECORRENTES_FILE false = Lista rs →
  visao s agora CONFIG_FILE true = Dicionario c →
  ¬ marcado c hoje →
  rs !! i = Some x → novo_lancamento hoje (uuid i) x = Raise e →
  ∃ e' s', processar_recorrentes agora hoje uuid f1 f2 s = (Raise e', s')
    ∧ disco s' = disco s.
Proof.
  intros HR HC Hpend Hi Hx.
  destruct (processar_recorrentes_visao agora hoje uuid f1 f2 s)
    as (s3 & -> & Hd & _).
  rewrite HR, HC. unfold materializar. rewrite bind_run. cbn [dict_get lift].
  rewrite eq_str_marcado, bool_decide_eq_false_2 by done.
  assert (truthy (Lista rs) = true) as ->.
  { destruct rs; [by destruct i|done]. }
  cbn [negb andb gerar]. rewrite bind_run. cbn [lift].
  destruct (novos_lancamentos_falha hoje uuid 0 i rs x e Hi Hx) as [e' ->].
  by exists e', s3.
Qed.

(** The template of day 31 next to a template of day 0, in April 2024:
    nothing is written. *)
Lemma processar_recorrentes_aborta_dia_0 :
  ∃ e' s',
    processar_recorrentes 0 abril_2024 uuid_exemplo SemFalha SemFalha
      estado_com_recorrente_dia_0 = (Raise e', s')
    ∧ disco s' = disco estado_com_recorrente_dia_0.
Proof.
  apply (processar_recorrentes_aborta 0 abril_2024 uuid_exemplo SemFalha SemFalha
           estado_com_recorrente_dia_0
           [Rec recorrente_31; Rec recorrente_dia_0] ∅ 1
           (Rec recorrente_dia_0) ValueError).
  - reflexivity.
  - reflexivity.
  - unfold marcado. by rewrite lookup_empty.
  - reflexivity.
  - apply (novo_lancamento_dia_invalido _ _ _ 0); [reflexivity|lia].
Defined.

(** ** Forms: finding and removing an item *)

Section Itens.

Context {A : Type} `{EqDecision A} (id_de : A → string).

(** The item to edit is the first one with the identifier being edited;
    there is none when nothing is being edited, when the identifier is the
    empty string or when no item has it. *)
Lemma item_para_editar_Some (itens : list A) (editing_id : option string) (i : nat) :
  item_para_editar id_de itens editing_id = Some i
  ↔ ∃ id x, editing_id = Some id ∧ id ≠ ""
      ∧ itens !! i = Some x ∧ id_de x = id
      ∧ ∀ j y, itens !! j = Some y → (j < i)%nat → id_de y ≠ id.
Proof.
  unfold item_para_editar. split.
  - destruct editing_id as [id|]; [|done].
    destruct (String.eqb_spec id "") as [->|Hne]; [done|].
    destruct (list_find _ itens) as [[j x]|] eqn:Hfind; [|done].
    intros [= <-]. apply list_find_Some in Hfind as (Hj & Hid & Hmin).
    by exists id, x.
  - intros (id & x & -> & Hne & Hi & Hid & Hmin).
    destruct (String.eqb_spec id "") as [->|_]; [done|].
    assert (list_find (λ item, id_de item = id) itens = Some (i, x)) as ->;
      [|done].
    by apply list_find_Some.
Qed.

Lemma item_para_editar_None (itens : list A) (editing_id : option string) :
  item_para_editar id_de itens editing_id = None
  ↔ editing_id = None ∨ editing_id = Some ""
    ∨ ∃ id, editing_id = Some id ∧ ∀ x, x ∈ itens → id_de x ≠ id.
Proof.
  unfold item_para_editar. destruct editing_id as [id|]; [|by split; [left|]].
  destruct (String.eqb_spec id "") as [->|Hne]; [by split; [right; left|]|].
  split.
  - destruct (list_find _ itens) as [[j x]|] eqn:Hfind; [done|]. intros _.
    right. right. exists id. split; [done|].
    apply list_find_None in Hfind. by apply Forall_forall.
  - intros [Hn|[Hs|(id' & [= <-] & Hall)]]; [done|congruence|].
    assert (list_find (λ item, id_de item = id) itens = None) as ->; [|done].
    apply list_find_None. by apply Forall_forall.
Qed.

(** [remove] takes out the first occurrence of an item of the list, and
    raises for an item that is not in the list. *)
Lemma list_remove_elem_of (item : A) (itens : list A) :
  item ∈ itens →
  ∃ l1 l2, itens = l1 ++ (item :: l2) ∧ (item ∉ l1)
    ∧ list_remove item itens = Ok (l1 ++ l2).
Proof.
  induction itens as [|x itens IH]; intros Hin; [by apply elem_of_nil in Hin|].
  cbn [list_remove]. destruct (decide (x = item)) as [->|Hne].
  - exists [], itens. split; [done|]. split; [apply not_elem_of_nil|done].
  - apply elem_of_cons in Hin as [->|Hin]; [done|].
    destruct (IH Hin) as (l1 & l2 & -> & Hl1 & ->).
    exists (x :: l1), l2. split; [done|]. split; [|done].
    rewrite not_elem_of_cons. split; [congruence|done].
Qed.

Lemma list_remove_not_elem_of (item : A) (itens : list A) :
  item ∉ itens → list_remove item itens = Raise ValueError.
Proof.
  induction itens as [|x itens IH]; intros Hin; [done|].
  apply not_elem_of_cons in Hin as [Hne Hin]. cbn [list_remove].
  rewrite decide_False by congruence. by rewrite IH.
Qed.

(** With identifiers that are unique, the identifier of a removed item is
    gone. *)
Lemma nodup_sem_id (item : A) (l1 l2 : list A) :
  NoDup (id_de <$> (l1 ++ (item :: l2))) → id_de item ∉ id_de <$> (l1 ++ l2).
Proof.
  rewrite !fmap_app, fmap_cons. intros Hnd.
  apply NoDup_app in Hnd as (_ & Hdisj & Hnd2).
  apply NoDup_cons in Hnd2 as [Hni _].
  rewrite elem_of_app. intros [Hin|Hin]; [|done].
  apply (Hdisj _ Hin). apply elem_of_cons. by left.
Qed.

End Itens.

(** ** The transaction form *)

Lemma valido (texto : string) (numero : Qc) :
  texto ≠ "" → (0 < numero)%Qc →
  String.eqb texto "" || bool_decide (numero ≤ 0)%Qc = false.
Proof.
  intros Ht Hn. destruct (String.eqb_spec texto ""); [done|].
  rewrite bool_decide_eq_false_2; [done|]. by apply Qclt_not_le.
Qed.

Lemma leitura_apos_save (agora : Z) (data : dados) (file_path : string)
    (s : estado) (b : bool) :
  (load_data agora file_path b (save_data SemFalha data file_path s).2).1 = Ok data.
Proof.
  rewrite save_data_ok. cbn [snd]. unfold load_data. cbn [cache_load disco].
  rewrite lookup_empty. cbn [fst]. unfold ler_arquivo. by rewrite lookup_insert_eq.
Qed.

(** X7. A valid transaction form (a category that is not empty, a positive
    amount) submitted while no transaction of the list is being edited
    (nothing is edited, or the identifier edited is no longer in the list)
    appends one transaction to the list it loaded and writes the list: the
    new transaction has the identifier drawn, the date, kind and amount of
    the form, the category of the form without surrounding white space, and
    an empty description; a read of the transactions returns the list with
    it, and identifiers that were unique stay unique when the identifier
    drawn is new. *)
Theorem page_lancamentos_salvar_novo (agora : Z) (id : string)
    (lancamentos : list lancamento) (editing_lancamento_id : option string)
    (tipo : string) (data_lancamento : datetime) (categoria : string) (valor : Qc)
    (s : estado) :
  categoria ≠ "" → (0 < valor)%Qc →
  item_para_editar l_id lancamentos editing_lancamento_id = None →
  ∃ s', page_lancamentos_salvar SemFalha id lancamentos editing_lancamento_id
          tipo data_lancamento categoria valor s = (Ok Rerun, s')
    ∧ (load_data agora LANCAMENTOS_FILE false s').1
      = Ok (Lista (Lanc <$> (lancamentos
                             ++ [lancamento_novo id tipo data_lancamento categoria valor])))
    ∧ (NoDup (l_id <$> lancamentos) → id ∉ l_id <$> lancamentos →
       NoDup (l_id <$> (lancamentos
                        ++ [lancamento_novo id tipo data_lancamento categoria valor]))).
Proof.
  intros Hc Hv Hnone. unfold page_lancamentos_salvar.
  rewrite valido, Hnone by done. rewrite bind_run.
  eexists. split; [rewrite save_data_ok; reflexivity|]. split.
  - apply (leitura_apos_save agora _ LANCAMENTOS_FILE s false).
  - intros Hnd Hid. rewrite fmap_app. apply NoDup_app. split; [done|].
    split; [|apply NoDup_singleton].
    intros x Hx Hx'. apply list_elem_of_singleton in Hx'. by subst x.
Qed.

(** A category of three spaces passes the check and is stored empty. *)
Lemma page_lancamentos_salvar_espacos :
  ∃ s', page_lancamentos_salvar SemFalha "uuid-01" [] None "Despesa" marco_2024
          "   " (Q2Qc 10) estado_vazio = (Ok Rerun, s')
    ∧ (load_data 0 LANCAMENTOS_FILE false s').1
      = Ok (Lista [Lanc {| l_id := "uuid-01"; l_data := "2024-03-05";
                           l_tipo := "Despesa"; l_categoria := "";
                           l_valor := Q2Qc 10; l_descricao := "" |}]).
Proof.
  destruct (page_lancamentos_salvar_novo 0 "uuid-01" [] None "Despesa" marco_2024
              "   " (Q2Qc 10) estado_vazio) as (s' & Hrun & Hler & _);
    [discriminate | reflexivity | reflexivity |].
  exists s'. split; [exact Hrun | exact Hler].
Defined.

(** X8. A valid transaction form submitted while a transaction of the list
    is being edited writes the list with that transaction updated in its
    place: the first transaction with the identifier edited takes the date,
    kind, category (without surrounding white space) and amount of the form
    and keeps its identifier and its description; the other transactions,
    the order and the identifiers are as they were. No identifier is
    drawn. *)
Theorem page_lancamentos_salvar_edicao (agora : Z) (id : string)
    (lancamentos : list lancamento) (editing_lancamento_id : option string)
    (tipo : string) (data_lancamento : datetime) (categoria : string) (valor : Qc)
    (s : estado) (i : nat) :
  categoria ≠ "" → (0 < valor)%Qc →
  item_para_editar l_id lancamentos editing_lancamento_id = Some i →
  ∃ item lancamentos' s',
    lancamentos !! i = Some item ∧ editing_lancamento_id = Some (l_id item)
    ∧ page_lancamentos_salvar SemFalha id lancamentos editing_lancamento_id
        tipo data_lancamento categoria valor s = (Ok Rerun, s')
    ∧ (load_data agora LANCAMENTOS_FILE false s').1 = Ok (Lista (Lanc <$> lancamentos'))
    ∧ lancamentos' !! i
      = Some (lancamento_editado item tipo data_lancamento categoria valor)
    ∧ (∀ j, j ≠ i → lancamentos' !! j = lancamentos !! j)
    ∧ l_id <$> lancamentos' = l_id <$> lancamentos.
Proof.
  intros Hc Hv Hsome. unfold page_lancamentos_salvar.
  rewrite valido, Hsome by done. rewrite bind_run.
  apply item_para_editar_Some in Hsome as (id' & item & -> & Hne & Hi & <- & Hmin).
  eexists item, _, _. split; [done|]. split; [done|].
  split; [rewrite save_data_ok; reflexivity|]. split.
  { apply (leitura_apos_save agora _ LANCAMENTOS_FILE s false). }
  split; [|split].
  - rewrite list_lookup_alter_eq, Hi. reflexivity.
  - intros j Hj. by rewrite list_lookup_alter_ne.
  - apply list_eq. intros j. rewrite !list_lookup_fmap.
    destruct (decide (i = j)) as [<-|Hj].
    + rewrite list_lookup_alter_eq, Hi. reflexivity.
    + by rewrite list_lookup_alter_ne.
Qed.

(** The transaction [aluguel_abril] edited into an expense of 1600. *)
Lemma page_lancamentos_salvar_edicao_aluguel :
  ∃ s', page_lancamentos_salvar SemFalha "uuid-09" [aluguel_abril] (Some "uuid-00")
          "Despesa" marco_2024 "Aluguel " (Q2Qc 1600) estado_vazio = (Ok Rerun, s')
    ∧ (load_data 0 LANCAMENTOS_FILE false s').1
      = Ok (Lista [Lanc {| l_id := "uuid-00"; l_data := "2024-03-05";
                           l_tipo := "Despesa"; l_categoria := "Aluguel";
                           l_valor := Q2Qc 1600;
                           l_descricao := "(Recorrente) Aluguel" |}]).
Proof.
  destruct (page_lancamentos_salvar_edicao 0 "uuid-09" [aluguel_abril]
              (Some "uuid-00") "Despesa" marco_2024 "Aluguel " (Q2Qc 1600)
              estado_vazio 0)
    as (item & ls' & s' & Hi & _ & Hrun & Hler & _);
    [discriminate | reflexivity | reflexivity |].
  exists s'. split; [exact Hrun|].
  replace s' with (page_lancamentos_salvar SemFalha "uuid-09" [aluguel_abril]
    (Some "uuid-00") "Despesa" marco_2024 "Aluguel " (Q2Qc 1600) estado_vazio).2
    by (by rewrite Hrun).
  reflexivity.
Defined.

(** X9. The delete button of a transaction of the list writes the list
    without the first occurrence of that transaction, the others in their
    order; with unique identifiers no transaction of the list written has
    the identifier of the deleted one. For a transaction that is not in the
    list, [remove] raises and nothing is written. *)
Theorem page_lancamentos_excluir_item (agora : Z) (lancamentos : list lancamento)
    (item : lancamento) (s : estado) :
  (item ∈ lancamentos →
   ∃ l1 l2 s', lancamentos = l1 ++ (item :: l2) ∧ (item ∉ l1)
     ∧ page_lancamentos_excluir SemFalha lancamentos item s = (Ok Rerun, s')
     ∧ (load_data agora LANCAMENTOS_FILE false s').1 = Ok (Lista (Lanc <$> (l1 ++ l2)))
     ∧ (NoDup (l_id <$> lancamentos) → l_id item ∉ l_id <$> (l1 ++ l2)))
  ∧ (item ∉ lancamentos →
     ∀ f, page_lancamentos_excluir f lancamentos item s = (Raise ValueError, s)).
Proof.
  unfold page_lancamentos_excluir. split.
  - intros Hin. destruct (list_remove_elem_of item lancamentos Hin)
      as (l1 & l2 & -> & Hl1 & Hrem).
    exists l1, l2. eexists. split; [done|]. split; [done|].
    rewrite bind_run. cbn [lift]. rewrite Hrem, bind_run.
    split; [rewrite save_data_ok; reflexivity|]. split.
    + apply (leitura_apos_save agora _ LANCAMENTOS_FILE s false).
    + apply nodup_sem_id.
  - intros Hin f. rewrite bind_run. cbn [lift].
    by rewrite list_remove_not_elem_of.
Qed.

(** Deleting [aluguel_abril] from the list that holds it alone. *)
Lemma page_lancamentos_excluir_aluguel :
  ∃ s', page_lancamentos_excluir SemFalha [aluguel_abril] aluguel_abril estado_vazio
        = (Ok Rerun, s')
    ∧ (load_data 0 LANCAMENTOS_FILE false s').1 = Ok (Lista []).
Proof.
  destruct (proj1 (page_lancamentos_excluir_item 0 [aluguel_abril] aluguel_abril
                     estado_vazio)) as (l1 & l2 & s' & Heq & Hl1 & Hrun & Hler & _).
  { apply elem_of_cons. by left. }
  exists s'. split; [exact Hrun|].
  replace s' with (page_lancamentos_excluir SemFalha [aluguel_abril] aluguel_abril
    estado_vazio).2 by (by rewrite Hrun).
  reflexivity.
Defined.

(** ** Forms: what they leave alone *)

Lemma save_data_outros (f : falha) (data : dados) (file_path p : string) (s : estado) :
  p ≠ file_path → disco (save_data f data file_path s).2 !! p = disco s !! p.
Proof.
  intros Hp. destruct f; cbn [save_data snd disco]; try done;
    by rewrite lookup_insert_ne.
Qed.

Lemma gravar_lista_outros {A} (f : falha) (r : resultado A) (g : A → dados)
    (file_path p : string) (s : estado) :
  p ≠ file_path →
  disco ((x ← lift r; save_data f (g x) file_path;; mret Rerun) s).2 !! p
  = disco s !! p.
Proof.
  intros Hp. rewrite bind_run. destruct r as [x|e]; cbn [lift snd]; [|done].
  rewrite bind_run. pose proof (save_data_outros f (g x) file_path p s Hp) as Hd.
  by destruct (save_data f (g x) file_path s) as [[[]|e] s1].
Qed.

Lemma gravar_outros (f : falha) (data : dados) (file_path p : string) (s : estado) :
  p ≠ file_path →
  disco ((save_data f data file_path;; mret Rerun) s).2 !! p = disco s !! p.
Proof.
  intros Hp. rewrite bind_run.
  pose proof (save_data_outros f data file_path p s Hp) as Hd.
  by destruct (save_data f data file_path s) as [[[]|e] s1].
Qed.

(** X10. Whatever the values of the widgets, whatever the list loaded and
    however the write ends, each form and each delete button changes no
    file other than the file of its own collection; a form with an empty
    text or a number that is not positive changes no file at all and shows
    its error. *)
Theorem formularios_so_gravam_o_seu (f : falha) (id : string) (s : estado)
    (p : string) :
  (∀ ls ed tipo data categoria valor,
     (p ≠ LANCAMENTOS_FILE →
      disco (page_lancamentos_salvar f id ls ed tipo data categoria valor s).2 !! p
      = disco s !! p)
     ∧ (categoria = "" ∨ (valor ≤ 0)%Qc →
        page_lancamentos_salvar f id ls ed tipo data categoria valor s
        = (Ok Retorna, s)))
  ∧ (∀ ls item, p ≠ LANCAMENTOS_FILE →
       disco (page_lancamentos_excluir f ls item s).2 !! p = disco s !! p)
  ∧ (∀ hoje rs ed tipo categoria valor,
       (p ≠ RECORRENTES_FILE →
        disco (page_lancamentos_salvar_recorrente f id hoje rs ed tipo categoria
                 valor s).2 !! p = disco s !! p)
       ∧ (categoria = "" ∨ (valor ≤ 0)%Qc →
          page_lancamentos_salvar_recorrente f id hoje rs ed tipo categoria valor s
          = (Ok Retorna, s)))
  ∧ (∀ rs item, p ≠ RECORRENTES_FILE →
       disco (page_lancamentos_excluir_recorrente f rs item s).2 !! p = disco s !! p)
  ∧ (∀ hs ed ticker classe quantidade preco_medio,
       (p ≠ INVESTIMENTOS_FILE →
        disco (page_investimentos_salvar f id hs ed ticker classe quantidade
                 preco_medio s).2 !! p = disco s !! p)
       ∧ (ticker = "" ∨ (quantidade ≤ 0)%Qc ∨ (preco_medio ≤ 0)%Qc →
          page_investimentos_salvar f id hs ed ticker classe quantidade preco_medio s
          = (Ok Retorna, s)))
  ∧ (∀ hs item, p ≠ INVESTIMENTOS_FILE →
       disco (page_investimentos_excluir f hs item s).2 !! p = disco s !! p)
  ∧ (∀ ms ed nome valor_alvo,
       (p ≠ METAS_FILE →
        disco (page_metas_salvar f id ms ed nome valor_alvo s).2 !! p = disco s !! p)
       ∧ (nome = "" ∨ (valor_alvo ≤ 0)%Qc →
          page_metas_salvar f id ms ed nome valor_alvo s = (Ok Retorna, s)))
  ∧ (∀ ms item, p ≠ METAS_FILE →
       disco (page_metas_excluir f ms item s).2 !! p = disco s !! p)
  ∧ (∀ entrada config, p ≠ CONFIG_FILE →
       disco (page_configuracoes_salvar f entrada config s).2 !! p = disco s !! p).
Proof.
  assert (∀ texto (numero : Qc), texto = "" ∨ (numero ≤ 0)%Qc →
            String.eqb texto "" || bool_decide (numero ≤ 0)%Qc = true) as Hinv.
  { intros texto numero [->|Hn]; [done|].
    rewrite (bool_decide_eq_true_2 _ Hn). apply orb_true_r. }
  split.
  { intros ls ed tipo data categoria valor. unfold page_lancamentos_salvar. split.
    - intros Hp. destruct (_ || _); [done|].
      by apply gravar_outros.
    - intros Hi. by rewrite Hinv. }
  split.
  { intros ls item Hp. by apply (gravar_lista_outros f _ (λ l, Lista (_ <$> l))). }
  split.
  { intros hoje rs ed tipo categoria valor.
    unfold page_lancamentos_salvar_recorrente. split.
    - intros Hp. destruct (_ || _); [done|].
      by apply gravar_outros.
    - intros Hi. by rewrite Hinv. }
  split.
  { intros rs item Hp. by apply (gravar_lista_outros f _ (λ l, Lista (_ <$> l))). }
  split.
  { intros hs ed ticker classe quantidade preco_medio.
    unfold page_investimentos_salvar. split.
    - intros Hp. destruct (_ || _); [done|].
      by apply gravar_outros.
    - intros [->|[Hq|Hm]]; [done| |].
      + rewrite (bool_decide_eq_true_2 _ Hq). by rewrite orb_true_r.
      + rewrite (bool_decide_eq_true_2 _ Hm). by rewrite orb_true_r. }
  split.
  { intros hs item Hp. by apply (gravar_lista_outros f _ (λ l, Lista (_ <$> l))). }
  split.
  { intros ms ed nome valor_alvo. unfold page_metas_salvar. split.
    - intros Hp. destruct (_ || _); [done|].
      by apply gravar_outros.
    - intros Hi. by rewrite Hinv. }
  split.
  { intros ms item Hp. by apply (gravar_lista_outros f _ (λ l, Lista (_ <$> l))). }
  intros entrada config Hp. unfold page_configuracoes_salvar. rewrite bind_run.
  destruct (metas_alocacao_de config) as [a|e]; cbn [lift snd]; [|done].
  rewrite bind_run. destruct config as [l|c]; cbn [dict_setitem lift snd]; [done|].
  rewrite bind_run.
  pose proof (save_data_outros f
    (Dicionario (<["metas_alocacao" := Alocacao (preencher_alocacao entrada a)]> c))
    CONFIG_FILE p s Hp) as Hd.
  by destruct (save_data f _ CONFIG_FILE s) as [[[]|e] s1].
Qed.

(** ** The template form *)

(** X11. A valid template form submitted on a day [hoje] while no template
    of the list is being edited appends a template whose stored date is
    that day: its anchor day, as the materialisation reads it, is the day
    of the month of [hoje], and the transaction made of it in any month is
    dated on that day or on the last day of the month if that comes first.
    Submitted while a template is being edited, the form keeps the
    identifier and the stored date of that template, hence its anchor
    day. *)
Theorem page_lancamentos_salvar_recorrente_ancora (agora : Z) (id : string)
    (hoje : datetime) (recorrentes : list recorrente)
    (editing_recorrente_id : option string) (tipo categoria : string) (valor : Qc)
    (s : estado) :
  categoria ≠ "" → (0 < valor)%Qc →
  (valid hoje →
   item_para_editar r_id recorrentes editing_recorrente_id = None →
   ∃ s', page_lancamentos_salvar_recorrente SemFalha id hoje recorrentes
           editing_recorrente_id tipo categoria valor s = (Ok Rerun, s')
     ∧ (load_data agora RECORRENTES_FILE false s').1
       = Ok (Lista (Rec <$> (recorrentes
                             ++ [recorrente_novo id hoje tipo categoria valor])))
     ∧ dia_criacao (Rec (recorrente_novo id hoje tipo categoria valor)) = Ok (day hoje)
     ∧ ∀ hoje' id',
         l_data <$> novo_lancamento hoje' id'
                      (Rec (recorrente_novo id hoje tipo categoria valor))
         = Ok (strftime_Ymd
                 {| year := year hoje'; month := month hoje';
                    day := Z.min (day hoje)
                             (days_in_month (year hoje') (month hoje')) |}))
  ∧ (∀ i, item_para_editar r_id recorrentes editing_recorrente_id = Some i →
     ∃ item item' recorrentes' s',
       recorrentes !! i = Some item
       ∧ page_lancamentos_salvar_recorrente SemFalha id hoje recorrentes
           editing_recorrente_id tipo categoria valor s = (Ok Rerun, s')
       ∧ (load_data agora RECORRENTES_FILE false s').1
         = Ok (Lista (Rec <$> recorrentes'))
       ∧ recorrentes' !! i = Some item'
       ∧ r_id item' = r_id item ∧ r_data_base item' = r_data_base item
       ∧ r_tipo item' = tipo ∧ r_categoria item' = strip categoria
       ∧ r_valor item' = valor
       ∧ (∀ j, j ≠ i → recorrentes' !! j = recorrentes !! j)).
Proof.
  intros Hc Hv. unfold page_lancamentos_salvar_recorrente.
  rewrite valido by done. split.
  - intros Hvalid Hnone. rewrite Hnone, bind_run.
    eexists. split; [rewrite save_data_ok; reflexivity|]. split.
    { apply (leitura_apos_save agora _ RECORRENTES_FILE s false). }
    assert (dia_criacao (Rec (recorrente_novo id hoje tipo categoria valor))
            = Ok (day hoje)) as Hdia by by apply dia_criacao_strftime.
    split; [done|]. intros hoje' id'.
    rewrite (novo_lancamento_ok hoje' id' _ (day hoje) Hdia); [done|].
    destruct Hvalid as (_ & _ & Hd). lia.
  - intros i Hsome. rewrite Hsome, bind_run.
    apply item_para_editar_Some in Hsome as (id' & item & -> & Hne & Hi & <- & Hmin).
    eexists item, _, _, _. split; [done|].
    split; [rewrite save_data_ok; reflexivity|]. split.
    { apply (leitura_apos_save agora _ RECORRENTES_FILE s false). }
    split; [rewrite list_lookup_alter_eq, Hi; reflexivity|].
    do 5 (split; [reflexivity|]).
    intros j Hj. by rewrite list_lookup_alter_ne.
Qed.

(** A template created on 31 January 2024 is materialised on 29 February
    2024. *)
Lemma recorrente_de_31_de_janeiro :
  l_data <$> novo_lancamento fevereiro_2024 "uuid-00"
               (Rec (recorrente_novo "r1" janeiro_31 "Despesa" "Aluguel" (Q2Qc 1500)))
  = Ok "2024-02-29".
Proof.
  destruct (page_lancamentos_salvar_recorrente_ancora 0 "r1" janeiro_31 [] None
              "Despesa" "Aluguel" (Q2Qc 1500) estado_vazio) as [Hnovo _];
    [discriminate | reflexivity |].
  destruct Hnovo as (s' & _ & _ & _ & Hdata).
  - unfold valid, janeiro_31. cbn. lia.
  - reflexivity.
  - rewrite (Hdata fevereiro_2024 "uuid-00"). reflexivity.
Defined.

(** ** Tickers: the form and the lookup agree *)

Lemma upper_char_idem (c : ascii) : upper_char (upper_char c) = upper_char c.
Proof. destruct c as [[] [] [] [] [] [] [] []]; reflexivity. Qed.

Lemma is_space_upper_char (c : ascii) : is_space (upper_char c) = is_space c.
Proof. destruct c as [[] [] [] [] [] [] [] []]; reflexivity. Qed.

Lemma upper_idem (s : string) : upper (upper s) = upper s.
Proof.
  unfold upper. induction s as [|c s IH]; [done|].
  cbn [smap]. by rewrite upper_char_idem, IH.
Qed.

Lemma lstrip_upper (s : string) : lstrip (upper s) = upper (lstrip s).
Proof.
  unfold upper. induction s as [|c s IH]; [done|].
  cbn [smap lstrip]. rewrite is_space_upper_char. by destruct (is_space c).
Qed.

Lemma rstrip_upper (s : string) : rstrip (upper s) = upper (rstrip s).
Proof.
  unfold upper. induction s as [|c s IH]; [done|].
  cbn [smap rstrip]. rewrite IH, is_space_upper_char.
  destruct (rstrip s); cbn [smap]; [by destruct (is_space c)|done].
Qed.

Lemma strip_upper (s : string) : strip (upper s) = upper (strip s).
Proof. unfold strip. by rewrite lstrip_upper, rstrip_upper. Qed.

Lemma rstrip_idem (s : string) : rstrip (rstrip s) = rstrip s.
Proof.
  induction s as [|c s IH]; [done|]. cbn [rstrip].
  destruct (rstrip s) as [|c' s'] eqn:Hr.
  - destruct (is_space c) eqn:Hc; [done|]. cbn [rstrip]. by rewrite Hc.
  - cbn [rstrip]. cbn [rstrip] in IH. by rewrite IH.
Qed.

(** What [rstrip] leaves starts as the string did. *)
Lemma rstrip_head (c : ascii) (s : string) :
  rstrip (String c s) = "" ∨ ∃ s', rstrip (String c s) = String c s'.
Proof.
  cbn [rstrip]. destruct (rstrip s).
  - destruct (is_space c); [by left|right; by eexists].
  - right. by eexists.
Qed.

Lemma lstrip_head (s : string) :
  lstrip s = "" ∨ ∃ c s', lstrip s = String c s' ∧ is_space c = false.
Proof.
  induction s as [|c s IH]; [by left|]. cbn [lstrip].
  destruct (is_space c) eqn:Hc; [done|]. right. by exists c, s.
Qed.

Lemma strip_idem (s : string) : strip (strip s) = strip s.
Proof.
  unfold strip. destruct (lstrip_head s) as [->|(c & s' & -> & Hc)]; [done|].
  destruct (rstrip_head c s') as [->|[s'' Hr]]; [done|].
  rewrite Hr. cbn [lstrip]. rewrite Hc, <- Hr. apply rstrip_idem.
Qed.

(** The ticker the form stores is left alone by a second normalisation. *)
Lemma strip_upper_idem (ticker : string) :
  strip (upper (strip (upper ticker))) = strip (upper ticker).
Proof. by rewrite <- strip_upper, strip_idem, upper_idem. Qed.

Lemma prefix_nil (s : string) : String.prefix "" s = true.
Proof. by destruct s. Qed.

Lemma prefix_SA_app (t u : string) :
  (3 ≤ String.length t)%nat →
  String.prefix ".SA" (t +:+ u) = String.prefix ".SA" t.
Proof.
  destruct t as [|c1 [|c2 [|c3 t]]]; cbn [String.length]; try lia. intros _.
  rewrite !append_cons. cbn [String.prefix].
  destruct (ascii_dec "." c1), (ascii_dec "S" c2), (ascii_dec "A" c3);
    try done. by rewrite !prefix_nil.
Qed.

Lemma prefix_SA_curto (t : string) :
  t ≠ "" → (String.length t < 3)%nat → String.prefix ".SA" (t +:+ ".SA") = false.
Proof.
  destruct t as [|c1 [|c2 [|c3 t]]]; cbn [String.length]; try lia; [done| |];
    intros _ _; rewrite !append_cons; cbn [String.prefix].
  - destruct (ascii_dec "." c1) as [<-|]; done.
  - destruct (ascii_dec "." c1) as [<-|]; [|done].
    destruct (ascii_dec "S" c2) as [<-|]; done.
Qed.

(** Stripping the qualifier from a qualified ticker gives the ticker back
    when the ticker does not hold the qualifier itself. *)
Lemma replace_SA (t : string) :
  contem ".SA" t = false → replace ".SA" "" (t +:+ ".SA") = t.
Proof.
  unfold replace. induction t as [|c t IH]; intros Hc; [done|].
  cbn [contem] in Hc. apply orb_false_elim in Hc as [Hpre Hrest].
  assert (String.prefix ".SA" (String c t +:+ ".SA") = false) as Hpre'.
  { destruct (le_lt_dec 3 (String.length (String c t))).
    - by rewrite prefix_SA_app.
    - by apply prefix_SA_curto. }
  rewrite append_cons in *. cbn [replace_aux]. rewrite Hpre'. by rewrite IH.
Qed.

Lemma chave_normalizado (tickers : list string) (ticker : string) :
  normalizado ticker → chave tickers ticker = ticker.
Proof.
  intros [Hn Hsa]. unfold chave, qualificar.
  rewrite <- strip_upper, Hn, replace_SA by done. by destruct tickers as [|? []].
Qed.

Lemma ultimo_preco_iloc (l : list celula) (p : Qc) :
  ultimo_preco l = Some p → iloc_ultimo l = Ok (Preco p).
Proof.
  unfold ultimo_preco, iloc_ultimo. destruct (last l) as [[|q]|]; [done| |done].
  by intros [= ->].
Qed.

(** Each symbol with a valid quote is in the dict the loop returns. *)
Lemma cotar_varios_completo (data : DataFrame) (ts : list string)
    (acc prices : gmap string Qc) :
  cotar_varios data (qualificar <$> ts) acc = Ok prices →
  (∀ t, t ∈ ts → normalizado t) →
  ∀ t p, normalizado t → preco_no_quadro data (qualificar t) = Some p →
    t ∈ ts ∨ acc !! t = Some p → prices !! t = Some p.
Proof.
  revert acc. induction ts as [|t0 ts IH]; intros acc Hrun Hnorm t p Ht Hp Hin.
  - injection Hrun as <-. destruct Hin as [Hin|Hin]; [by apply elem_of_nil in Hin|done].
  - cbn [fmap list_fmap cotar_varios] in Hrun.
    assert (∀ t', t' ∈ ts → normalizado t') as Hnorm'.
    { intros t' Ht'. apply Hnorm, elem_of_cons. by right. }
    assert (replace ".SA" "" (qualificar t0) = t0) as Hkey.
    { apply (chave_normalizado [t0; t0] t0), Hnorm, elem_of_cons. by left. }
    rewrite Hkey in Hrun. unfold preco_no_quadro in Hp.
    destruct (df_close data) as [[l|cols]|] eqn:Hclose; [done| |done].
    assert (preco_no_quadro data (qualificar t) = Some p) as Hp'.
    { unfold preco_no_quadro. by rewrite Hclose. }
    destruct (decide (t = t0)) as [->|Hne].
    + destruct (cols !! qualificar t0) as [l|]; [|done]. cbn in Hp.
      rewrite (ultimo_preco_iloc l p Hp) in Hrun.
      cbn [mbind resultado_bind bind] in Hrun.
      apply (IH _ Hrun Hnorm' t0 p Ht Hp'). right. apply lookup_insert_eq.
    + assert (t ∈ ts ∨ acc !! t = Some p) as Hin'.
      { destruct Hin as [Hin|Hin]; [|by right].
        apply elem_of_cons in Hin as [Heq|Hin]; [done|by left]. }
      destruct (cols !! qualificar t0) as [l|]; [|by apply (IH _ Hrun Hnorm' t p)].
      destruct (iloc_ultimo l) as [[|q]|e]; cbn [mbind resultado_bind bind] in Hrun;
        [by apply (IH _ Hrun Hnorm' t p)| |done].
      apply (IH _ Hrun Hnorm' t p Ht Hp').
      destruct Hin' as [Hin'|Hin']; [by left|right].
      by rewrite lookup_insert_ne.
Qed.

(** X12. The holding form stores the ticker upper-cased and stripped, and
    doing so again changes nothing. When every requested ticker is in that
    form and does not hold ".SA", and the lookup goes through without an
    exception on a frame that is not empty, every requested ticker whose
    last close is present and not NaN is a key of the mapping, with that
    close: a holding with this ticker is valued at quantity × that close. *)
Theorem buscar_cotacoes_completo
    (yf_download : list string → resultado DataFrame) (tickers : list string)
    (data : DataFrame) (prices : gmap string Qc) (ticker : string) (p : Qc) :
  (∀ t, t ∈ tickers → normalizado t) →
  yf_download (qualificar <$> tickers) = Ok data → df_empty data = false →
  cotar yf_download tickers = Ok prices →
  ticker ∈ tickers → preco_de data tickers ticker = Some p →
  buscar_cotacoes_corpo yf_download tickers = Ok prices
  ∧ prices !! ticker = Some p
  ∧ (∀ h, i_ticker h = ticker → valor_mercado prices h = (i_quantidade h * p)%Qc)
  ∧ (∀ id t classe quantidade preco_medio,
       strip (upper (i_ticker (investimento_novo id t classe quantidade preco_medio)))
       = i_ticker (investimento_novo id t classe quantidade preco_medio)).
Proof.
  intros Hnorm Hyf Hne Hrun Hin Hp.
  assert (prices !! ticker = Some p) as Hprice.
  { unfold cotar in Hrun. rewrite Hyf in Hrun.
    cbn [mbind resultado_bind bind] in Hrun. rewrite Hne in Hrun.
    destruct tickers as [|t0 [|t1 ts]].
    - by apply elem_of_nil in Hin.
    - apply list_elem_of_singleton in Hin as ->. cbn [preco_de] in Hp.
      unfold cotar_unico in Hrun. rewrite Hne in Hrun. cbn [negb] in Hrun.
      unfold preco_na_serie in Hp.
      destruct (df_close data) as [[l|cols]|]; [|done..].
      rewrite (ultimo_preco_iloc l p Hp) in Hrun.
      cbn [mbind resultado_bind bind] in Hrun. injection Hrun as <-.
      apply lookup_singleton_eq.
    - apply (cotar_varios_completo data (t0 :: t1 :: ts) ∅ prices Hrun Hnorm);
        [by apply Hnorm|done|by left]. }
  split; [|split; [done|split]].
  - unfold buscar_cotacoes_corpo. rewrite Hrun. destruct tickers; [|done].
    by apply elem_of_nil in Hin.
  - intros h Hh. unfold valor_mercado. by rewrite Hh, Hprice.
  - intros id t classe quantidade preco_medio. apply strip_upper_idem.
Qed.

(** The two equities of [carteira_petr4]: the quote of VALE3 is found under
    its ticker. *)
Lemma buscar_cotacoes_completo_vale3 :
  buscar_cotacoes_corpo yf_petr4 ["PETR4"; "VALE3"] = Ok cotacoes_petr4
  ∧ cotacoes_petr4 !! "VALE3" = Some (Q2Qc 50).
Proof.
  destruct (buscar_cotacoes_completo yf_petr4 ["PETR4"; "VALE3"]
              {| df_empty := false;
                 df_close := Some (CloseQuadro {[ "PETR4.SA" := [Preco (Q2Qc 30)];
                                                  "VALE3.SA" := [Preco (Q2Qc 50)] ]}) |}
              cotacoes_petr4 "VALE3" (Q2Qc 50)) as (Hcorpo & Hp & _).
  - intros t Ht. apply elem_of_cons in Ht as [->|Ht]; [by split|].
    apply list_elem_of_singleton in Ht as ->. by split.
  - reflexivity.
  - reflexivity.
  - vm_compute. reflexivity.
  - apply elem_of_cons. right. apply elem_of_cons. by left.
  - vm_compute. reflexivity.
  - by split.
Defined.

(** ** Forms and goals *)

Lemma soma_app (l1 l2 : list Qc) : soma (l1 ++ l2) = (soma l1 + soma l2)%Qc.
Proof.
  unfold soma. induction l1 as [|x l1 IH]; cbn [app foldr]; [ring|].
  rewrite IH. ring.
Qed.

Lemma progresso_meta_soma (m : meta) (ls : list lancamento) :
  progresso_meta (Lanc <$> ls) (Meta m)
  = Ok (soma (l_valor <$> filter (conta_para m) ls),
        if bool_decide (0 < m_valor_alvo m)%Qc
        then (soma (l_valor <$> filter (conta_para m) ls) / m_valor_alvo m)%Qc
        else 0%Qc).
Proof.
  unfold progresso_meta. rewrite aportes_meta_acc.
  cbn [mbind resultado_bind bind getitem_valor_alvo].
  by replace (0 + soma (l_valor <$> filter (conta_para m) ls))%Qc
    with (soma (l_valor <$> filter (conta_para m) ls)) by ring.
Qed.



Lemma contem_vazio (s : string) : contem "" s = true.
Proof. destruct s; cbn [contem]; by rewrite prefix_nil. Qed.

(** X14. A goal name made of white space only passes the check of the goal
    form and is stored as the empty name. A goal with the empty name counts
    every expense, whatever its category: its progress is the sum of the
    amounts of all transactions of kind 'Despesa'. *)
Theorem page_metas_salvar_nome_em_branco (agora : Z) (id : string) (metas : list meta)
    (editing_meta_id : option string) (nome : string) (valor_alvo : Qc) (s : estado) :
  nome ≠ "" → strip nome = "" → (0 < valor_alvo)%Qc →
  item_para_editar m_id metas editing_meta_id = None →
  ∃ s' m,
    page_metas_salvar SemFalha id metas editing_meta_id nome valor_alvo s
    = (Ok Rerun, s')
    ∧ (load_data agora METAS_FILE false s').1 = Ok (Lista (Meta <$> metas ++ [m]))
    ∧ m_nome m = ""
    ∧ ∀ ls, fst <$> progresso_meta (Lanc <$> ls) (Meta m)
            = Ok (soma (l_valor <$> filter (λ l, l_tipo l = "Despesa") ls)).
Proof.
  intros Hn Hs Hv Hnone. unfold page_metas_salvar.
  rewrite valido, Hnone by done. rewrite bind_run, Hs.
  eexists _, _. split; [rewrite save_data_ok; reflexivity|].
  split; [apply (leitura_apos_save agora _ METAS_FILE s false)|].
  split; [reflexivity|]. intros ls. rewrite progresso_meta_soma.
  cbn [fmap resultado_fmap fst]. do 3 f_equal.
  apply list_filter_iff. intros l. unfold conta_para. cbn [m_nome].
  change (lower "") with "". rewrite contem_vazio. tauto.
Qed.

(** A goal named with two spaces and the transactions of the goal "Travel":
    the two expenses count, 300 in all. *)
Lemma page_metas_salvar_dois_espacos :
  ∃ s' m,
    page_metas_salvar SemFalha "uuid-01" [] None "  " (Q2Qc 1000) estado_vazio
    = (Ok Rerun, s')
    ∧ (load_data 0 METAS_FILE false s').1 = Ok (Lista [Meta m])
    ∧ fst <$> progresso_meta (Lanc <$> lancamentos_travel) (Meta m) = Ok (Q2Qc 300).
Proof.
  destruct (page_metas_salvar_nome_em_branco 0 "uuid-01" [] None "  " (Q2Qc 1000)
              estado_vazio) as (s' & m & Hrun & Hler & _ & Hprog);
    [discriminate | reflexivity | reflexivity | reflexivity |].
  exists s', m. split; [exact Hrun|]. split; [exact Hler|].
  rewrite Hprog. reflexivity.
Defined.

(** ** The allocation form *)

Lemma preencher_alocacao_classe (entrada : string → Qc → Qc) (a : gmap string Qc)
    (classe : string) :
  classe ∈ classes →
  preencher_alocacao entrada a !! classe
  = Some (entrada classe (default 0%Qc (a !! classe))).
Proof.
  intros Hin. unfold preencher_alocacao, classes in *. cbn [foldl].
  repeat (apply elem_of_cons in Hin as [->|Hin];
          [repeat (rewrite lookup_insert_ne by done); rewrite lookup_insert_eq;
           by repeat (rewrite lookup_insert_ne by done)|]).
  by apply elem_of_nil in Hin.
Qed.

Lemma preencher_alocacao_outra (entrada : string → Qc → Qc) (a : gmap string Qc)
    (k : string) :
  k ∉ classes → preencher_alocacao entrada a !! k = a !! k.
Proof.
  intros Hin. unfold preencher_alocacao, classes in *. cbn [foldl].
  repeat (rewrite lookup_insert_ne;
          [|intros <-; apply Hin; repeat (apply elem_of_cons; first [by left|right])]).
  done.
Qed.

(** X15. The allocation form, submitted on a configuration that is a dict
    whose 'metas_alocacao' is absent or a dict, writes the configuration
    with the target of each of the six classes set to the value of its
    input, the input having started from the stored target or from 0. The
    targets stored under other names stay, and so does every other key of
    the configuration, the backup and month markers among them. Nothing
    requires the targets to add up to 100. *)
Theorem page_configuracoes_salvar_ok (agora : Z) (entrada : string → Qc → Qc)
    (c : gmap string campo) (a : gmap string Qc) (s : estado) :
  c !! "metas_alocacao" = None ∧ a = ∅ ∨ c !! "metas_alocacao" = Some (Alocacao a) →
  ∃ s' c' a',
    page_configuracoes_salvar SemFalha entrada (Dicionario c) s = (Ok Rerun, s')
    ∧ (load_data agora CONFIG_FILE true s').1 = Ok (Dicionario c')
    ∧ c' !! "metas_alocacao" = Some (Alocacao a')
    ∧ (∀ k, k ≠ "metas_alocacao" → c' !! k = c !! k)
    ∧ (∀ classe, classe ∈ classes →
         a' !! classe = Some (entrada classe (default 0%Qc (a !! classe))))
    ∧ (∀ k, k ∉ classes → a' !! k = a !! k).
Proof.
  intros Hc. unfold page_configuracoes_salvar.
  assert (metas_alocacao_de (Dicionario c) = Ok a) as Hm.
  { unfold metas_alocacao_de, dict_get. cbn [mbind resultado_bind bind].
    by destruct Hc as [[-> ->]| ->]. }
  rewrite bind_run. unfold lift at 1. cbn [fst snd]. rewrite Hm.
  cbn [dict_setitem]. rewrite bind_run. unfold lift at 1. cbn [fst snd].
  rewrite bind_run, save_data_ok. cbn [fst snd].
  eexists _, _, _. split; [reflexivity|].
  split; [apply (leitura_apos_save agora _ CONFIG_FILE s true)|].
  split; [apply lookup_insert_eq|]. split; [|split].
  - intros k Hk. by rewrite lookup_insert_ne.
  - intros classe. apply preencher_alocacao_classe.
  - intros k. apply preencher_alocacao_outra.
Qed.

(** The targets after the form add up to 70: the warning is shown and the
    configuration is written all the same, with the backup marker and the
    target of 'Ouro' still there. *)
Lemma page_configuracoes_salvar_70 :
  aviso_soma (preencher_alocacao entrada_acoes_60
                {[ "Ações" := Q2Qc 40; "Ouro" := Q2Qc 10 ]}) = true
  ∧ ∃ s' c' a',
      page_configuracoes_salvar SemFalha entrada_acoes_60
        (Dicionario config_com_alocacao) estado_vazio = (Ok Rerun, s')
      ∧ (load_data 0 CONFIG_FILE true s').1 = Ok (Dicionario c')
      ∧ c' !! "ultimo_backup" = Some (Texto "2024-04-10")
      ∧ c' !! "metas_alocacao" = Some (Alocacao a')
      ∧ a' !! "Ações" = Some (Q2Qc 60) ∧ a' !! "FIIs" = Some (Q2Qc 0)
      ∧ a' !! "Ouro" = Some (Q2Qc 10).
Proof.
  split; [vm_compute; reflexivity|].
  destruct (page_configuracoes_salvar_ok 0 entrada_acoes_60 config_com_alocacao
              {[ "Ações" := Q2Qc 40; "Ouro" := Q2Qc 10 ]} estado_vazio)
    as (s' & c' & a' & Hrun & Hler & Hmetas & Houtros & Hclasses & Hresto);
    [by right|].
  exists s', c', a'. split; [exact Hrun|]. split; [exact Hler|].
  split; [by rewrite Houtros|]. split; [exact Hmetas|].
  split; [|split].
  - rewrite Hclasses by (apply elem_of_cons; by left). reflexivity.
  - rewrite Hclasses by (apply elem_of_cons; right; apply elem_of_cons; by left).
    reflexivity.
  - rewrite Hresto; [reflexivity|].
    intros Hin. repeat (apply elem_of_cons in Hin as [Heq|Hin]; [discriminate|]).
    by apply elem_of_nil in Hin.
Defined.

(** ** The portfolio page and the quote cache *)

Lemma buscar_cotacoes_miss (agora : Z)
    (yf_download : list string → resultado DataFrame) (tickers : list string)
    (s : estado) :
  sem_cotacao_em_cache s agora tickers →
  ∃ prices, buscar_cotacoes_corpo yf_download tickers = Ok prices
    ∧ buscar_cotacoes agora yf_download tickers s
      = (Ok prices, {| disco := disco s; cache_load := cache_load s;
                       cache_cotacoes := <[tickers := (agora, prices)]> (cache_cotacoes s) |}).
Proof.
  intros Hmiss.
  destruct (buscar_cotacoes_corpo_total yf_download tickers) as (prices & Hcorpo & _).
  exists prices. split; [done|]. unfold buscar_cotacoes. rewrite Hcorpo.
  destruct (cache_cotacoes s !! tickers) as [[t v]|] eqn:Hc; [|done].
  specialize (Hmiss t v Hc). destruct (Z.ltb_spec agora (t + TTL_COTACOES)); [lia|done].
Qed.

Lemma valor_mercado_vazio (hs : list investimento) :
  valor_mercado ∅ <$> hs = custo <$> hs.
Proof.
  apply list_fmap_ext. intros i h _. unfold valor_mercado. by rewrite lookup_empty.
Qed.



(** X17. A lookup that ran its body is replayed for the next 1800 seconds:
    a call with the same list of tickers returns the same mapping whatever
    the provider would answer by then, so a lookup that failed keeps the
    empty mapping for that long. A write through [save_data] to any file
    ends this: the next lookup runs its body again. *)
Theorem buscar_cotacoes_cache (agora : Z)
    (yf_download : list string → resultado DataFrame) (tickers : list string)
    (s : estado) :
  sem_cotacao_em_cache s agora tickers →
  ∃ prices s',
    buscar_cotacoes agora yf_download tickers s = (Ok prices, s')
    ∧ buscar_cotacoes_corpo yf_download tickers = Ok prices
    ∧ (∀ agora' yf_download', agora' < agora + 1800 →
         buscar_cotacoes agora' yf_download' tickers s' = (Ok prices, s'))
    ∧ (∀ agora' yf_download' data file_path,
         (buscar_cotacoes agora' yf_download' tickers
            (save_data SemFalha data file_path s').2).1
         = buscar_cotacoes_corpo yf_download' tickers).
Proof.
  intros Hmiss.
  destruct (buscar_cotacoes_miss agora yf_download tickers s Hmiss)
    as (prices & Hcorpo & Hrun).
  eexists prices, _. split; [exact Hrun|]. split; [exact Hcorpo|]. split.
  - intros agora' yf_download' Hfresh. unfold buscar_cotacoes at 1.
    cbn [cache_cotacoes]. rewrite lookup_insert_eq. unfold TTL_COTACOES.
    by destruct (Z.ltb_spec agora' (agora + 1800)); [|lia].
  - intros agora' yf_download' data file_path. rewrite save_data_ok.
    unfold buscar_cotacoes. cbn [snd cache_cotacoes]. rewrite lookup_empty.
    destruct (buscar_cotacoes_corpo_total yf_download' tickers) as (prices' & -> & _).
    done.
Qed.

(** A lookup without network at second 0: at second 1799 the provider
    answers, and the lookup still returns the empty mapping; after a
    transaction is saved it returns the two quotes. *)
Lemma buscar_cotacoes_cache_sem_rede :
  ∃ s',
    buscar_cotacoes 0 yf_sem_rede ["PETR4"; "VALE3"] estado_vazio = (Ok ∅, s')
    ∧ buscar_cotacoes 1799 yf_petr4 ["PETR4"; "VALE3"] s' = (Ok ∅, s')
    ∧ (buscar_cotacoes 1799 yf_petr4 ["PETR4"; "VALE3"]
         (save_data SemFalha (Lista []) LANCAMENTOS_FILE s').2).1
      = Ok cotacoes_petr4.
Proof.
  destruct (buscar_cotacoes_cache 0 yf_sem_rede ["PETR4"; "VALE3"] estado_vazio)
    as (prices & s' & Hrun & Hcorpo & Hreplay & Hsave).
  { intros t v Hc. cbn [estado_vazio cache_cotacoes] in Hc.
    by rewrite lookup_empty in Hc. }
  injection Hcorpo as <-. exists s'. split; [exact Hrun|].
  split; [by apply Hreplay|]. rewrite Hsave. vm_compute. reflexivity.
Defined.

(** ** The start of a script run *)

Lemma nao_e_snapshot (p hoje_str : string) :
  p ∈ CONFIG_FILE :: files_to_backup →
  ∀ f, f ∈ files_to_backup → p ≠ backup_path f hoje_str.
Proof.
  intros Hp f Hf Heq. symmetry in Heq. revert Heq. by apply backup_path_nao_e_dado.
Qed.

(** [setup_data_files] on files that all exist. *)
Lemma setup_data_files_completo (s : estado) :
  (∀ p, p ∈ data_files → is_Some (disco s !! p)) →
  setup_data_files s = (Ok (), s).
Proof.
  intros Hex. unfold setup_data_files. destruct s as [d cl cq]. cbn [disco] in *.
  do 2 f_equal. apply map_eq. intros p. rewrite setup_lookup.
  destruct (d !! p) eqn:Hp; [done|].
  rewrite bool_decide_eq_false_2; [done|]. intros Hin.
  destruct (Hex p Hin) as [a Ha]. congruence.
Qed.

(** A run that finds the backup of the day made and the month marked
    writes nothing. *)
Lemma inicializar_feito (agora : Z) (hoje : datetime) (uuid : nat → string)
    (fcopia : string → falha) (fsave f1 f2 : falha) (s : estado)
    (c : gmap string campo) :
  (∀ p, p ∈ data_files → is_Some (disco s !! p)) →
  visao s agora CONFIG_FILE true = Dicionario c →
  c !! "ultimo_backup" = Some (Texto (strftime_Ymd hoje)) → marcado c hoje →
  ∃ s', inicializar agora hoje uuid fcopia fsave f1 f2 s = (Ok Retorna, s')
    ∧ disco s' = disco s.
Proof.
  intros Hex Hc Hb Hm. unfold inicializar.
  rewrite bind_run, setup_data_files_completo by done.
  unfold criar_backup_diario. rewrite !bind_run.
  destruct (load_data_visao agora CONFIG_FILE true s) as (s1 & -> & Hd1 & _ & Hv1 & _).
  rewrite Hc, copiar_e_marcar_feito by done.
  destruct (processar_recorrentes_visao agora hoje uuid f1 f2 s1)
    as (s2 & -> & Hd2 & _).
  rewrite (Hv1 CONFIG_FILE true), Hc, materializar_marcado by done.
  exists s2. split; [done|]. congruence.
Qed.

(** X18. The start of a script run sets up the files, makes the backup and
    then materialises the templates. On a day whose backup is not made, in
    a month that is not marked and has transactions to generate, with
    nothing failing: the run ends in [st.rerun()]; the snapshot of the
    transactions holds them as they were before the run, without the
    transactions generated, while the transaction file has them appended;
    the configuration holds both marks. The run that follows on the same
    day writes nothing, so the snapshot of that day stays without the
    generated transactions. *)
Theorem inicializar_backup_antes (agora : Z) (hoje : datetime) (uuid : nat → string)
    (s : estado) (c : gmap string campo) (ls rs : list registro)
    (novos : list lancamento) :
  coerente s →
  disco s !! CONFIG_FILE = Some (Json (Dicionario c)) →
  disco s !! LANCAMENTOS_FILE = Some (Json (Lista ls)) →
  disco s !! RECORRENTES_FILE = Some (Json (Lista rs)) →
  c !! "ultimo_backup" ≠ Some (Texto (strftime_Ymd hoje)) → ¬ marcado c hoje →
  novos_lancamentos hoje uuid 0 rs = Ok novos → novos ≠ [] →
  ∃ s',
    inicializar agora hoje uuid sem_falha_copia SemFalha SemFalha SemFalha s
    = (Ok Rerun, s')
    ∧ disco s' !! backup_path LANCAMENTOS_FILE (strftime_Ymd hoje)
      = Some (Json (Lista ls))
    ∧ disco s' !! LANCAMENTOS_FILE = Some (Json (Lista (ls ++ (Lanc <$> novos))))
    ∧ disco s' !! CONFIG_FILE
      = Some (Json (Dicionario
                (<["ultimo_mes_recorrente" := Texto (strftime_Ym hoje)]>
                   (<["ultimo_backup" := Texto (strftime_Ymd hoje)]> c))))
    ∧ ∀ agora' uuid' fcopia fsave f1 f2,
        ∃ s'', inicializar agora' hoje uuid' fcopia fsave f1 f2 s' = (Ok Retorna, s'')
          ∧ disco s'' = disco s'.
Proof.
  intros Hco Hc Hl Hr Hb Hm Hnovos Hum.
  destruct arquivos_distintos as (Hrl & Hrc & Hlc).
  assert (LANCAMENTOS_FILE ∈ files_to_backup) as Hlin by (apply elem_of_cons; by left).
  assert (RECORRENTES_FILE ∈ files_to_backup) as Hrin.
  { do 2 (apply elem_of_cons; right). apply elem_of_cons. by left. }
  assert (CONFIG_FILE ∈ CONFIG_FILE :: files_to_backup) as Hcin
    by (apply elem_of_cons; by left).
  set (hoje_str := strftime_Ymd hoje).
  (* the files are set up *)
  set (s0 := (setup_data_files s).2).
  assert (setup_data_files s = (Ok (), s0)) as Hsetup by reflexivity.
  assert (∀ p a, disco s !! p = Some a → disco s0 !! p = Some a) as Hs0.
  { intros p a Hp. unfold s0, setup_data_files. cbn [snd disco].
    by rewrite setup_lookup, Hp. }
  assert (∀ p, p ∈ data_files → is_Some (disco s0 !! p)) as Hex0.
  { intros p Hp. unfold s0, setup_data_files. cbn [snd disco].
    rewrite setup_lookup, bool_decide_eq_true_2 by done. by destruct (disco s !! p). }
  assert (visao s0 agora CONFIG_FILE true = Dicionario c) as Hv0.
  { unfold visao. change (cache_load s0) with (cache_load s).
    assert (ler_arquivo (disco s0) CONFIG_FILE true = Dicionario c) as Hler.
    { unfold ler_arquivo. by rewrite (Hs0 _ _ Hc). }
    rewrite Hler.
    destruct (cache_load s !! (CONFIG_FILE, true)) as [[t v]|] eqn:Hcache; [|done].
    rewrite (Hco _ _ _ _ Hcache). unfold ler_arquivo. rewrite Hc.
    by destruct (agora <? t + TTL_LOAD). }
  (* the backup is made *)
  unfold inicializar. rewrite bind_run, Hsetup.
  unfold criar_backup_diario. rewrite !bind_run.
  destruct (load_data_visao agora CONFIG_FILE true s0) as (s1 & -> & Hd1 & _).
  rewrite Hv0, copiar_e_marcar_pendente by done. fold hoje_str.
  set (c1 := <["ultimo_backup" := Texto hoje_str]> c).
  set (d2 := <[CONFIG_FILE := Json (Dicionario c1)]>
               (foldl (com_snapshot (disco s1) hoje_str) (disco s1) files_to_backup)).
  set (s2 := {| disco := d2; cache_load := ∅; cache_cotacoes := ∅ |}).
  assert (∀ p, p ∈ files_to_backup → d2 !! p = disco s0 !! p) as Hd2.
  { intros p Hp. unfold d2. rewrite lookup_insert_ne.
    - rewrite com_snapshot_outros, Hd1; [done|].
      apply nao_e_snapshot, elem_of_cons. by right.
    - intros <-. revert Hp. unfold files_to_backup. rewrite !elem_of_cons, elem_of_nil.
      intros [H|[H|[H|[H|[]]]]]; vm_compute in H; discriminate H. }
  assert (d2 !! backup_path LANCAMENTOS_FILE hoje_str = Some (Json (Lista ls))) as Hsnap.
  { unfold d2. rewrite lookup_insert_ne by (by apply nao_e_snapshot).
    apply com_snapshot_copia; [|by rewrite Hd1; apply Hs0|by left].
    intros g Hg Heq. by apply (backup_path_inj g LANCAMENTOS_FILE hoje_str). }
  (* the templates are materialised *)
  destruct (processar_recorrentes_visao agora hoje uuid SemFalha SemFalha s2)
    as (s3 & -> & Hd3 & _).
  rewrite !visao_sem_cache by done. unfold ler_arquivo. cbn [s2 disco].
  rewrite (Hd2 _ Hrin), (Hs0 _ _ Hr), (Hd2 _ Hlin), (Hs0 _ _ Hl).
  unfold d2 at 1. rewrite lookup_insert_eq.
  assert (¬ marcado c1 hoje) as Hm1.
  { unfold marcado, c1. by rewrite lookup_insert_ne. }
  rewrite (materializar_sucesso hoje uuid rs ls c1 novos Hnovos Hum Hm1).
  exists (apos_materializar s3 hoje ls novos c1). split; [reflexivity|].
  cbn [apos_materializar disco]. rewrite Hd3.
  cbn [s2 disco]. split; [|split; [|split]].
  - rewrite lookup_insert_ne by (by apply nao_e_snapshot).
    rewrite lookup_insert_ne; [done|].
    apply nao_e_snapshot; [apply elem_of_cons; by right|done].
  - rewrite lookup_insert_ne by done. apply lookup_insert_eq.
  - apply lookup_insert_eq.
  - intros agora' uuid' fcopia fsave f1 f2.
    destruct (inicializar_feito agora' hoje uuid' fcopia fsave f1 f2
                (apos_materializar s3 hoje ls novos c1)
                (<["ultimo_mes_recorrente" := Texto (strftime_Ym hoje)]> c1))
      as (s'' & Hrun & Hd);
      [| | | |exists s''; split; [exact Hrun|];
              rewrite Hd; cbn [apos_materializar disco]; by rewrite Hd3].
    + intros p Hp. cbn [apos_materializar disco]. rewrite Hd3. cbn [s2 disco].
      destruct (decide (p = CONFIG_FILE)) as [->|Hpc];
        [rewrite lookup_insert_eq; by eexists|rewrite lookup_insert_ne by done].
      destruct (decide (p = LANCAMENTOS_FILE)) as [->|Hpl];
        [rewrite lookup_insert_eq; by eexists|rewrite lookup_insert_ne by done].
      rewrite Hd2; [by apply Hex0|].
      revert Hp Hpc Hpl. unfold data_files, files_to_backup.
      rewrite !elem_of_cons, !elem_of_nil. tauto.
    + rewrite visao_sem_cache by done. unfold ler_arquivo.
      cbn [apos_materializar disco]. by rewrite lookup_insert_eq.
    + rewrite lookup_insert_ne by done. apply lookup_insert_eq.
    + unfold marcado. apply lookup_insert_eq.
Qed.

(** The first run of 10 April 2024 on an installation with one transaction
    and one template: the snapshot holds the one transaction, the file
    holds it and the rent of April. *)
Lemma inicializar_abril :
  ∃ s',
    inicializar 0 abril_2024 uuid_exemplo sem_falha_copia SemFalha SemFalha SemFalha
      estado_com_lancamento_e_recorrente = (Ok Rerun, s')
    ∧ disco s' !! "data/backup/lancamentos.json_2024-04-10.json"
      = Some (Json (Lista [Lanc (despesa "Mercado" (Q2Qc 80))]))
    ∧ disco s' !! LANCAMENTOS_FILE
      = Some (Json (Lista [Lanc (despesa "Mercado" (Q2Qc 80)); Lanc aluguel_abril])).
Proof.
  destruct (inicializar_backup_antes 0 abril_2024 uuid_exemplo
              estado_com_lancamento_e_recorrente ∅
              [Lanc (despesa "Mercado" (Q2Qc 80))] [Rec recorrente_31] [aluguel_abril])
    as (s' & Hrun & Hsnap & Hfile & _).
  - intros p b t v Hcache. cbn [estado_com_lancamento_e_recorrente cache_load] in Hcache.
    by rewrite lookup_empty in Hcache.
  - reflexivity.
  - reflexivity.
  - reflexivity.
  - by rewrite lookup_empty.
  - unfold marcado. by rewrite lookup_empty.
  - vm_compute. reflexivity.
  - discriminate.
  - exists s'. split; [exact Hrun|]. split; [exact Hsnap|exact Hfile].
Defined.

(** ** Display order *)

Lemma compare_Lt_trans (s1 s2 s3 : string) :
  String.compare s1 s2 = Lt → String.compare s2 s3 = Lt → String.compare s1 s3 = Lt.
Proof.
  revert s2 s3. induction s1 as [|c1 s1 IH]; intros [|c2 s2] [|c3 s3];
    cbn [String.compare]; try done.
  unfold Ascii.compare.
  destruct (N.compare_spec (N_of_ascii c1) (N_of_ascii c2)) as [H12|H12|H12];
    destruct (N.compare_spec (N_of_ascii c2) (N_of_ascii c3)) as [H23|H23|H23];
    try done; intros Ha Hb.
  - rewrite H12, H23, N.compare_refl. by apply (IH s2).
  - by rewrite (proj2 (N.compare_lt_iff _ _)) by lia.
  - by rewrite (proj2 (N.compare_lt_iff _ _)) by lia.
  - by rewrite (proj2 (N.compare_lt_iff _ _)) by lia.
Qed.

Lemma ltb_trans (s1 s2 s3 : string) :
  String.ltb s1 s2 = true → String.ltb s2 s3 = true → String.ltb s1 s3 = true.
Proof.
  unfold String.ltb. intros H12 H23.
  rewrite (compare_Lt_trans s1 s2 s3); [done| |].
  - by destruct (String.compare s1 s2).
  - by destruct (String.compare s2 s3).
Qed.

Lemma ltb_asym (s1 s2 : string) :
  String.ltb s1 s2 = true → String.ltb s2 s1 = false.
Proof.
  unfold String.ltb. rewrite (String.compare_antisym s1 s2).
  by destruct (String.compare s2 s1).
Qed.

Section Sorted.

Context {A : Type} (key : A → string) (reverse : bool).

Lemma antes_trans (x y z : A) :
  antes key reverse x y = true → antes key reverse y z = true →
  antes key reverse x z = true.
Proof.
  unfold antes. destruct reverse; intros Hxy Hyz;
    [by apply (ltb_trans _ (key y))|by apply (ltb_trans _ (key y))].
Qed.

Lemma antes_asym (x y : A) :
  antes key reverse x y = true → antes key reverse y x = false.
Proof. unfold antes. destruct reverse; apply ltb_asym. Qed.

Lemma inserir_antes (x : A) (l : list A) :
  inserir key reverse x l
  = match l with
    | [] => [x]
    | y :: r =>
        if antes key reverse x y then x :: y :: r else y :: inserir key reverse x r
    end.
Proof. destruct l; [done|]. unfold antes. by destruct reverse. Qed.

Lemma inserir_perm (x : A) (l : list A) : inserir key reverse x l ≡ₚ x :: l.
Proof.
  induction l as [|y r IH]; [done|]. rewrite inserir_antes.
  destruct (antes key reverse x y); [done|]. rewrite IH. apply Permutation_swap.
Qed.

Lemma sorted_snoc (l : list A) (x : A) :
  sorted key reverse (l ++ [x]) = inserir key reverse x (sorted key reverse l).
Proof. unfold sorted. by rewrite foldl_app. Qed.

Lemma sorted_perm (l : list A) : sorted key reverse l ≡ₚ l.
Proof.
  induction l as [|x l IH] using rev_ind; [done|].
  rewrite sorted_snoc, inserir_perm, IH. by rewrite Permutation_cons_append.
Qed.

Lemma inserir_ordenada (x : A) (l : list A) :
  ordenada key reverse l → ordenada key reverse (inserir key reverse x l).
Proof.
  induction l as [|y r IH]; [by repeat constructor|]. intros [Hy Hr].
  rewrite inserir_antes. destruct (antes key reverse x y) eqn:Hxy.
  - split; [|by split]. constructor; [by apply antes_asym|].
    apply Forall_forall. intros z Hz. rewrite Forall_forall in Hy.
    specialize (Hy z Hz). cbv beta in Hy.
    destruct (antes key reverse z x) eqn:Hzx; [|done].
    by rewrite (antes_trans z x y) in Hy.
  - split; [|by apply IH]. rewrite inserir_perm. by constructor.
Qed.

Lemma sorted_ordenada (l : list A) : ordenada key reverse (sorted key reverse l).
Proof.
  induction l as [|x l IH] using rev_ind; [done|].
  rewrite sorted_snoc. by apply inserir_ordenada.
Qed.

Lemma filter_nenhum (P : A → Prop) `{∀ x, Decision (P x)} (l : list A) :
  Forall (λ z, ¬ P z) l → filter P l = [].
Proof.
  induction 1 as [|z l Hz _ IH]; [done|]. by rewrite filter_cons, decide_False.
Qed.

(** Equal keys keep their order. *)
Lemma inserir_estavel (k : string) (x : A) (l : list A) :
  ordenada key reverse l →
  filter (λ z, key z = k) (inserir key reverse x l)
  = filter (λ z, key z = k) (l ++ [x]).
Proof.
  induction l as [|y r IH]; [done|]. intros [Hy Hr].
  rewrite inserir_antes. destruct (antes key reverse x y) eqn:Hxy.
  - rewrite filter_app, (filter_cons _ x), (filter_cons _ x []), filter_nil.
    destruct (decide (key x = k)) as [Hk|Hk]; [|by rewrite app_nil_r].
    rewrite filter_nenhum; [done|].
    assert (∀ z, key z = k → antes key reverse z y = true) as Hz.
    { intros z Hzk. revert Hxy. unfold antes. by rewrite Hk, Hzk. }
    constructor.
    + intros Hyk. apply Hz in Hyk as Hyy. apply antes_asym in Hyy as Hyy'. congruence.
    + apply Forall_forall. intros z Hin Hzk. rewrite Forall_forall in Hy.
      specialize (Hy z Hin). cbv beta in Hy. rewrite (Hz z Hzk) in Hy. done.
  - change ((y :: r) ++ [x]) with (y :: (r ++ [x])).
    rewrite !(filter_cons _ y), IH by done. done.
Qed.

Lemma sorted_estavel (k : string) (l : list A) :
  filter (λ z, key z = k) (sorted key reverse l) = filter (λ z, key z = k) l.
Proof.
  induction l as [|x l IH] using rev_ind; [done|].
  rewrite sorted_snoc, inserir_estavel by apply sorted_ordenada.
  by rewrite !filter_app, IH.
Qed.

End Sorted.

Lemma ordenada_lookup {A} (key : A → string) (reverse : bool) (l : list A)
    (i j : nat) (a b : A) :
  ordenada key reverse l → (i < j)%nat → l !! i = Some a → l !! j = Some b →
  antes key reverse b a = false.
Proof.
  revert i j. induction l as [|x l IH]; intros i j Hord Hij Ha Hb; [done|].
  destruct Hord as [Hx Hl].
  destruct j as [|j]; [lia|]. destruct i as [|i].
  - injection Ha as ->. rewrite Forall_forall in Hx. apply Hx.
    by apply (list_elem_of_lookup_2 l j).
  - apply (IH i j); [done|lia|done|done].
Qed.

(** X19. The history of transactions shows each transaction of the list
    once, latest date first: no row has a date later than the date of a row
    above it, and transactions of the same date come in the order of the
    list. The table of holdings shows each holding once by ticker, smallest
    first, holdings of one ticker in the order of the list. Every
    transaction shown is in the list, so its delete button finds it. *)
Theorem listas_ordenadas (lancamentos : list lancamento)
    (investimentos : list investimento) :
  lancamentos_ordenados lancamentos ≡ₚ lancamentos
  ∧ (∀ i j a b, (i < j)%nat →
       lancamentos_ordenados lancamentos !! i = Some a →
       lancamentos_ordenados lancamentos !! j = Some b →
       String.ltb (l_data a) (l_data b) = false)
  ∧ (∀ data, filter (λ x, l_data x = data) (lancamentos_ordenados lancamentos)
             = filter (λ x, l_data x = data) lancamentos)
  ∧ investimentos_ordenados investimentos ≡ₚ investimentos
  ∧ (∀ i j a b, (i < j)%nat →
       investimentos_ordenados investimentos !! i = Some a →
       investimentos_ordenados investimentos !! j = Some b →
       String.ltb (i_ticker b) (i_ticker a) = false)
  ∧ (∀ ticker, filter (λ x, i_ticker x = ticker) (investimentos_ordenados investimentos)
               = filter (λ x, i_ticker x = ticker) investimentos)
  ∧ (∀ item, item ∈ lancamentos_ordenados lancamentos →
       ∃ l1 l2, lancamentos = l1 ++ (item :: l2)
         ∧ list_remove item lancamentos = Ok (l1 ++ l2)).
Proof.
  unfold lancamentos_ordenados, investimentos_ordenados.
  split; [apply sorted_perm|]. split.
  { intros i j a b Hij Ha Hb.
    apply (ordenada_lookup l_data true _ i j a b (sorted_ordenada _ _ _) Hij Ha Hb). }
  split; [intros data; apply sorted_estavel|].
  split; [apply sorted_perm|]. split.
  { intros i j a b Hij Ha Hb.
    apply (ordenada_lookup i_ticker false _ i j a b (sorted_ordenada _ _ _) Hij Ha Hb). }
  split; [intros ticker; apply sorted_estavel|].
  intros item Hin. rewrite sorted_perm in Hin.
  destruct (list_remove_elem_of item lancamentos Hin) as (l1 & l2 & Heq & _ & Hrem).
  by exists l1, l2.
Qed.

(** ** The other forms and delete buttons *)

(** An item edited in place: the others and the identifiers stay. *)
Lemma editar_no_lugar {A} (id_de : A → string) (g : A → A) (itens : list A)
    (editing_id : option string) (i : nat) :
  (∀ x, id_de (g x) = id_de x) →
  item_para_editar id_de itens editing_id = Some i →
  ∃ item, itens !! i = Some item ∧ editing_id = Some (id_de item)
    ∧ alter g i itens !! i = Some (g item)
    ∧ (∀ j, j ≠ i → alter g i itens !! j = itens !! j)
    ∧ id_de <$> alter g i itens = id_de <$> itens.
Proof.
  intros Hid Hsome.
  apply item_para_editar_Some in Hsome as (id' & item & -> & Hne & Hi & <- & Hmin).
  exists item. split; [done|]. split; [done|]. split; [|split].
  - by rewrite list_lookup_alter_eq, Hi.
  - intros j Hj. by rewrite list_lookup_alter_ne.
  - apply list_eq. intros j. rewrite !list_lookup_fmap.
    destruct (decide (i = j)) as [<-|Hj].
    + rewrite list_lookup_alter_eq, Hi. cbn. by rewrite Hid.
    + by rewrite list_lookup_alter_ne.
Qed.

Lemma valido3 (texto : string) (n1 n2 : Qc) :
  texto ≠ "" → (0 < n1)%Qc → (0 < n2)%Qc →
  String.eqb texto "" || bool_decide (n1 ≤ 0)%Qc || bool_decide (n2 ≤ 0)%Qc = false.
Proof.
  intros Ht H1 H2. rewrite valido by done.
  rewrite bool_decide_eq_false_2; [done|]. by apply Qclt_not_le.
Qed.





(** X22. The delete buttons of the templates, of the holdings and of the
    goals: for an item of the list loaded the list is written without the
    first occurrence of that item, the others in their order, and with
    unique identifiers no item written has the identifier of the deleted
    one; for an item that is not in the list [remove] raises and nothing is
    written. *)
Theorem botoes_excluir (agora : Z) (s : estado) :
  (∀ (recorrentes : list recorrente) item,
     (item ∈ recorrentes →
      ∃ l1 l2 s', recorrentes = l1 ++ (item :: l2) ∧ (item ∉ l1)
        ∧ page_lancamentos_excluir_recorrente SemFalha recorrentes item s
          = (Ok Rerun, s')
        ∧ (load_data agora RECORRENTES_FILE false s').1
          = Ok (Lista (Rec <$> (l1 ++ l2)))
        ∧ (NoDup (r_id <$> recorrentes) → r_id item ∉ r_id <$> (l1 ++ l2)))
     ∧ (item ∉ recorrentes →
        ∀ f, page_lancamentos_excluir_recorrente f recorrentes item s
             = (Raise ValueError, s)))
  ∧ (∀ (investimentos : list investimento) item,
     (item ∈ investimentos →
      ∃ l1 l2 s', investimentos = l1 ++ (item :: l2) ∧ (item ∉ l1)
        ∧ page_investimentos_excluir SemFalha investimentos item s = (Ok Rerun, s')
        ∧ (load_data agora INVESTIMENTOS_FILE false s').1
          = Ok (Lista (Inv <$> (l1 ++ l2)))
        ∧ (NoDup (i_id <$> investimentos) → i_id item ∉ i_id <$> (l1 ++ l2)))
     ∧ (item ∉ investimentos →
        ∀ f, page_investimentos_excluir f investimentos item s
             = (Raise ValueError, s)))
  ∧ (∀ (metas : list meta) item,
     (item ∈ metas →
      ∃ l1 l2 s', metas = l1 ++ (item :: l2) ∧ (item ∉ l1)
        ∧ page_metas_excluir SemFalha metas item s = (Ok Rerun, s')
        ∧ (load_data agora METAS_FILE false s').1 = Ok (Lista (Meta <$> (l1 ++ l2)))
        ∧ (NoDup (m_id <$> metas) → m_id item ∉ m_id <$> (l1 ++ l2)))
     ∧ (item ∉ metas →
        ∀ f, page_metas_excluir f metas item s = (Raise ValueError, s))).
Proof.
  split; [|split]; intros itens item; split.
  - intros Hin. destruct (list_remove_elem_of item itens Hin)
      as (l1 & l2 & -> & Hl1 & Hrem).
    exists l1, l2. eexists. split; [done|]. split; [done|].
    unfold page_lancamentos_excluir_recorrente.
    rewrite bind_run. cbn [lift]. rewrite Hrem, bind_run.
    split; [rewrite save_data_ok; reflexivity|]. split.
    + apply (leitura_apos_save agora _ RECORRENTES_FILE s false).
    + apply nodup_sem_id.
  - intros Hin f. unfold page_lancamentos_excluir_recorrente.
    rewrite bind_run. cbn [lift]. by rewrite list_remove_not_elem_of.
  - intros Hin. destruct (list_remove_elem_of item itens Hin)
      as (l1 & l2 & -> & Hl1 & Hrem).
    exists l1, l2. eexists. split; [done|]. split; [done|].
    unfold page_investimentos_excluir.
    rewrite bind_run. cbn [lift]. rewrite Hrem, bind_run.
    split; [rewrite save_data_ok; reflexivity|]. split.
    + apply (leitura_apos_save agora _ INVESTIMENTOS_FILE s false).
    + apply nodup_sem_id.
  - intros Hin f. unfold page_investimentos_excluir.
    rewrite bind_run. cbn [lift]. by rewrite list_remove_not_elem_of.
  - intros Hin. destruct (list_remove_elem_of item itens Hin)
      as (l1 & l2 & -> & Hl1 & Hrem).
    exists l1, l2. eexists. split; [done|]. split; [done|].
    unfold page_metas_excluir.
    rewrite bind_run. cbn [lift]. rewrite Hrem, bind_run.
    split; [rewrite save_data_ok; reflexivity|]. split.
    + apply (leitura_apos_save agora _ METAS_FILE s false).
    + apply nodup_sem_id.
  - intros Hin f. unfold page_metas_excluir.
    rewrite bind_run. cbn [lift]. by rewrite list_remove_not_elem_of.
Qed.
